(** * HelperGPT front-end controller (src/frontend/app.js)

    A shallow embedding of the [HelperGPT] class: the session fields, the
    chat history, the document list and the part of the page the controller
    reads and writes, together with the handlers that the page's events call.

    Conventions of the embedding.
    - A JavaScript string is a [string] whose characters are the code units
      U+0000..U+00FF; [String.length] is then the [.length] of the source.
    - A value received from the backend (JSON) or held in a field is a
      [jsval]; numbers are kept as integers, the modelled paths never compute
      with them.
    - An [async] method is a [prog]: a tree of synchronous steps, network
      requests, [confirm] dialogs and suspension points.  [run] executes one
      call to completion against the answers of the network and of the user;
      [Loop.perform] interleaves the calls at their suspension points the way
      the event loop does.
    - An object is the list of its own properties, looked up from the
      front; properties that shadow those of [Object.prototype] are not
      modelled.
    - Rendering of HTML text, console output, timers and scrolling are not
      modelled; a rendered item is kept as a structured [node].
    - Left out, as nothing below depends on them: the team and project
      selectors ([loadTeamsFromAPI], [populateTeamSelect],
      [updateProjectSelect]), [testConnection], [downloadSource] and the
      wiring of events to methods in [bindEvents] and [setupFileUpload]. *)

From Stdlib Require Import ZArith List String Ascii Bool Lia.
From stdpp Require Import base option gmap strings list.
Import ListNotations.
Set Warnings "-register-all".

(** ** JavaScript strings and values *)

Module Js.

(** [String.prototype.trim] removes white space and line terminators; below
    U+0100 these are TAB, LF, VT, FF, CR, SPACE and NBSP. *)
Definition is_white (c : ascii) : bool :=
  let n := nat_of_ascii c in
  ((9 <=? n) && (n <=? 13) || (n =? 32) || (n =? 160))%nat.

Fixpoint trimStart (s : string) : string :=
  match s with
  | EmptyString => EmptyString
  | String c s' => if is_white c then trimStart s' else s
  end.

Fixpoint rev_onto (s acc : string) : string :=
  match s with
  | EmptyString => acc
  | String c s' => rev_onto s' (String c acc)
  end.

Definition reverse (s : string) : string := rev_onto s EmptyString.

Definition trimEnd (s : string) : string := reverse (trimStart (reverse s)).

Definition trim (s : string) : string := trimEnd (trimStart s).

(** [String.prototype.toLowerCase] below U+0100: A-Z, and the accented
    capitals U+00C0..U+00DE except the multiplication sign U+00D7. *)
Definition lower_char (c : ascii) : ascii :=
  let n := nat_of_ascii c in
  if (((65 <=? n) && (n <=? 90))
      || ((192 <=? n) && (n <=? 222) && negb (n =? 215)))%nat
  then ascii_of_nat (n + 32) else c.

Fixpoint toLowerCase (s : string) : string :=
  match s with
  | EmptyString => EmptyString
  | String c s' => String (lower_char c) (toLowerCase s')
  end.

(** [s.split(sep)] for a one-character separator: never empty. *)
Fixpoint split (sep : ascii) (s : string) : list string :=
  match s with
  | EmptyString => [EmptyString]
  | String c s' =>
      if Ascii.eqb c sep then EmptyString :: split sep s'
      else match split sep s' with
           | [] => [String c EmptyString]
           | seg :: segs => String c seg :: segs
           end
  end.

Inductive jsval : Type :=
| VUndefined
| VNull
| VBool (b : bool)
| VNum (n : Z)
| VStr (s : string)
| VArr (items : list jsval)
| VObj (fields : list (string * jsval)).

(** Truthiness, as [if (v)], [!v] and [||] use it. *)
Definition truthy (v : jsval) : bool :=
  match v with
  | VUndefined | VNull => false
  | VBool b => b
  | VNum n => negb (n =? 0)%Z
  | VStr s => negb (String.eqb s "")
  | VArr _ | VObj _ => true
  end.

Definition or_else (a b : jsval) : jsval := if truthy a then a else b.

Fixpoint assoc (k : string) (fs : list (string * jsval)) : jsval :=
  match fs with
  | [] => VUndefined
  | (k', v) :: fs' => if String.eqb k k' then v else assoc k fs'
  end.

(** [v.k] for a property name that no prototype defines: [None] is the
    [TypeError] of reading a property of [null] or [undefined]. *)
Definition prop (v : jsval) (k : string) : option jsval :=
  match v with
  | VUndefined | VNull => None
  | VObj fs => Some (assoc k fs)
  | _ => Some VUndefined
  end.

(** [v?.k] *)
Definition opt_prop (v : jsval) (k : string) : jsval :=
  match prop v k with Some x => x | None => VUndefined end.

Fixpoint nth_char (s : string) (i : nat) : jsval :=
  match s, i with
  | EmptyString, _ => VUndefined
  | String c _, O => VStr (String c EmptyString)
  | String _ s', S i' => nth_char s' i'
  end.

(** [v[i]] for a number [i]; an object is looked up under the key that
    prints [i] (only [0], [1], [2], [3] and [6] occur in the source). *)
Definition index (v : jsval) (i : nat) (key : string) : option jsval :=
  match v with
  | VUndefined | VNull => None
  | VArr l => Some (List.nth i l VUndefined)
  | VStr s => Some (nth_char s i)
  | VObj fs => Some (assoc key fs)
  | _ => Some VUndefined
  end.

Definition is_nullish (v : jsval) : bool :=
  match v with VUndefined | VNull => true | _ => false end.

End Js.
Export Js.

(** ** The page, the requests and the controller's fields *)

Record file := File { file_name : string; file_size : Z }.

(** What the controller puts inside an element. *)
Inductive node : Type :=
| FileItem (f : file)
| DocumentItem (docId doc : jsval)
| HistoryItem (question : string)
| ResultItem (question : string) (answer : jsval) (sources : list jsval)
             (confidence : jsval)
| OptionItem (value label : string)
| TextContent (v : jsval)
| TotalSize (docs : list jsval).

(** The properties of an element that the controller reads or writes:
    membership of the class [hidden], [style.display], [value], [files] and
    the children it renders. *)
Record element := Element {
  el_hidden : bool;
  el_display : string;
  el_value : string;
  el_files : list file;
  el_children : list node;
}.

Definition set_hidden (b : bool) (d : string) (e : element) : element :=
  {| el_hidden := b; el_display := d; el_value := el_value e;
     el_files := el_files e; el_children := el_children e |}.

Definition add_hidden (e : element) : element :=
  {| el_hidden := true; el_display := el_display e; el_value := el_value e;
     el_files := el_files e; el_children := el_children e |}.

Definition remove_hidden (e : element) : element :=
  {| el_hidden := false; el_display := el_display e; el_value := el_value e;
     el_files := el_files e; el_children := el_children e |}.

Definition set_value (v : string) (e : element) : element :=
  {| el_hidden := el_hidden e; el_display := el_display e; el_value := v;
     el_files := el_files e; el_children := el_children e |}.

Definition set_files (fs : list file) (e : element) : element :=
  {| el_hidden := el_hidden e; el_display := el_display e;
     el_value := el_value e; el_files := fs; el_children := el_children e |}.

Definition set_children (ns : list node) (e : element) : element :=
  {| el_hidden := el_hidden e; el_display := el_display e;
     el_value := el_value e; el_files := el_files e; el_children := ns |}.

Definition append_child (n : node) (e : element) : element :=
  set_children (el_children e ++ [n]) e.

Definition prepend_child (n : node) (e : element) : element :=
  set_children (n :: el_children e) e.

(** The backend's endpoints, [API_BASE] left out. *)
Inductive endpoint : Type :=
| EpHealth
| EpTeams
| EpLogin
| EpDocuments
| EpUpload
| EpDocument (id : jsval)
| EpDownload (id : jsval)
| EpAsk.

Inductive header_value : Type :=
| HLit (s : string)
| HBearer (token : jsval).

Inductive form_part : Type :=
| PartText (s : string)
| PartFile (f : file).

Inductive req_body : Type :=
| NoBody
| JsonBody (v : jsval)
| FormBody (parts : list (string * form_part)).

Record request := Request {
  req_url : endpoint;
  req_method : string;
  req_headers : list (string * header_value);
  req_body_of : req_body;
}.

(** What [fetch] settles to: a rejection, or a response whose body reads as
    text ([res_text]) and parses as JSON ([res_json]) or fails to. *)
Record response := Response {
  res_ok : bool;
  res_status : Z;
  res_statusText : string;
  res_text : option string;
  res_json : option jsval;
}.

Inductive fetch_result : Type :=
| Rejected
| Settled (r : response).

(** What the page does that its user or the network can observe. *)
Inductive event : Type :=
| Notify (message type : string)
| Sent (r : request)
| Asked (message : string)
| Opened (target : endpoint).

Inductive exn : Type :=
| ApiError (status : Z) (errorText : string)
| UploadFailed (statusText : string)
| FetchRejected
| BodyRejected
| TypeError.

Record world := World {
  isLoggedIn : bool;
  currentUser : jsval;
  authToken : jsval;
  chatHistory : list string;
  uploadedDocuments : jsval;
  dom : gmap string element;
  log : list event;
}.

Definition set_isLoggedIn (b : bool) (w : world) : world :=
  {| isLoggedIn := b; currentUser := currentUser w; authToken := authToken w;
     chatHistory := chatHistory w; uploadedDocuments := uploadedDocuments w;
     dom := dom w; log := log w |}.

Definition set_currentUser (v : jsval) (w : world) : world :=
  {| isLoggedIn := isLoggedIn w; currentUser := v; authToken := authToken w;
     chatHistory := chatHistory w; uploadedDocuments := uploadedDocuments w;
     dom := dom w; log := log w |}.

Definition set_authToken (v : jsval) (w : world) : world :=
  {| isLoggedIn := isLoggedIn w; currentUser := currentUser w; authToken := v;
     chatHistory := chatHistory w; uploadedDocuments := uploadedDocuments w;
     dom := dom w; log := log w |}.

Definition set_chatHistory (h : list string) (w : world) : world :=
  {| isLoggedIn := isLoggedIn w; currentUser := currentUser w;
     authToken := authToken w; chatHistory := h;
     uploadedDocuments := uploadedDocuments w; dom := dom w; log := log w |}.

Definition set_uploadedDocuments (v : jsval) (w : world) : world :=
  {| isLoggedIn := isLoggedIn w; currentUser := currentUser w;
     authToken := authToken w; chatHistory := chatHistory w;
     uploadedDocuments := v; dom := dom w; log := log w |}.

Definition set_dom (d : gmap string element) (w : world) : world :=
  {| isLoggedIn := isLoggedIn w; currentUser := currentUser w;
     authToken := authToken w; chatHistory := chatHistory w;
     uploadedDocuments := uploadedDocuments w; dom := d; log := log w |}.

Definition emit (e : event) (w : world) : world :=
  {| isLoggedIn := isLoggedIn w; currentUser := currentUser w;
     authToken := authToken w; chatHistory := chatHistory w;
     uploadedDocuments := uploadedDocuments w; dom := dom w;
     log := log w ++ [e] |}.

(** [const el = document.getElementById(id); if (el) { ... }] *)
Definition with_el (id : string) (f : element -> element) (w : world) : world :=
  set_dom (alter f id (dom w)) w.

Definition getElementById (id : string) (w : world) : option element :=
  dom w !! id.

(** The fields as the constructor leaves them. *)
Definition fresh (w : world) : Prop :=
  isLoggedIn w = false /\ currentUser w = VNull /\ authToken w = VNull /\
  chatHistory w = [] /\ uploadedDocuments w = VArr [].

Definition notices (l : list event) : list (string * string) :=
  flat_map (fun e => match e with Notify m t => [(m, t)] | _ => [] end) l.

Definition requests (l : list event) : list request :=
  flat_map (fun e => match e with Sent r => [r] | _ => [] end) l.

Definition navigations (l : list event) : list endpoint :=
  flat_map (fun e => match e with Opened t => [t] | _ => [] end) l.

(** ** Programs: synchronous steps, requests, dialogs and suspension points *)

Inductive prog (A : Type) : Type :=
| Ret (a : A)
| Throw (e : exn)
| Upd (f : world -> world) (k : prog A)
| Get (k : world -> prog A)
| Fetch (r : request) (k : fetch_result -> prog A)
| Confirm (message : string) (k : bool -> prog A)
| Await (k : prog A).

Arguments Ret {A} a.
Arguments Throw {A} e.
Arguments Upd {A} f k.
Arguments Get {A} k.
Arguments Fetch {A} r k.
Arguments Confirm {A} message k.
Arguments Await {A} k.

Fixpoint bind {A B} (p : prog A) (f : A -> prog B) : prog B :=
  match p with
  | Ret a => f a
  | Throw e => Throw e
  | Upd g k => Upd g (bind k f)
  | Get k => Get (fun w => bind (k w) f)
  | Fetch r k => Fetch r (fun x => bind (k x) f)
  | Confirm m k => Confirm m (fun b => bind (k b) f)
  | Await k => Await (bind k f)
  end.

#[export] Instance prog_ret : MRet prog := @Ret.
#[export] Instance prog_bind : MBind prog := fun A B f p => bind p f.

(** [try { p } catch (e) { h e }] *)
Fixpoint try_catch {A} (p : prog A) (h : exn -> prog A) : prog A :=
  match p with
  | Ret a => Ret a
  | Throw e => h e
  | Upd g k => Upd g (try_catch k h)
  | Get k => Get (fun w => try_catch (k w) h)
  | Fetch r k => Fetch r (fun x => try_catch (k x) h)
  | Confirm m k => Confirm m (fun b => try_catch (k b) h)
  | Await k => Await (try_catch k h)
  end.

(** [try { p } finally { fin }] *)
Definition try_finally {A} (p : prog A) (fin : prog unit) : prog A :=
  r ← try_catch (a ← p; Ret (inl a)) (fun e => Ret (inr e));
  fin;;
  match r with inl a => Ret a | inr e => Throw e end.

Definition upd (f : world -> world) : prog unit := Upd f (Ret tt).
Definition get : prog world := Get Ret.
Definition fetch (r : request) : prog fetch_result := Fetch r Ret.
Definition confirm (message : string) : prog bool := Confirm message Ret.

(** [await p] for a call [p] of an async method: the caller is suspended
    once more when the call has returned. *)
Definition await {A} (p : prog A) : prog A := a ← p; Await (Ret a).

(** [l.forEach(f)] *)
Fixpoint forEach {X} (l : list X) (f : X -> prog unit) : prog unit :=
  match l with
  | [] => Ret tt
  | x :: l' => f x;; forEach l' f
  end.

Inductive result (A : Type) : Type :=
| Returned (a : A)
| Thrown (e : exn).

Arguments Returned {A} a.
Arguments Thrown {A} e.

Record ran (A : Type) := Ran {
  outcome : result A;
  after : world;
  net_rest : list fetch_result;
  usr_rest : list bool;
}.

Arguments Ran {A} outcome after net_rest usr_rest.
Arguments outcome {A} r.
Arguments after {A} r.
Arguments net_rest {A} r.
Arguments usr_rest {A} r.

(** One call run to completion.  [net] holds the network's answers to the
    requests in the order they are sent, [usr] the user's answers to the
    [confirm] dialogs; when the answers run out the request is rejected and the
    dialog cancelled.  Requests and dialogs are entered in the log. *)
Fixpoint run {A} (p : prog A) (net : list fetch_result) (usr : list bool)
    (w : world) : ran A :=
  match p with
  | Ret a => Ran (Returned a) w net usr
  | Throw e => Ran (Thrown e) w net usr
  | Upd f k => run k net usr (f w)
  | Get k => run (k w) net usr w
  | Fetch r k =>
      run (k (List.hd Rejected net)) (List.tl net) usr (emit (Sent r) w)
  | Confirm m k =>
      run (k (List.hd false usr)) net (List.tl usr) (emit (Asked m) w)
  | Await k => run k net usr w
  end.

(** The synchronous part of a call: [Some] when it finishes without sending
    a request and without being suspended. *)
Fixpoint run_sync {A} (p : prog A) (usr : list bool) (w : world)
    : option (result A * world) :=
  match p with
  | Ret a => Some (Returned a, w)
  | Throw e => Some (Thrown e, w)
  | Upd f k => run_sync k usr (f w)
  | Get k => run_sync (k w) usr w
  | Confirm m k => run_sync (k (List.hd false usr)) (List.tl usr) (emit (Asked m) w)
  | Fetch _ _ | Await _ => None
  end.

(** ** The controller's methods *)

Definition showNotification (message type : string) : prog unit :=
  upd (emit (Notify message type)).

Definition updateAuthButtons : prog unit :=
  w ← get;
  if isLoggedIn w then
    upd (with_el "adminLoginBtn" (set_hidden true "none"));;
    upd (with_el "logoutBtn" (set_hidden false "inline-flex"))
  else
    upd (with_el "adminLoginBtn" (set_hidden false "inline-flex"));;
    upd (with_el "logoutBtn" (set_hidden true "none")).

(** [form.reset()], for a form whose controls are [fields] and whose
    defaults are empty. *)
Definition form_reset (form : string) (fields : list string) (w : world) : world :=
  match getElementById form w with
  | Some _ =>
      fold_right (fun id w' => with_el id (fun e => set_files [] (set_value "" e)) w')
                 w fields
  | None => w
  end.

Definition showLoginModal : prog unit :=
  upd (with_el "loginModal" (set_hidden false "flex")).

Definition hideLoginModal : prog unit :=
  upd (with_el "loginModal" (set_hidden true "none"));;
  upd (form_reset "loginForm" ["username"; "password"]).

Definition showUploadProgressModal : prog unit :=
  upd (with_el "uploadProgressModal" (set_hidden false "flex")).

Definition hideUploadProgressModal : prog unit :=
  upd (with_el "uploadProgressModal" (set_hidden true "none")).

Definition hideAllModals : prog unit :=
  hideLoginModal;; hideUploadProgressModal.

Definition showProcessing : prog unit :=
  upd (with_el "processingOverlay" (set_hidden false "flex")).

Definition hideProcessing : prog unit :=
  upd (with_el "processingOverlay" (set_hidden true "none")).

(** [await response.json()], [await response.text()] *)
Definition settle {A} (body : option A) : prog A :=
  Await (match body with Some a => Ret a | None => Throw BodyRejected end).

(** [makeAPICall(endpoint, {method, body})]: no caller passes headers. *)
Definition makeAPICall (ep : endpoint) (method : string) (body : req_body)
    : prog jsval :=
  try_catch
    (w ← get;
     let headers :=
       ("Content-Type", HLit "application/json")
       :: (if truthy (authToken w)
           then [("Authorization", HBearer (authToken w))] else []) in
     res ← fetch (Request ep method headers body);
     match res with
     | Rejected => Throw FetchRejected
     | Settled r =>
         if negb (res_ok r) then
           errorText ← settle (res_text r);
           Throw (ApiError (res_status r) errorText)
         else settle (res_json r)
     end)
    (fun error => Throw error).

Definition updateDocumentStats : prog unit :=
  w ← get;
  match getElementById "totalDocs" w, getElementById "totalSize" w with
  | Some _, Some _ =>
      match uploadedDocuments w with
      | VArr docs =>
          upd (with_el "totalDocs"
                 (set_children [TextContent (VNum (Z.of_nat (length docs)))]));;
          upd (with_el "totalSize" (set_children [TotalSize docs]))
      | _ => Throw TypeError
      end
  | _, _ => Ret tt
  end.

(** [doc.id || doc.document_id || doc._id || doc[0]] *)
Definition docId_of (doc : jsval) : option jsval :=
  a ← prop doc "id";
  b ← prop doc "document_id";
  c ← prop doc "_id";
  d ← index doc 0 "0";
  Some (or_else (or_else (or_else a b) c) d).

Definition renderDocuments : prog unit :=
  w ← get;
  match getElementById "documentsList" w with
  | None => Ret tt
  | Some _ =>
      upd (with_el "documentsList" (set_children []));;
      match uploadedDocuments w with
      | VArr docs =>
          forEach docs (fun doc =>
            match docId_of doc with
            | None => Throw TypeError
            | Some docId =>
                if negb (truthy docId) then Ret tt
                else upd (with_el "documentsList"
                            (append_child (DocumentItem docId doc)))
            end);;
          updateDocumentStats
      | _ => Throw TypeError
      end
  end.

Definition loadDocuments : prog unit :=
  w ← get;
  if negb (isLoggedIn w) then Ret tt
  else
    try_catch
      (response ← await (makeAPICall EpDocuments "GET" NoBody);
       match prop response "documents" with
       | None => Throw TypeError
       | Some documents =>
           if truthy documents then
             upd (set_uploadedDocuments documents);;
             renderDocuments
           else Ret tt
       end)
      (fun _ => showNotification "Failed to load documents" "error").

Definition showAdminPanel : prog unit :=
  upd (with_el "mainView" (set_hidden true "none"));;
  upd (with_el "adminPanel" (set_hidden false "block"));;
  updateAuthButtons;;
  renderDocuments.

Definition showMainView : prog unit :=
  upd (with_el "mainView" (set_hidden false "block"));;
  upd (with_el "adminPanel" (set_hidden true "none"));;
  updateAuthButtons.

Definition handleLogin : prog unit :=
  w ← get;
  match getElementById "username" w, getElementById "password" w with
  | Some usernameEl, Some passwordEl =>
      let username := trim (el_value usernameEl) in
      let password := trim (el_value passwordEl) in
      if String.eqb username "" || String.eqb password "" then
        showNotification "Please enter both username and password" "error"
      else
        try_catch
          (showNotification "Logging in..." "info";;
           response ← await (makeAPICall EpLogin "POST"
                               (JsonBody (VObj [("username", VStr username);
                                                ("password", VStr password)])));
           if truthy (opt_prop response "access_token") then
             upd (set_authToken (opt_prop response "access_token"));;
             upd (set_currentUser (opt_prop response "user"));;
             upd (set_isLoggedIn true);;
             hideLoginModal;;
             showAdminPanel;;
             showNotification "Login successful! Welcome to admin panel." "success";;
             await loadDocuments
           else Ret tt)
          (fun _ =>
             showNotification "Login failed. Please check your credentials." "error")
  | _, _ => Ret tt
  end.

Definition handleLogout : prog unit :=
  upd (set_isLoggedIn false);;
  upd (set_currentUser VNull);;
  upd (set_authToken VNull);;
  upd (set_uploadedDocuments (VArr []));;
  showMainView;;
  showNotification "Logged out successfully" "success".

Definition validTypes : list string := [".txt"; ".pdf"; ".doc"; ".docx"].

(** [a.pop()] of the array that [split] returns, which is never empty. *)
Definition pop (l : list string) : string := List.last l "".

Definition isValidFile (f : file) : bool :=
  let fileExtension := "." +:+ toLowerCase (pop (split "." (file_name f))) in
  existsb (String.eqb fileExtension) validTypes.

Definition createFileItem (f : file) : node := FileItem f.

Definition unsupported (name : string) : string :=
  "File " +:+ name
  +:+ " is not supported. Please upload .txt, .pdf, .doc, or .docx files.".

Definition handleFileSelect (files : list file) : prog unit :=
  w ← get;
  match getElementById "fileList" w with
  | None => Ret tt
  | Some _ =>
      upd (with_el "fileList" (set_children []));;
      forEach files (fun f =>
        if isValidFile f then
          upd (with_el "fileList" (append_child (createFileItem f)))
        else showNotification (unsupported (file_name f)) "error")
  end.

Definition resetUploadForm : prog unit :=
  upd (form_reset "uploadForm" ["teamSelect"; "projectSelect"; "fileInput"]);;
  upd (with_el "fileList" (set_children []));;
  upd (with_el "teamSelect" (set_value ""));;
  upd (with_el "projectSelect"
         (fun e => set_value "" (set_children [OptionItem "" "Select Project"] e))).

Definition formData (team project : string) (files : list file)
    : list (string * form_part) :=
  [("team", PartText team); ("project", PartText project)]
  ++ List.map (fun f => ("files", PartFile f)) files.

Definition uploadFiles (team project : string) (files : list file) : prog unit :=
  showUploadProgressModal;;
  try_catch
    (w ← get;
     res ← fetch (Request EpUpload "POST"
                    [("Authorization", HBearer (authToken w))]
                    (FormBody (formData team project files)));
     match res with
     | Rejected => Throw FetchRejected
     | Settled r =>
         if negb (res_ok r) then Throw (UploadFailed (res_statusText r))
         else
           settle (res_json r);;
           hideUploadProgressModal;;
           showNotification "Files uploaded successfully!" "success";;
           await loadDocuments;;
           resetUploadForm
     end)
    (fun error => hideUploadProgressModal;; Throw error).

Definition handleFileUpload : prog unit :=
  w ← get;
  if negb (isLoggedIn w) then showNotification "Please login first" "error"
  else
    match getElementById "teamSelect" w, getElementById "projectSelect" w,
          getElementById "fileInput" w with
    | Some teamSelect, Some projectSelect, Some fileInput =>
        let team := el_value teamSelect in
        let project := el_value projectSelect in
        let files := el_files fileInput in
        if String.eqb team "" || String.eqb project "" then
          showNotification "Please select both team and project" "error"
        else if (length files =? 0)%nat then
          showNotification "Please select files to upload" "error"
        else
          try_catch (await (uploadFiles team project files))
            (fun _ => showNotification "Upload failed. Please try again." "error")
    | _, _, _ => Ret tt
    end.

(** [!id || id === 'undefined'] *)
Definition invalid_id (id : jsval) : bool :=
  negb (truthy id)
  || match id with VStr s => String.eqb s "undefined" | _ => false end.

Definition downloadDocument (id : jsval) : prog unit :=
  w ← get;
  if negb (isLoggedIn w) then showNotification "Please login first" "error"
  else if invalid_id id then showNotification "Invalid document ID" "error"
  else
    try_catch
      (upd (emit (Opened (EpDownload id)));;
       showNotification "Download started..." "info")
      (fun _ => showNotification "Download failed" "error").

Definition delete_prompt : string :=
  "Are you sure you want to delete this document?".

Definition deleteDocument (id : jsval) : prog unit :=
  w ← get;
  if negb (isLoggedIn w) then showNotification "Please login first" "error"
  else if invalid_id id then showNotification "Invalid document ID" "error"
  else
    yes ← confirm delete_prompt;
    if negb yes then Ret tt
    else
      try_catch
        (await (makeAPICall (EpDocument id) "DELETE" NoBody);;
         showNotification "Document deleted successfully" "success";;
         await loadDocuments)
        (fun _ => showNotification "Delete failed" "error").

(** [this.chatHistory.unshift(question)] and the cut to ten entries. *)
Definition unshift_capped (question : string) (history : list string)
    : list string :=
  let history' := question :: history in
  if (10 <? length history')%nat then firstn 10 history' else history'.

Definition updateChatHistoryDisplay : prog unit :=
  w ← get;
  upd (with_el "chatHistoryList"
         (set_children (List.map HistoryItem (chatHistory w)))).

Definition addToChatHistory (question : string) : prog unit :=
  upd (fun w => set_chatHistory (unshift_capped question (chatHistory w)) w);;
  updateChatHistoryDisplay.

Definition clearChatHistory : prog unit :=
  upd (set_chatHistory []);;
  updateChatHistoryDisplay;;
  upd (with_el "chatHistory" add_hidden).

Definition clearResults : prog unit :=
  upd (with_el "resultsContent" (set_children []));;
  upd (with_el "resultsSection" add_hidden);;
  upd (with_el "chatHistory" add_hidden).

Definition displayResult (question : string) (response : jsval) : prog unit :=
  w ← get;
  match getElementById "resultsSection" w, getElementById "resultsContent" w with
  | Some _, Some _ =>
      upd (with_el "resultsSection" remove_hidden);;
      match prop response "answer", prop response "sources",
            prop response "confidence" with
      | Some answer, Some (VArr sources), Some confidence =>
          if forallb (fun s => negb (is_nullish s)) sources then
            upd (with_el "resultsContent"
                   (prepend_child
                      (ResultItem question answer
                         (List.map (fun s => opt_prop s "filename") sources)
                         confidence)));;
            (if (0 <? length (chatHistory w))%nat
             then upd (with_el "chatHistory" remove_hidden) else Ret tt)
          else Throw TypeError
      | _, _, _ => Throw TypeError
      end
  | _, _ => Ret tt
  end.

Definition handleQuestion : prog unit :=
  w ← get;
  match getElementById "questionInput" w with
  | None => Ret tt
  | Some questionInput =>
      let question := trim (el_value questionInput) in
      if String.eqb question "" then
        showNotification "Please enter a question" "error"
      else if (String.length question <? 3)%nat then
        showNotification "Question must be at least 3 characters long" "error"
      else
        showProcessing;;
        addToChatHistory question;;
        try_finally
          (try_catch
             (response ← await (makeAPICall EpAsk "POST"
                                  (JsonBody (VObj [("question", VStr question)])));
              displayResult question response;;
              upd (with_el "questionInput" (set_value "")))
             (fun _ =>
                showNotification
                  "Failed to process question. Please try again." "error"))
          hideProcessing
  end.

(** ** The event loop *)

(** What the page's user can start.  [bindEvents] and [setupFileUpload]
    attach these to the page's controls; the [onclick] attributes that
    [renderDocuments] writes call [downloadDocument] and [deleteDocument]. *)
Inductive call : Type :=
| HandleLogin
| HandleLogout
| HandleFileSelect (files : list file)
| HandleFileUpload
| DownloadDocument (id : jsval)
| DeleteDocument (id : jsval)
| HandleQuestion
| ClearResults
| ClearChatHistory
| ShowLoginModal
| HideLoginModal
| HideAllModals.

Definition body (c : call) : prog unit :=
  match c with
  | HandleLogin => handleLogin
  | HandleLogout => handleLogout
  | HandleFileSelect files => handleFileSelect files
  | HandleFileUpload => handleFileUpload
  | DownloadDocument id => downloadDocument id
  | DeleteDocument id => deleteDocument id
  | HandleQuestion => handleQuestion
  | ClearResults => clearResults
  | ClearChatHistory => clearChatHistory
  | ShowLoginModal => showLoginModal
  | HideLoginModal => hideLoginModal
  | HideAllModals => hideAllModals
  end.

Module Loop.

(** A call that has been suspended: at a request it has sent, or at an
    [await] that needs nothing from outside. *)
Inductive suspended : Type :=
| AtFetch (r : request) (k : fetch_result -> prog unit)
| AtAwait (k : prog unit).

Record state := State { page : world; tasks : list suspended }.

(** Runs a call up to its next suspension.  A call that ends, by returning
    or by an exception nobody caught, leaves no task behind. *)
Fixpoint advance (p : prog unit) (usr : list bool) (w : world)
    : world * list suspended :=
  match p with
  | Ret _ | Throw _ => (w, [])
  | Upd f k => advance k usr (f w)
  | Get k => advance (k w) usr w
  | Confirm m k =>
      advance (k (List.hd false usr)) (List.tl usr) (emit (Asked m) w)
  | Fetch r k => (emit (Sent r) w, [AtFetch r k])
  | Await k => (w, [AtAwait k])
  end.

Definition resume (p : prog unit) (usr : list bool) (w : world)
    (others : list suspended) : state :=
  let '(w', t) := advance p usr w in State w' (others ++ t).

(** What happens next: the user edits a control, picks files, starts a
    call (answering its dialogs with [usr]); the network settles the
    request of the [n]-th suspended call; the [n]-th suspended call goes on. *)
Inductive input : Type :=
| Edit (id text : string)
| Pick (files : list file)
| Start (c : call) (usr : list bool)
| Settle (n : nat) (res : fetch_result) (usr : list bool)
| Continue (n : nat) (usr : list bool).

Definition perform (i : input) (s : state) : option state :=
  match i with
  | Edit id text =>
      Some (State (with_el id (set_value text) (page s)) (tasks s))
  | Pick files =>
      Some (State (with_el "fileInput" (set_files files) (page s)) (tasks s))
  | Start c usr => Some (resume (body c) usr (page s) (tasks s))
  | Settle n res usr =>
      match tasks s !! n with
      | Some (AtFetch _ k) =>
          Some (resume (k res) usr (page s) (delete n (tasks s)))
      | _ => None
      end
  | Continue n usr =>
      match tasks s !! n with
      | Some (AtAwait k) => Some (resume k usr (page s) (delete n (tasks s)))
      | _ => None
      end
  end.

Fixpoint perform_all (script : list input) (s : state) : option state :=
  match script with
  | [] => Some s
  | i :: script' =>
      match perform i s with
      | Some s' => perform_all script' s'
      | None => None
      end
  end.

Section Backend.

(** What the backend may answer to a request. *)
Variable contract : request -> fetch_result -> Prop.

Definition within (i : input) (s : state) : Prop :=
  match i with
  | Settle n res _ =>
      match tasks s !! n with
      | Some (AtFetch r _) => contract r res
      | _ => True
      end
  | _ => True
  end.

Inductive reachable : state -> Prop :=
| reach_init w : fresh w -> reachable (State w [])
| reach_step s i s' :
    reachable s -> within i s -> perform i s = Some s' -> reachable s'.

End Backend.

Fixpoint within_all (contract : request -> fetch_result -> Prop)
    (script : list input) (s : state) : Prop :=
  match script with
  | [] => True
  | i :: script' =>
      within contract i s
      /\ match perform i s with
         | Some s' => within_all contract script' s'
         | None => True
         end
  end.

(** Any answer at all. *)
Definition any_answer (_ : request) (_ : fetch_result) : Prop := True.

(** The contract of [POST /auth/login]: a response that carries a token
    carries a user object. *)
Definition login_ok (r : request) (res : fetch_result) : bool :=
  match req_url r, res with
  | EpLogin, Settled resp =>
      match res_json resp with
      | Some v =>
          implb (truthy (opt_prop v "access_token"))
                (negb (is_nullish (opt_prop v "user")))
      | None => true
      end
  | _, _ => true
  end.

Definition login_contract (r : request) (res : fetch_result) : Prop :=
  login_ok r res = true.

End Loop.

(** ** A logic for programs *)

Section Wp.

(** [contract] bounds the backend's answers; [inv] is what holds of the
    page whenever no call is running. *)
Variable contract : request -> fetch_result -> Prop.
Variable inv : world -> Prop.

(** [wp p Q w]: started in [w], [p] keeps [inv] at each of its suspensions
    and, if resumed in worlds that satisfy [inv], ends in [Q]. *)
Fixpoint wp {A} (p : prog A) (Q : result A -> world -> Prop) (w : world)
    : Prop :=
  match p with
  | Ret a => Q (Returned a) w
  | Throw e => Q (Thrown e) w
  | Upd f k => wp k Q (f w)
  | Get k => wp (k w) Q w
  | Confirm m k => forall b, wp (k b) Q (emit (Asked m) w)
  | Fetch r k =>
      inv (emit (Sent r) w)
      /\ forall res w', contract r res -> inv w' -> wp (k res) Q w'
  | Await k => inv w /\ forall w', inv w' -> wp k Q w'
  end.

(** [p] keeps [inv]: from a world in [inv] to its end. *)
Definition keeps {A} (p : prog A) : Prop :=
  forall w, inv w -> wp p (fun _ w' => inv w') w.

Definition task_safe (t : Loop.suspended) : Prop :=
  match t with
  | Loop.AtFetch r k =>
      forall res w, contract r res -> inv w -> wp (k res) (fun _ w' => inv w') w
  | Loop.AtAwait k => keeps k
  end.

End Wp.

(** ** Properties the statements below are phrased with *)

(** The element [id], when the page has it, carries the class [hidden] and
    [display: none]. *)
Definition concealed (id : string) (w : world) : bool :=
  match getElementById id w with
  | Some e => el_hidden e && String.eqb (el_display e) "none"
  | None => true
  end.

(** The element [id], when the page has it, is without the class [hidden]
    and has the given [display]. *)
Definition displayed (id display : string) (w : world) : bool :=
  match getElementById id w with
  | Some e => negb (el_hidden e) && String.eqb (el_display e) display
  | None => true
  end.

(** The main view is up and the admin panel is down. *)
Definition main_view (w : world) : bool :=
  displayed "mainView" "block" w && concealed "adminPanel" w.

(** What [handleQuestion] tells the user about a question it turns down. *)
Definition question_rejection (question : string) : string :=
  if String.eqb question "" then "Please enter a question"
  else "Question must be at least 3 characters long".

(** The document operations of the specification. *)
Inductive doc_operation : Type :=
| OpUpload
| OpList
| OpDelete (id : jsval)
| OpDownload (id : jsval).

Definition operation (o : doc_operation) : prog unit :=
  match o with
  | OpUpload => handleFileUpload
  | OpList => loadDocuments
  | OpDelete id => deleteDocument id
  | OpDownload id => downloadDocument id
  end.

(** The call ends on the spot, having done nothing but show one notice of
    an error. *)
Definition rejected_with_notice (p : prog unit) (w : world) : Prop :=
  exists message, forall usr,
    run_sync p usr w = Some (Returned tt, emit (Notify message "error") w).

(** The [files] parts of a multipart body. *)
Definition files_field (b : req_body) : list file :=
  match b with
  | FormBody parts =>
      flat_map (fun p => match p with
                         | (name, PartFile f) =>
                             if String.eqb name "files" then [f] else []
                         | _ => []
                         end) parts
  | _ => []
  end.

(** Comparison of two strings up to the case of the letters A-Z. *)
Definition fold_case (c : ascii) : nat :=
  let n := nat_of_ascii c in
  if ((65 <=? n) && (n <=? 90))%nat then n + 32 else n.

Fixpoint eq_nocase (s t : string) : bool :=
  match s, t with
  | EmptyString, EmptyString => true
  | String a s', String b t' => (fold_case a =? fold_case b)%nat && eq_nocase s' t'
  | _, _ => false
  end.

(** The strings of lower-case letters a-z. *)
Definition lower_letter (c : ascii) : bool :=
  ((97 <=? nat_of_ascii c) && (nat_of_ascii c <=? 122))%nat.

Fixpoint all_lower (s : string) : bool :=
  match s with
  | EmptyString => true
  | String c s' => lower_letter c && all_lower s'
  end.

(** The character [c] does not occur in [s]. *)
Fixpoint free_of (c : ascii) (s : string) : bool :=
  match s with
  | EmptyString => true
  | String a s' => negb (Ascii.eqb a c) && free_of c s'
  end.

(** ** A page to try the controller on *)

Definition blank : element := Element false "" "" [] [].

(** The elements that the controller looks up by id. *)
Definition page_ids : list string :=
  ["loginModal"; "uploadProgressModal"; "processingOverlay"; "mainView";
   "adminPanel"; "adminLoginBtn"; "logoutBtn"; "loginForm"; "username";
   "password"; "questionInput"; "teamSelect"; "projectSelect"; "uploadForm";
   "fileInput"; "fileList"; "documentsList"; "totalDocs"; "totalSize";
   "resultsSection"; "resultsContent"; "chatHistory"; "chatHistoryList"].

Definition page0 : gmap string element :=
  list_to_map (List.map (fun id => (id, blank)) page_ids).

(** The controller as its constructor leaves it, on that page. *)
Definition world0 : world := World false VNull VNull [] (VArr []) page0 [].

(** A 2xx response with a JSON body, and a failure with a text body. *)
Definition ok_json (v : jsval) : fetch_result :=
  Settled (Response true 200 "OK" None (Some v)).

Definition failed (status : Z) (statusText text : string) : fetch_result :=
  Settled (Response false status statusText (Some text) None).

(** The user has typed [v] into the control [id]. *)
Definition typed (id v : string) (w : world) : world :=
  with_el id (set_value v) w.

(** Someone is logged in. *)
Definition logged_in (token user : jsval) (w : world) : world :=
  set_isLoggedIn true (set_currentUser user (set_authToken token w)).

(** The selection of the upload scenario, made by a logged-in user who has
    chosen a team and a project. *)
Definition picked : list file :=
  [File "setup.exe" 4096; File "report.pdf" 2048].

Definition upload_ready : world :=
  with_el "fileInput" (set_files picked)
    (typed "teamSelect" "Engineering"
       (typed "projectSelect" "Cloud Team"
          (logged_in (VStr "t") (VStr "admin") world0))).

(** The login form filled in and open. *)
Definition login_ready : world :=
  typed "username" "admin"
    (typed "password" "wrong"
       (with_el "loginModal" (set_hidden false "flex") world0)).

(** A login that the backend answers with [answer], up to the request for
    the document list. *)
Definition login_script (answer : jsval) : list Loop.input :=
  [Loop.Edit "username" "admin"; Loop.Edit "password" "secret";
   Loop.Start HandleLogin []; Loop.Settle 0 (ok_json answer) [];
   Loop.Continue 0 []; Loop.Continue 0 []].

Definition after_login (answer : jsval) : Loop.state :=
  default (Loop.State world0 [])
          (Loop.perform_all (login_script answer) (Loop.State world0 [])).

(** Questions typed and asked one after the other, nothing coming back from
    the backend meanwhile. *)
Definition ask_all (questions : list string) : list Loop.input :=
  flat_map (fun question =>
              [Loop.Edit "questionInput" question; Loop.Start HandleQuestion []])
           questions.

Definition eleven : list string :=
  ["question 1"; "question 2"; "question 3"; "question 4"; "question 5";
   "question 6"; "question 7"; "question 8"; "question 9"; "question 10";
   "question 11"].

(** ** Phrases of the further properties *)

(** The headers that [makeAPICall] sends from [w]. *)
Definition api_headers (w : world) : list (string * header_value) :=
  ("Content-Type", HLit "application/json")
  :: (if truthy (authToken w)
      then [("Authorization", HBearer (authToken w))] else []).

Definition login_request (username password : string) (w : world) : request :=
  Request EpLogin "POST" (api_headers w)
    (JsonBody (VObj [("username", VStr username); ("password", VStr password)])).

Definition ask_request (question : string) (w : world) : request :=
  Request EpAsk "POST" (api_headers w)
    (JsonBody (VObj [("question", VStr question)])).

Definition delete_request (id : jsval) (w : world) : request :=
  Request (EpDocument id) "DELETE" (api_headers w) NoBody.

Definition documents_request (w : world) : request :=
  Request EpDocuments "GET" (api_headers w) NoBody.

Definition upload_request (team project : string) (files : list file)
    (w : world) : request :=
  Request EpUpload "POST" [("Authorization", HBearer (authToken w))]
    (FormBody (formData team project files)).

(** The answers that make a call of [makeAPICall] throw: a rejected fetch, a
    response that is not ok, a body that does not parse. *)
Definition api_fails (answer : fetch_result) : bool :=
  match answer with
  | Rejected => true
  | Settled r =>
      negb (res_ok r) || match res_json r with Some _ => false | None => true end
  end.

(** What a call of [makeAPICall] comes to, by the answer to its request. *)
Definition api_outcome (answer : fetch_result) : result jsval :=
  match answer with
  | Rejected => Thrown FetchRejected
  | Settled r =>
      if negb (res_ok r) then
        match res_text r with
        | Some errorText => Thrown (ApiError (res_status r) errorText)
        | None => Thrown BodyRejected
        end
      else
        match res_json r with
        | Some v => Returned v
        | None => Thrown BodyRejected
        end
  end.

(** The answers that [displayResult] can render: an object, or any value but
    [null], whose [sources] is an array without [null]s. *)
Definition renderable (v : jsval) : bool :=
  negb (is_nullish v)
  && match opt_prop v "sources" with
     | VArr sources => forallb (fun s => negb (is_nullish s)) sources
     | _ => false
     end.

Definition result_of (question : string) (v : jsval) : node :=
  ResultItem question (opt_prop v "answer")
    (match opt_prop v "sources" with
     | VArr sources => List.map (fun s => opt_prop s "filename") sources
     | _ => []
     end)
    (opt_prop v "confidence").

(** [w'] has the fields and the log of [w]; the pages may differ. *)
Definition same_fields (w w' : world) : Prop :=
  isLoggedIn w' = isLoggedIn w /\ currentUser w' = currentUser w
  /\ authToken w' = authToken w /\ chatHistory w' = chatHistory w
  /\ uploadedDocuments w' = uploadedDocuments w /\ log w' = log w.

(** The same, but for the document list and for notices added to the log. *)
Definition same_session (w w' : world) : Prop :=
  isLoggedIn w' = isLoggedIn w /\ currentUser w' = currentUser w
  /\ authToken w' = authToken w /\ chatHistory w' = chatHistory w
  /\ requests (log w') = requests (log w)
  /\ navigations (log w') = navigations (log w).

(** The document list after [loadDocuments] has got [answer]. *)
Definition documents_after (answer : fetch_result) (before : jsval) : jsval :=
  match api_outcome answer with
  | Returned v =>
      if truthy (opt_prop v "documents") then opt_prop v "documents" else before
  | Thrown _ => before
  end.

(** [p] sends no request and is never suspended, whatever it finds. *)
Fixpoint synchronous {A} (p : prog A) : Prop :=
  match p with
  | Ret _ | Throw _ => True
  | Upd _ k => synchronous k
  | Get k => forall w, synchronous (k w)
  | Confirm _ k => forall b, synchronous (k b)
  | Fetch _ _ | Await _ => False
  end.

(** The items that [renderDocuments] makes of [docs]: one per document that
    has an id. *)
Definition listed (docs : list jsval) : list node :=
  flat_map (fun doc =>
              match docId_of doc with
              | Some docId =>
                  if truthy docId then [DocumentItem docId doc] else []
              | None => []
              end) docs.

(** The values that [renderDocuments] can go through: the arrays without
    [null]s. *)
Definition well_listed (v : jsval) : bool :=
  match v with
  | VArr docs => forallb (fun doc => negb (is_nullish doc)) docs
  | _ => false
  end.

(** A login, then a logout while the request for the document list is still
    out, then the answer to that request. *)
Definition logout_during_refresh (documents : jsval) : list Loop.input :=
  login_script (VObj [("access_token", VStr "t"); ("user", VStr "admin")])
  ++ [Loop.Start HandleLogout [];
      Loop.Settle 0 (ok_json (VObj [("documents", documents)])) [];
      Loop.Continue 0 []; Loop.Continue 0 []].

(** A login and a logout. *)
Definition in_and_out : list Loop.input :=
  login_script (VObj [("access_token", VStr "t"); ("user", VStr "admin")])
  ++ [Loop.Start HandleLogout []].

Definition scripted (script : list Loop.input) : Loop.state :=
  default (Loop.State world0 [])
          (Loop.perform_all script (Loop.State world0 [])).

(** ** Start-up *)

(** [forceMainViewVisible()] *)
Definition forceMainViewVisible : prog unit :=
  forEach ["loginModal"; "uploadProgressModal"; "processingOverlay"]
    (fun id => upd (with_el id (set_hidden true "none")));;
  upd (with_el "mainView" (set_hidden false "block"));;
  upd (with_el "adminPanel" (set_hidden true "none"));;
  updateAuthButtons.

(** [testConnection()] *)
Definition testConnection : prog bool :=
  try_catch
    (_ ← await (makeAPICall EpHealth "GET" NoBody); Ret true)
    (fun _ =>
       showNotification
         "Backend connection failed. Please check if the server is running."
         "error";;
       Ret false).

(** ** The event loop, from a given state *)

Inductive follows (contract : request -> fetch_result -> Prop)
    (s0 : Loop.state) : Loop.state -> Prop :=
| follows_here : follows contract s0 s0
| follows_step s i s' :
    follows contract s0 s -> Loop.within contract i s ->
    Loop.perform i s = Some s' -> follows contract s0 s'.

(** ** What is on the screen *)

(** The admin panel is up, with the logout button. *)
Definition admin_view (w : world) : bool :=
  concealed "mainView" w && displayed "adminPanel" "block" w
  && concealed "adminLoginBtn" w && displayed "logoutBtn" "inline-flex" w.

(** The main view is up, with the login button. *)
Definition public_view (w : world) : bool :=
  main_view w
  && displayed "adminLoginBtn" "inline-flex" w && concealed "logoutBtn" w.

Definition view_matches_session (w : world) : Prop :=
  (if isLoggedIn w then admin_view w else public_view w) = true.

(** The history on the page is the history held. *)
Definition history_shown (w : world) : Prop :=
  match getElementById "chatHistoryList" w with
  | Some e => el_children e = List.map HistoryItem (chatHistory w)
  | None => True
  end.

(** The elements that have no part in the view nor in the history. *)
Definition plain (id : string) : bool :=
  existsb (String.eqb id)
    ["loginModal"; "uploadProgressModal"; "processingOverlay"; "username";
     "password"; "questionInput"; "teamSelect"; "projectSelect"; "fileInput";
     "fileList"; "documentsList"; "totalDocs"; "totalSize"; "resultsSection";
     "resultsContent"; "chatHistory"].

Definition in_view (id : string) : bool :=
  existsb (String.eqb id) ["mainView"; "adminPanel"; "adminLoginBtn"; "logoutBtn"].

(** The endpoints that are called without a session. *)
Definition open_endpoint (ep : endpoint) : bool :=
  match ep with
  | EpHealth | EpTeams | EpLogin | EpAsk => true
  | _ => false
  end.

(** The page of the trials, as start-up leaves it. *)
Definition started : Loop.state :=
  Loop.State (after (run forceMainViewVisible [] [] world0)) [].

Definition scripted_from (s0 : Loop.state) (script : list Loop.input)
    : Loop.state :=
  default s0 (Loop.perform_all script s0).

(** ** Requests and the session *)




(** ** Running programs *)

Section Run.

Context {A B : Type}.

Lemma run_bind (p : prog A) (f : A -> prog B) net usr w :
  run (p ≫= f) net usr w =
  let r := run p net usr w in
  match outcome r with
  | Returned a => run (f a) (net_rest r) (usr_rest r) (after r)
  | Thrown e => Ran (Thrown e) (after r) (net_rest r) (usr_rest r)
  end.
Proof.
  unfold mbind, prog_bind. revert net usr w.
  induction p as [a|e|g k IH|k IH|r k IH|m k IH|k IH]; intros net usr w;
    cbn; auto.
Qed.

Lemma run_try_catch (p : prog A) (h : exn -> prog A) net usr w :
  run (try_catch p h) net usr w =
  let r := run p net usr w in
  match outcome r with
  | Returned a => r
  | Thrown e => run (h e) (net_rest r) (usr_rest r) (after r)
  end.
Proof.
  revert net usr w.
  induction p as [a|e|g k IH|k IH|r k IH|m k IH|k IH]; intros net usr w;
    cbn; auto.
Qed.

End Run.

Lemma run_try_finally {A} (p : prog A) (fin : prog unit) net usr w :
  run (try_finally p fin) net usr w =
  let r := run p net usr w in
  let r' := run fin (net_rest r) (usr_rest r) (after r) in
  match outcome r' with
  | Returned _ => Ran (outcome r) (after r') (net_rest r') (usr_rest r')
  | Thrown e => Ran (Thrown e) (after r') (net_rest r') (usr_rest r')
  end.
Proof.
  unfold try_finally. rewrite run_bind, run_try_catch, run_bind. cbn.
  destruct (run p net usr w) as [[a|e] w' net' usr']; cbn;
    rewrite run_bind; cbn;
    destruct (run fin net' usr' w') as [[[]|e'] w'' net'' usr'']; reflexivity.
Qed.

(** ** File names *)

Lemma split_free sep s : free_of sep s = true -> split sep s = [s].
Proof.
  induction s as [|c s IH]; cbn; [reflexivity|].
  intros [Hc Hs]%andb_prop. apply negb_true_iff in Hc. rewrite Hc, (IH Hs).
  reflexivity.
Qed.

Lemma split_cons sep c s :
  split sep (String c s) =
  if Ascii.eqb c sep then EmptyString :: split sep s
  else match split sep s with
       | [] => [String c EmptyString]
       | seg :: segs => String c seg :: segs
       end.
Proof. reflexivity. Qed.

Lemma split_app_sep sep base ext :
  free_of sep ext = true ->
  exists seg segs,
    split sep (base +:+ String sep ext) = seg :: segs
    /\ segs <> [] /\ List.last segs EmptyString = ext.
Proof.
  intros Hext. induction base as [|c base (seg & segs & Heq & Hne & Hlast)].
  - exists EmptyString, [ext].
    change (EmptyString +:+ String sep ext) with (String sep ext).
    by rewrite split_cons, Ascii.eqb_refl, (split_free _ _ Hext).
  - change (String c base +:+ String sep ext)
      with (String c (base +:+ String sep ext)).
    destruct (Ascii.eqb c sep) eqn:Ec.
    + exists EmptyString, (seg :: segs).
      rewrite split_cons, Ec, Heq. repeat split; [done|].
      destruct segs; [done|exact Hlast].
    + exists (String c seg), segs. by rewrite split_cons, Ec, Heq.
Qed.

Lemma pop_split_ext base ext :
  free_of "." ext = true -> pop (split "." (base +:+ "." +:+ ext)) = ext.
Proof.
  intros Hext.
  destruct (split_app_sep "." base ext Hext) as (seg & segs & Heq & Hne & Hlast).
  unfold pop. change ("." +:+ ext) with (String "." ext). rewrite Heq.
  destruct segs; [done|exact Hlast].
Qed.

Lemma lower_char_fold a b :
  lower_letter b = true -> fold_case a = fold_case b -> lower_char a = b.
Proof.
  unfold lower_letter, fold_case, lower_char.
  pose proof (ascii_nat_embedding a) as Ha.
  pose proof (ascii_nat_embedding b) as Hb.
  set (x := nat_of_ascii a) in *. set (y := nat_of_ascii b) in *.
  repeat match goal with
         | |- context [(?n <=? ?m)%nat] => destruct (Nat.leb_spec n m)
         | |- context [(?n =? ?m)%nat] => destruct (Nat.eqb_spec n m)
         end;
    cbn [andb orb negb]; intros ? Hxy; try discriminate; try lia;
    first [ by rewrite Hxy | by rewrite <- Ha, Hxy ].
Qed.

Lemma toLowerCase_nocase s t :
  all_lower t = true -> eq_nocase s t = true -> toLowerCase s = t.
Proof.
  revert t. induction s as [|a s IH]; intros [|b t]; cbn; try done.
  intros [Hb Ht]%andb_prop [Hab Hst]%andb_prop.
  apply Nat.eqb_eq in Hab.
  by rewrite (lower_char_fold a b Hb Hab), (IH t Ht Hst).
Qed.

(** C10: a file whose name ends in a dot and an extension that is [txt],
    [pdf], [doc] or [docx] up to the case of its letters passes
    [isValidFile]. *)
Theorem isValidFile_ignores_case (f : file) (base ext allowed : string) :
  file_name f = base +:+ "." +:+ ext ->
  free_of "." ext = true ->
  In allowed ["txt"; "pdf"; "doc"; "docx"] ->
  eq_nocase ext allowed = true ->
  isValidFile f = true.
Proof.
  intros Hname Hfree Hin Heq. unfold isValidFile.
  rewrite Hname, (pop_split_ext base ext Hfree).
  assert (all_lower allowed = true) as Hlow.
  { cbn in Hin. destruct Hin as [<-|[<-|[<-|[<-|[]]]]]; reflexivity. }
  rewrite (toLowerCase_nocase ext allowed Hlow Heq).
  cbn in Hin. destruct Hin as [<-|[<-|[<-|[<-|[]]]]]; reflexivity.
Qed.

Lemma isValidFile_ignores_case_witness :
  isValidFile (File "REPORT.PDF" 2048) = true.
Proof.
  apply (isValidFile_ignores_case (File "REPORT.PDF" 2048) "REPORT" "PDF" "pdf").
  - reflexivity.
  - reflexivity.
  - cbn. tauto.
  - reflexivity.
Defined.

(** ** The capped list *)

Lemma firstn_cons_firstn {X} n (x : X) l :
  firstn (S n) (x :: firstn (S n) l) = firstn (S n) (x :: l).
Proof.
  cbn [firstn]. f_equal. rewrite firstn_firstn. f_equal. lia.
Qed.

Lemma unshift_capped_firstn q h :
  unshift_capped q h = firstn 10 (q :: h).
Proof.
  unfold unshift_capped. destruct (Nat.ltb_spec 10 (length (q :: h))); [done|].
  symmetry. by apply firstn_all2.
Qed.

Lemma chatHistory_addToChatHistory q net usr w :
  chatHistory (after (run (addToChatHistory q) net usr w))
  = unshift_capped q (chatHistory w).
Proof. reflexivity. Qed.

Lemma chatHistory_after_questions qs net usr w :
  length (chatHistory w) <= 10 ->
  chatHistory (after (run (forEach qs addToChatHistory) net usr w))
  = firstn 10 (rev qs ++ chatHistory w).
Proof.
  revert net usr w. induction qs as [|q qs IH]; intros net usr w Hlen.
  - cbn [rev app forEach run after]. symmetry. by apply firstn_all2.
  - cbn [forEach]. rewrite run_bind. cbn zeta.
    change (outcome (run (addToChatHistory q) net usr w)) with (Returned tt).
    cbv iota. rewrite IH.
    + rewrite chatHistory_addToChatHistory, unshift_capped_firstn.
      cbn [rev]. rewrite <- app_assoc. cbn [app].
      rewrite !firstn_app.
      destruct (Nat.le_gt_cases 10 (length (rev qs))) as [Hge|Hlt].
      * replace (10 - length (rev qs)) with 0 by lia. reflexivity.
      * replace (10 - length (rev qs)) with (S (9 - length (rev qs))) by lia.
        f_equal. cbn [firstn]. f_equal. rewrite firstn_firstn. f_equal. lia.
    + rewrite chatHistory_addToChatHistory, unshift_capped_firstn.
      rewrite length_firstn. lia.
Qed.


(** ** Rules of the logic *)

Section WpRules.

Variable C : request -> fetch_result -> Prop.
Variable I : world -> Prop.

Lemma wp_mono {A} (p : prog A) (Q Q' : result A -> world -> Prop) w :
  (forall r w', Q r w' -> Q' r w') -> wp C I p Q w -> wp C I p Q' w.
Proof.
  intros HQ. revert w.
  induction p as [a|e|g k IH|k IH|r k IH|m k IH|k IH]; intros w; cbn; eauto.
  - intros [Hw Hk]. split; eauto.
  - intros [Hw Hk]. split; eauto.
Qed.

Lemma wp_bind {A B} (p : prog A) (f : A -> prog B) Q w :
  wp C I p (fun r w' => match r with
                    | Returned a => wp C I (f a) Q w'
                    | Thrown e => Q (Thrown e) w'
                    end) w ->
  wp C I (p ≫= f) Q w.
Proof.
  unfold mbind, prog_bind. revert w.
  induction p as [a|e|g k IH|k IH|r k IH|m k IH|k IH]; intros w; cbn; eauto.
  - intros [Hw Hk]. split; eauto.
  - intros [Hw Hk]. split; eauto.
Qed.

Lemma wp_try_catch {A} (p : prog A) (h : exn -> prog A) Q w :
  wp C I p (fun r w' => match r with
                    | Returned a => Q (Returned a) w'
                    | Thrown e => wp C I (h e) Q w'
                    end) w ->
  wp C I (try_catch p h) Q w.
Proof.
  revert w.
  induction p as [a|e|g k IH|k IH|r k IH|m k IH|k IH]; intros w; cbn; eauto.
  - intros [Hw Hk]. split; eauto.
  - intros [Hw Hk]. split; eauto.
Qed.

Lemma wp_upd_bind {A} (f : world -> world) (k : prog A) Q w :
  wp C I k Q (f w) -> wp C I (upd f;; k) Q w.
Proof. exact id. Qed.

Lemma wp_get_bind {A} (k : world -> prog A) Q w :
  wp C I (k w) Q w -> wp C I (get ≫= k) Q w.
Proof. exact id. Qed.

Lemma wp_confirm_bind {A} m (k : bool -> prog A) Q w :
  (forall b, wp C I (k b) Q (emit (Asked m) w)) -> wp C I (confirm m ≫= k) Q w.
Proof. exact id. Qed.

Lemma wp_await_bind {A B} (p : prog A) (f : A -> prog B) Q w :
  wp C I p (fun r w' => match r with
                    | Returned a =>
                        I w' /\ forall w'', I w'' -> wp C I (f a) Q w''
                    | Thrown e => Q (Thrown e) w'
                    end) w ->
  wp C I (await p ≫= f) Q w.
Proof.
  intros Hp. unfold await. do 2 apply wp_bind.
  eapply wp_mono; [|exact Hp]. intros [a|e] w' H; exact H.
Qed.

Lemma keeps_ret {A} (a : A) : keeps C I (Ret a).
Proof. intros w Hw. exact Hw. Qed.

Lemma keeps_throw {A} e : keeps C I (@Throw A e).
Proof. intros w Hw. exact Hw. Qed.

Lemma keeps_upd f : (forall w, I w -> I (f w)) -> keeps C I (upd f).
Proof. intros Hf w Hw. exact (Hf w Hw). Qed.

Lemma keeps_bind {A B} (p : prog A) (f : A -> prog B) :
  keeps C I p -> (forall a, keeps C I (f a)) -> keeps C I (p ≫= f).
Proof.
  intros Hp Hf w Hw. apply wp_bind. eapply wp_mono; [|exact (Hp w Hw)].
  intros [a|e] w' Hw'; [exact (Hf a w' Hw')|exact Hw'].
Qed.

Lemma keeps_get_bind {A} (k : world -> prog A) :
  (forall w, keeps C I (k w)) -> keeps C I (get ≫= k).
Proof. intros Hk w Hw. exact (Hk w w Hw). Qed.

Lemma keeps_try_catch {A} (p : prog A) (h : exn -> prog A) :
  keeps C I p -> (forall e, keeps C I (h e)) -> keeps C I (try_catch p h).
Proof.
  intros Hp Hh w Hw. apply wp_try_catch. eapply wp_mono; [|exact (Hp w Hw)].
  intros [a|e] w' Hw'; [exact Hw'|exact (Hh e w' Hw')].
Qed.

Lemma keeps_try_finally {A} (p : prog A) (fin : prog unit) :
  keeps C I p -> keeps C I fin -> keeps C I (try_finally p fin).
Proof.
  intros Hp Hfin. unfold try_finally.
  apply keeps_bind.
  - apply keeps_try_catch; [|intros e; apply keeps_ret].
    apply keeps_bind; [exact Hp|intros a; apply keeps_ret].
  - intros r. apply keeps_bind; [exact Hfin|].
    intros _. destruct r; [apply keeps_ret|apply keeps_throw].
Qed.

Lemma keeps_forEach {X} (l : list X) (f : X -> prog unit) :
  (forall x, keeps C I (f x)) -> keeps C I (forEach l f).
Proof.
  intros Hf. induction l as [|x l IH]; cbn [forEach].
  - apply keeps_ret.
  - apply keeps_bind; [apply Hf|intros _; exact IH].
Qed.

Lemma keeps_await {A} (p : prog A) : keeps C I p -> keeps C I (await p).
Proof.
  intros Hp. unfold await. apply keeps_bind; [exact Hp|].
  intros a w Hw. cbn. split; [exact Hw|]. intros w' Hw'. exact Hw'.
Qed.

Lemma keeps_settle {A} (body : option A) : keeps C I (settle body).
Proof.
  intros w Hw. cbn. split; [exact Hw|]. intros w' Hw'.
  destruct body; exact Hw'.
Qed.

Lemma keeps_confirm_bind {A} m (k : bool -> prog A) :
  (forall w, I w -> I (emit (Asked m) w)) ->
  (forall b, keeps C I (k b)) -> keeps C I (confirm m ≫= k).
Proof. intros Hm Hk w Hw b. exact (Hk b _ (Hm w Hw)). Qed.

Lemma keeps_fetch_bind {A} r (k : fetch_result -> prog A) :
  (forall w, I w -> I (emit (Sent r) w)) ->
  (forall res, C r res -> keeps C I (k res)) -> keeps C I (fetch r ≫= k).
Proof.
  intros Hr Hk w Hw. split; [exact (Hr w Hw)|].
  intros res w' Hres Hw'. exact (Hk res Hres w' Hw').
Qed.

(** The invariant at the next suspension. *)
Lemma Loop_advance_safe p usr w :
  wp C I p (fun _ w' => I w') w ->
  I (Loop.advance p usr w).1
  /\ Forall (task_safe C I) (Loop.advance p usr w).2.
Proof.
  revert usr w.
  induction p as [a|e|g k IH|k IH|r k IH|m k IH|k IH]; intros usr w; cbn;
    eauto.
  - intros [Hw Hk]. split; [exact Hw|]. constructor; [|constructor].
    intros res w' Hres Hw'. exact (Hk res w' Hres Hw').
  - intros [Hw Hk]. split; [exact Hw|]. constructor; [|constructor].
    exact Hk.
Qed.

End WpRules.

Lemma run_wp inv {A} (p : prog A) (Q : result A -> world -> Prop) net usr w :
  wp Loop.any_answer inv p Q w ->
  Q (outcome (run p net usr w)) (after (run p net usr w)).
Proof.
  revert net usr w.
  induction p as [a|e|g k IH|k IH|r k IH|m k IH|k IH]; intros net usr w; cbn;
    eauto.
  - intros [Hw Hk]. apply IH. apply Hk; [exact I|exact Hw].
  - intros [Hw Hk]. apply IH. apply Hk. exact Hw.
Qed.

Lemma run_keeps inv {A} (p : prog A) net usr w :
  keeps Loop.any_answer inv p -> inv w -> inv (after (run p net usr w)).
Proof. intros Hp Hw. apply (run_wp inv p (fun _ w' => inv w')). exact (Hp w Hw). Qed.

(** ** What the methods keep *)

Lemma form_reset_dom form fields w :
  exists d, form_reset form fields w = set_dom d w.
Proof.
  unfold form_reset. destruct (getElementById form w).
  - induction fields as [|id fields [d IH]]; cbn [fold_right].
    + exists (dom w). by destruct w.
    + rewrite IH. by eexists.
  - exists (dom w). by destruct w.
Qed.

Ltac keep_step side :=
  lazymatch goal with
  | |- keeps _ _ (Ret _) => apply keeps_ret
  | |- keeps _ _ (Throw _) => apply keeps_throw
  | |- keeps _ _ (get ≫= _) => apply keeps_get_bind; intros ?
  | |- keeps _ _ (confirm _ ≫= _) => apply keeps_confirm_bind; [side|intros ?]
  | |- keeps _ _ (fetch _ ≫= _) => apply keeps_fetch_bind; [side|intros ? _]
  | |- keeps _ _ (_ ≫= _) => apply keeps_bind; [|intros ?]
  | |- keeps _ _ (try_catch _ _) => apply keeps_try_catch; [|intros ?]
  | |- keeps _ _ (try_finally _ _) => apply keeps_try_finally
  | |- keeps _ _ (forEach _ _) => apply keeps_forEach; intros ?
  | |- keeps _ _ (await _) => apply keeps_await
  | |- keeps _ _ (settle _) => apply keeps_settle
  | |- keeps _ _ (upd _) => apply keeps_upd; side
  | |- keeps _ _ (match ?x with _ => _ end) => destruct x
  | |- keeps _ _ (let _ := _ in _) => cbv zeta
  end.

Section Methods.

Variable C : request -> fetch_result -> Prop.
Variable I : world -> Prop.

(** [I] does not look at the page, at the log nor at the document list, and
    it survives what is done to the chat history. *)
Hypothesis I_dom : forall d w, I w -> I (set_dom d w).
Hypothesis I_emit : forall e w, I w -> I (emit e w).
Hypothesis I_docs : forall v w, I w -> I (set_uploadedDocuments v w).
Hypothesis I_unshift :
  forall q w, I w -> I (set_chatHistory (unshift_capped q (chatHistory w)) w).
Hypothesis I_clear : forall w, I w -> I (set_chatHistory [] w).

Lemma I_form_reset form fields w : I w -> I (form_reset form fields w).
Proof.
  intros Hw. destruct (form_reset_dom form fields w) as [d ->]. by apply I_dom.
Qed.

Ltac side :=
  intros;
  first [ apply I_dom | apply I_emit | apply I_docs | apply I_unshift
        | apply I_clear | apply I_form_reset ];
  assumption.

Ltac keep := repeat (keep_step side); eauto.

Lemma keeps_showNotification msg type : keeps C I (showNotification msg type).
Proof. unfold showNotification. keep. Qed.

Lemma keeps_updateAuthButtons : keeps C I updateAuthButtons.
Proof. unfold updateAuthButtons. keep. Qed.

Lemma keeps_showLoginModal : keeps C I showLoginModal.
Proof. unfold showLoginModal. keep. Qed.

Lemma keeps_hideLoginModal : keeps C I hideLoginModal.
Proof. unfold hideLoginModal. keep. Qed.

Lemma keeps_showUploadProgressModal : keeps C I showUploadProgressModal.
Proof. unfold showUploadProgressModal. keep. Qed.

Lemma keeps_hideUploadProgressModal : keeps C I hideUploadProgressModal.
Proof. unfold hideUploadProgressModal. keep. Qed.

Lemma keeps_hideAllModals : keeps C I hideAllModals.
Proof.
  unfold hideAllModals.
  apply keeps_bind; [apply keeps_hideLoginModal|].
  intros _. apply keeps_hideUploadProgressModal.
Qed.

Lemma keeps_showProcessing : keeps C I showProcessing.
Proof. unfold showProcessing. keep. Qed.

Lemma keeps_hideProcessing : keeps C I hideProcessing.
Proof. unfold hideProcessing. keep. Qed.

(** A value that [makeAPICall] returns is the body of an answer that the
    backend gave to this request. *)
Lemma wp_makeAPICall ep method body Q w :
  I w ->
  (forall e w', I w' -> Q (Thrown e) w') ->
  (forall v headers resp w',
      C (Request ep method headers body) (Settled resp) ->
      res_json resp = Some v -> I w' -> Q (Returned v) w') ->
  wp C I (makeAPICall ep method body) Q w.
Proof.
  intros Hw Hthrow Hret. unfold makeAPICall. apply wp_try_catch. cbn.
  split; [by apply I_emit|]. intros [|r] w' Hres Hw'; cbn.
  - by apply Hthrow.
  - destruct (res_ok r); cbn.
    + split; [exact Hw'|]. intros w'' Hw''.
      destruct (res_json r) as [v|] eqn:Hjson; cbn; [|by apply Hthrow].
      by eapply Hret.
    + split; [exact Hw'|]. intros w'' Hw''.
      destruct (res_text r); cbn; by apply Hthrow.
Qed.

Lemma keeps_makeAPICall ep method body : keeps C I (makeAPICall ep method body).
Proof. intros w Hw. apply wp_makeAPICall; auto. Qed.

Lemma keeps_updateDocumentStats : keeps C I updateDocumentStats.
Proof. unfold updateDocumentStats. keep. Qed.

Lemma keeps_renderDocuments : keeps C I renderDocuments.
Proof.
  pose proof keeps_updateDocumentStats.
  unfold renderDocuments. keep.
Qed.

Lemma keeps_loadDocuments : keeps C I loadDocuments.
Proof.
  pose proof keeps_renderDocuments. pose proof keeps_makeAPICall.
  pose proof keeps_showNotification.
  unfold loadDocuments. keep.
Qed.

Lemma keeps_showAdminPanel : keeps C I showAdminPanel.
Proof.
  pose proof keeps_renderDocuments. pose proof keeps_updateAuthButtons.
  unfold showAdminPanel. keep.
Qed.

Lemma keeps_showMainView : keeps C I showMainView.
Proof.
  pose proof keeps_updateAuthButtons. unfold showMainView. keep.
Qed.

Lemma keeps_handleFileSelect files : keeps C I (handleFileSelect files).
Proof.
  pose proof keeps_showNotification. unfold handleFileSelect. keep.
Qed.

Lemma keeps_resetUploadForm : keeps C I resetUploadForm.
Proof. unfold resetUploadForm. keep. Qed.

Lemma keeps_uploadFiles team project files :
  keeps C I (uploadFiles team project files).
Proof.
  pose proof keeps_showUploadProgressModal.
  pose proof keeps_hideUploadProgressModal.
  pose proof keeps_showNotification. pose proof keeps_loadDocuments.
  pose proof keeps_resetUploadForm.
  unfold uploadFiles. keep.
Qed.

Lemma keeps_handleFileUpload : keeps C I handleFileUpload.
Proof.
  pose proof keeps_showNotification. pose proof keeps_uploadFiles.
  unfold handleFileUpload. keep.
Qed.

Lemma keeps_downloadDocument id : keeps C I (downloadDocument id).
Proof.
  pose proof keeps_showNotification. unfold downloadDocument. keep.
Qed.

Lemma keeps_deleteDocument id : keeps C I (deleteDocument id).
Proof.
  pose proof keeps_showNotification. pose proof keeps_makeAPICall.
  pose proof keeps_loadDocuments.
  unfold deleteDocument. keep.
Qed.

(** Once the dialog of [deleteDocument] has been shown. *)
Lemma wp_deleteDocument_asked id w :
  isLoggedIn w = true -> invalid_id id = false ->
  I (emit (Asked delete_prompt) w) ->
  wp C I (deleteDocument id) (fun _ w' => I w') w.
Proof.
  pose proof keeps_showNotification. pose proof keeps_makeAPICall.
  pose proof keeps_loadDocuments.
  intros Hlog Hid Hasked. unfold deleteDocument. apply wp_get_bind.
  rewrite Hlog, Hid. cbn [negb]. apply wp_confirm_bind. intros yes.
  cbv beta.
  match goal with
  | |- wp _ _ ?p _ _ => assert (keeps C I p) as Hrest by keep
  end.
  by apply Hrest.
Qed.

Lemma keeps_updateChatHistoryDisplay : keeps C I updateChatHistoryDisplay.
Proof. unfold updateChatHistoryDisplay. keep. Qed.

Lemma keeps_addToChatHistory question : keeps C I (addToChatHistory question).
Proof.
  pose proof keeps_updateChatHistoryDisplay. unfold addToChatHistory. keep.
Qed.

Lemma keeps_clearChatHistory : keeps C I clearChatHistory.
Proof.
  pose proof keeps_updateChatHistoryDisplay. unfold clearChatHistory. keep.
Qed.

Lemma keeps_clearResults : keeps C I clearResults.
Proof. unfold clearResults. keep. Qed.

Lemma keeps_displayResult question response :
  keeps C I (displayResult question response).
Proof. unfold displayResult. keep. Qed.

Lemma keeps_handleQuestion : keeps C I handleQuestion.
Proof.
  pose proof keeps_showNotification. pose proof keeps_makeAPICall.
  pose proof keeps_showProcessing. pose proof keeps_hideProcessing.
  pose proof keeps_addToChatHistory. pose proof keeps_displayResult.
  unfold handleQuestion. keep.
Qed.

(** The two methods that write the session fields. *)
Hypothesis I_logout :
  forall w, I w ->
    I (set_uploadedDocuments (VArr [])
         (set_authToken VNull (set_currentUser VNull (set_isLoggedIn false w)))).

Hypothesis I_login :
  forall w v headers body resp,
    C (Request EpLogin "POST" headers body) (Settled resp) ->
    res_json resp = Some v ->
    truthy (opt_prop v "access_token") = true ->
    I w ->
    I (set_isLoggedIn true
         (set_currentUser (opt_prop v "user")
            (set_authToken (opt_prop v "access_token") w))).

Lemma keeps_handleLogout : keeps C I handleLogout.
Proof.
  pose proof keeps_showMainView. pose proof keeps_showNotification.
  unfold handleLogout. intros w Hw. do 4 apply wp_upd_bind.
  apply (keeps_bind C I showMainView); auto.
Qed.

Lemma keeps_handleLogin : keeps C I handleLogin.
Proof.
  pose proof keeps_showNotification. pose proof keeps_hideLoginModal.
  pose proof keeps_showAdminPanel. pose proof keeps_loadDocuments.
  unfold handleLogin. apply keeps_get_bind. intros w0.
  destruct (getElementById "username" w0) as [usernameEl|]; [|apply keeps_ret].
  destruct (getElementById "password" w0) as [passwordEl|]; [|apply keeps_ret].
  cbv zeta. destruct (_ || _); [auto|].
  apply keeps_try_catch; [|auto].
  apply keeps_bind; [auto|intros _].
  intros w Hw. apply wp_await_bind.
  apply wp_makeAPICall; [exact Hw|auto|].
  intros v headers resp w1 Hresp Hjson Hw1.
  split; [exact Hw1|]. intros w2 Hw2.
  destruct (truthy (opt_prop v "access_token")) eqn:Htoken; [|exact Hw2].
  do 3 apply wp_upd_bind.
  match goal with
  | |- wp _ _ ?p _ _ => assert (keeps C I p) as Hrest by keep
  end.
  apply Hrest. by eapply I_login.
Qed.

Lemma keeps_body c : keeps C I (body c).
Proof.
  destruct c; cbn [body];
    auto using keeps_handleLogin, keeps_handleLogout, keeps_handleFileSelect,
      keeps_handleFileUpload, keeps_downloadDocument, keeps_deleteDocument,
      keeps_handleQuestion, keeps_clearResults, keeps_clearChatHistory,
      keeps_showLoginModal, keeps_hideLoginModal, keeps_hideAllModals.
Qed.

(** [I] holds of the page in every state the event loop reaches. *)
Lemma reachable_inv s :
  (forall w, fresh w -> I w) ->
  Loop.reachable C s ->
  I (Loop.page s) /\ Forall (task_safe C I) (Loop.tasks s).
Proof.
  intros Hfresh Hs. induction Hs as [w Hw|s i s' Hs [Hpage Htasks] Hin Hstep].
  { split; [by apply Hfresh|constructor]. }
  assert (forall p usr others,
             wp C I p (fun _ w' => I w') (Loop.page s) ->
             Forall (task_safe C I) others ->
             I (Loop.page (Loop.resume p usr (Loop.page s) others))
             /\ Forall (task_safe C I)
                  (Loop.tasks (Loop.resume p usr (Loop.page s) others)))
    as Hresume.
  { intros p usr others Hp Hothers.
    destruct (Loop_advance_safe C I p usr (Loop.page s) Hp) as [H1 H2].
    unfold Loop.resume. destruct (Loop.advance p usr (Loop.page s)) as [w' t].
    cbn in *. split; [exact H1|]. apply Forall_app. by split. }
  assert (forall n, Forall (task_safe C I) (delete n (Loop.tasks s)))
    as Hdelete.
  { intros n. apply Forall_forall. intros t Ht.
    rewrite Forall_forall in Htasks. apply Htasks.
    eapply list_elem_of_delete_inv, Ht. }
  destruct i as [id text|files|c usr|n res usr|n usr]; cbn in Hstep, Hin.
  - injection Hstep as <-. cbn. split; [by apply I_dom|exact Htasks].
  - injection Hstep as <-. cbn. split; [by apply I_dom|exact Htasks].
  - injection Hstep as <-. apply Hresume; [|exact Htasks].
    by apply keeps_body.
  - destruct (Loop.tasks s !! n) as [[r k|k]|] eqn:Hn; try discriminate.
    injection Hstep as <-. apply Hresume; [|apply Hdelete].
    rewrite Forall_forall in Htasks.
    apply list_elem_of_lookup_2 in Hn.
    exact (Htasks _ Hn res (Loop.page s) Hin Hpage).
  - destruct (Loop.tasks s !! n) as [[r k|k]|] eqn:Hn; try discriminate.
    injection Hstep as <-. apply Hresume; [|apply Hdelete].
    rewrite Forall_forall in Htasks.
    apply list_elem_of_lookup_2 in Hn.
    exact (Htasks _ Hn (Loop.page s) Hpage).
Qed.

End Methods.

(** ** The session *)

Lemma perform_all_reachable C script s s' :
  Loop.reachable C s -> Loop.within_all C script s ->
  Loop.perform_all script s = Some s' -> Loop.reachable C s'.
Proof.
  revert s. induction script as [|i script IH]; intros s Hs Hin Hrun; cbn in *.
  - by injection Hrun as <-.
  - destruct Hin as [Hi Hrest]. destruct (Loop.perform i s) as [s1|] eqn:Hstep.
    + apply (IH s1); [|exact Hrest|exact Hrun].
      by apply (Loop.reach_step C s i s1).
    + discriminate.
Qed.

(** A token is held while someone is logged in, whatever the backend
    answers. *)
Lemma token_held s :
  Loop.reachable Loop.any_answer s ->
  isLoggedIn (Loop.page s) = true -> truthy (authToken (Loop.page s)) = true.
Proof.
  intros Hs.
  apply (reachable_inv Loop.any_answer
           (fun w => isLoggedIn w = true -> truthy (authToken w) = true));
    try exact Hs; try (intros; cbn in *; auto; congruence).
  intros w (Hlog & _). congruence.
Qed.

(** With a backend that keeps the contract of the login endpoint, a user is
    held as well. *)
Lemma user_held s :
  Loop.reachable Loop.login_contract s ->
  isLoggedIn (Loop.page s) = true ->
  is_nullish (currentUser (Loop.page s)) = false.
Proof.
  intros Hs.
  apply (reachable_inv Loop.login_contract
           (fun w => isLoggedIn w = true -> is_nullish (currentUser w) = false));
    try exact Hs; try (intros; cbn in *; auto; congruence).
  - intros w v headers body resp Hresp Hjson Htoken _ _. cbn.
    unfold Loop.login_contract, Loop.login_ok in Hresp. cbn in Hresp.
    rewrite Hjson, Htoken in Hresp. cbn in Hresp.
    by apply negb_true_iff in Hresp.
  - intros w (Hlog & _). congruence.
Qed.

Lemma reachable_any C s : Loop.reachable C s -> Loop.reachable Loop.any_answer s.
Proof.
  induction 1 as [w Hw|s i s' _ IH Hin Hstep]; [by constructor|].
  apply (Loop.reach_step _ s i s'); [exact IH| |exact Hstep].
  destruct i; cbn; try exact I0. all: try exact I.
  destruct (Loop.tasks s !! n) as [[]|]; exact I.
Qed.

Lemma truthy_not_nullish v : truthy v = true -> is_nullish v = false.
Proof. by destruct v. Qed.

(** C2, as amended: in every state that the event loop reaches, by logins,
    logouts and anything else the page offers, a logged-in session holds a
    token that is neither [null] nor [undefined]; it holds a user that is
    neither as well when the backend keeps the login contract, that a
    response with a token carries a user. *)
Theorem session_all_or_nothing (s : Loop.state) :
  (Loop.reachable Loop.any_answer s ->
   isLoggedIn (Loop.page s) = true ->
   is_nullish (authToken (Loop.page s)) = false)
  /\ (Loop.reachable Loop.login_contract s ->
      isLoggedIn (Loop.page s) = true ->
      is_nullish (currentUser (Loop.page s)) = false
      /\ is_nullish (authToken (Loop.page s)) = false).
Proof.
  split.
  - intros Hs Hlog. by apply truthy_not_nullish, token_held.
  - intros Hs Hlog. split; [by apply user_held|].
    apply truthy_not_nullish, token_held; [|exact Hlog].
    by apply (reachable_any Loop.login_contract).
Qed.

Lemma scripted_reachable C script s :
  Loop.reachable C s -> Loop.within_all C script s ->
  Loop.reachable C (default s (Loop.perform_all script s)).
Proof.
  intros Hs Hin. destruct (Loop.perform_all script s) as [s'|] eqn:Hrun.
  - exact (perform_all_reachable C script s s' Hs Hin Hrun).
  - exact Hs.
Qed.

Lemma within_all_any script s : Loop.within_all Loop.any_answer script s.
Proof.
  revert s. induction script as [|i script IH]; intros s; cbn; [exact I|].
  split.
  - destruct i; cbn; try exact I. by destruct (Loop.tasks s !! n) as [[]|].
  - destruct (Loop.perform i s); [apply IH|exact I].
Qed.

Lemma after_login_reachable C answer :
  Loop.within_all C (login_script answer) (Loop.State world0 []) ->
  Loop.reachable C (after_login answer).
Proof.
  intros Hin. apply scripted_reachable; [by constructor|exact Hin].
Qed.

Lemma session_all_or_nothing_witness :
  is_nullish
    (authToken
       (Loop.page
          (after_login (VObj [("access_token", VStr "t");
                              ("user", VObj [("name", VStr "admin")])]))))
  = false
  /\ is_nullish
       (currentUser
          (Loop.page
             (after_login (VObj [("access_token", VStr "t");
                                 ("user", VObj [("name", VStr "admin")])]))))
     = false.
Proof.
  pose (answer := VObj [("access_token", VStr "t");
                        ("user", VObj [("name", VStr "admin")])]).
  destruct (session_all_or_nothing (after_login answer)) as [Htoken Huser].
  split.
  - apply Htoken; [|vm_compute; reflexivity].
    apply after_login_reachable, within_all_any.
  - apply Huser; [|vm_compute; reflexivity].
    apply after_login_reachable. vm_compute. tauto.
Defined.

(** C2 as the specification has it fails: the backend answers a login with a
    token and [user: null], and the session is logged in without a user. *)
Lemma session_without_user :
  ~ (forall s,
        Loop.reachable Loop.any_answer s ->
        isLoggedIn (Loop.page s) = true ->
        is_nullish (currentUser (Loop.page s)) = false
        /\ is_nullish (authToken (Loop.page s)) = false).
Proof.
  intros Hclaim.
  pose (answer := VObj [("access_token", VStr "t"); ("user", VNull)]).
  destruct (Hclaim (after_login answer)) as [Huser _].
  - apply after_login_reachable, within_all_any.
  - vm_compute. reflexivity.
  - vm_compute in Huser. discriminate Huser.
Qed.

(** ** Looking elements up after a step *)

Lemma getElementById_with_el id f w :
  getElementById id (with_el id f w) = f <$> getElementById id w.
Proof.
  unfold getElementById, with_el. cbn. rewrite lookup_alter.
  case_decide; [done|congruence].
Qed.

Lemma getElementById_with_el_ne id id' f w :
  id <> id' -> getElementById id' (with_el id f w) = getElementById id' w.
Proof.
  intros Hne. unfold getElementById, with_el. cbn. rewrite lookup_alter.
  case_decide; [congruence|done].
Qed.

Lemma getElementById_emit id e w :
  getElementById id (emit e w) = getElementById id w.
Proof. reflexivity. Qed.

Lemma getElementById_set_isLoggedIn id b w :
  getElementById id (set_isLoggedIn b w) = getElementById id w.
Proof. reflexivity. Qed.

Lemma getElementById_set_currentUser id v w :
  getElementById id (set_currentUser v w) = getElementById id w.
Proof. reflexivity. Qed.

Lemma getElementById_set_authToken id v w :
  getElementById id (set_authToken v w) = getElementById id w.
Proof. reflexivity. Qed.

Lemma getElementById_set_chatHistory id h w :
  getElementById id (set_chatHistory h w) = getElementById id w.
Proof. reflexivity. Qed.

Lemma getElementById_set_uploadedDocuments id v w :
  getElementById id (set_uploadedDocuments v w) = getElementById id w.
Proof. reflexivity. Qed.

Ltac dom_lookup :=
  repeat first
    [ rewrite getElementById_with_el
    | rewrite getElementById_with_el_ne by done
    | rewrite getElementById_emit
    | rewrite getElementById_set_isLoggedIn
    | rewrite getElementById_set_currentUser
    | rewrite getElementById_set_authToken
    | rewrite getElementById_set_chatHistory
    | rewrite getElementById_set_uploadedDocuments ].

Lemma concealed_hide id w :
  concealed id (with_el id (set_hidden true "none") w) = true.
Proof.
  unfold concealed. rewrite getElementById_with_el.
  by destruct (getElementById id w).
Qed.

Lemma displayed_show id display w :
  displayed id display (with_el id (set_hidden false display) w) = true.
Proof.
  unfold displayed. rewrite getElementById_with_el.
  destruct (getElementById id w); cbn; [|done]. apply String.eqb_refl.
Qed.

Lemma run_sync_run {A} (p : prog A) usr w o w' :
  run_sync p usr w = Some (o, w') ->
  forall net, exists usr',
    run p net usr w = Ran o w' net usr'.
Proof.
  revert usr w. induction p as [a|e|g k IH|k IH|r k IH|m k IH|k IH];
    intros usr w Hsync net; cbn in *; try discriminate; eauto.
  - injection Hsync as <- <-. by eexists.
  - injection Hsync as <- <-. by eexists.
Qed.

(** ** Logout *)

(** C7: after [handleLogout], whatever the state before, nobody is logged
    in, the token and the user are [null], the document list is empty, and
    the main view is shown with the admin panel hidden. *)
Theorem logout_clears_session (net : list fetch_result) (usr : list bool)
    (w : world) :
  let r := run handleLogout net usr w in
  outcome r = Returned tt
  /\ isLoggedIn (after r) = false
  /\ authToken (after r) = VNull
  /\ currentUser (after r) = VNull
  /\ uploadedDocuments (after r) = VArr []
  /\ main_view (after r) = true.
Proof.
  cbn. repeat split. unfold main_view, displayed, concealed. dom_lookup.
  by destruct (getElementById "mainView" w), (getElementById "adminPanel" w).
Qed.

Lemma run_get_bind {A} (k : world -> prog A) net usr w :
  run (get ≫= k) net usr w = run (k w) net usr w.
Proof. reflexivity. Qed.

Lemma run_sync_get_bind {A} (k : world -> prog A) usr w :
  run_sync (get ≫= k) usr w = run_sync (k w) usr w.
Proof. reflexivity. Qed.

Lemma requests_app l1 l2 : requests (l1 ++ l2) = requests l1 ++ requests l2.
Proof. apply flat_map_app. Qed.


(** ** Chat history *)

Lemma chat_history_reachable s :
  Loop.reachable Loop.any_answer s -> length (chatHistory (Loop.page s)) <= 10.
Proof.
  intros Hs.
  apply (reachable_inv Loop.any_answer (fun w => length (chatHistory w) <= 10));
    try exact Hs; try (intros; cbn in *; auto; lia).
  - intros q w _. cbn. rewrite unshift_capped_firstn, length_firstn. lia.
  - intros w (_ & _ & _ & -> & _). cbn. lia.
Qed.

(** C3: in every state that the page reaches the chat history has at most
    ten entries; the questions put into an empty history leave their ten
    most recent ones, newest first; the question that enters a full history
    is its first entry and the last entry of before is gone. *)
Theorem chat_history_bounded (s : Loop.state) (qs : list string) (q : string)
    (net : list fetch_result) (usr : list bool) (w : world) :
  Loop.reachable Loop.any_answer s ->
  chatHistory w = [] ->
  let w' := after (run (forEach qs addToChatHistory) net usr w) in
  length (chatHistory (Loop.page s)) <= 10
  /\ chatHistory w' = firstn 10 (rev qs)
  /\ length (chatHistory w') <= 10
  /\ (length (chatHistory w') = 10 ->
      chatHistory (after (run (addToChatHistory q) net usr w'))
      = q :: removelast (chatHistory w')).
Proof.
  intros Hs Hw w'. split; [by apply chat_history_reachable|].
  assert (chatHistory w' = firstn 10 (rev qs)) as Heq.
  { subst w'. rewrite chatHistory_after_questions by (rewrite Hw; cbn; lia).
    by rewrite Hw, app_nil_r. }
  split; [exact Heq|]. split.
  - rewrite Heq, length_firstn. lia.
  - intros Hlen. rewrite chatHistory_addToChatHistory, unshift_capped_firstn.
    cbn [firstn]. f_equal.
    by rewrite removelast_firstn_len, Hlen.
Qed.

Lemma chat_history_bounded_witness :
  let s := default (Loop.State world0 [])
             (Loop.perform_all
                (ask_all eleven)
                (Loop.State world0 [])) in
  let w' := after (run (forEach eleven addToChatHistory) [] [] world0) in
  chatHistory (Loop.page s) = firstn 10 (rev eleven)
  /\ length (chatHistory (Loop.page s)) <= 10
  /\ chatHistory w' = firstn 10 (rev eleven)
  /\ chatHistory (after (run (addToChatHistory "question 12") [] [] w'))
     = "question 12" :: removelast (chatHistory w').
Proof.
  intros s w'.
  destruct (chat_history_bounded s eleven "question 12" [] [] world0)
    as (Hs & Hall & Hlen & Hnext).
  - apply scripted_reachable; [by constructor|apply within_all_any].
  - reflexivity.
  - split; [vm_compute; reflexivity|]. split; [exact Hs|]. split; [exact Hall|].
    apply Hnext. vm_compute. reflexivity.
Defined.

(** ** Questions *)

(** C6: a question that is empty or shorter than three characters once
    trimmed is turned down on the spot with one notification: the call ends
    without a request and without being suspended. *)
Theorem short_question_rejected (net : list fetch_result) (usr : list bool)
    (w : world) (el : element) :
  getElementById "questionInput" w = Some el ->
  trim (el_value el) = EmptyString \/ String.length (trim (el_value el)) < 3 ->
  run_sync handleQuestion usr w
  = Some (Returned tt,
          emit (Notify (question_rejection (trim (el_value el))) "error") w)
  /\ requests (log (after (run handleQuestion net usr w))) = requests (log w).
Proof.
  intros Hel Hshort.
  assert (run_sync handleQuestion usr w
          = Some (Returned tt,
                  emit (Notify (question_rejection (trim (el_value el))) "error") w))
    as Hsync.
  { unfold handleQuestion. rewrite run_sync_get_bind, Hel. cbv zeta.
    unfold question_rejection.
    destruct (String.eqb (trim (el_value el)) "") eqn:Hempty; [reflexivity|].
    destruct Hshort as [Hshort|Hshort].
    - rewrite Hshort in Hempty. discriminate.
    - apply Nat.ltb_lt in Hshort. rewrite Hshort. reflexivity. }
  split; [exact Hsync|].
  destruct (run_sync_run _ _ _ _ _ Hsync net) as [usr' ->]. cbn [after].
  change (log (emit ?e w)) with (log w ++ [e]).
  rewrite requests_app. apply app_nil_r.
Qed.

Lemma short_question_rejected_witness :
  run_sync handleQuestion [] (typed "questionInput" "  hi  " world0)
  = Some (Returned tt,
          emit (Notify "Question must be at least 3 characters long" "error")
               (typed "questionInput" "  hi  " world0)).
Proof.
  refine (proj1 (short_question_rejected [] []
                   (typed "questionInput" "  hi  " world0)
                   (set_value "  hi  " blank) _ _)).
  - reflexivity.
  - right. vm_compute. lia.
Defined.

(** C8: once a question has passed the checks, the call ends normally with
    the processing overlay hidden, whatever the backend answers. *)
Theorem processing_always_hidden (net : list fetch_result) (usr : list bool)
    (w : world) (el : element) :
  getElementById "questionInput" w = Some el ->
  3 <= String.length (trim (el_value el)) ->
  let r := run handleQuestion net usr w in
  outcome r = Returned tt /\ concealed "processingOverlay" (after r) = true.
Proof.
  intros Hel Hlong. unfold handleQuestion. rewrite run_get_bind, Hel. cbv zeta.
  destruct (String.eqb (trim (el_value el)) "") eqn:Hempty.
  { apply String.eqb_eq in Hempty. rewrite Hempty in Hlong. cbn in Hlong. lia. }
  apply Nat.ltb_ge in Hlong. rewrite Hlong.
  rewrite run_bind. cbn [showProcessing upd run outcome after net_rest usr_rest].
  rewrite run_bind.
  change (run (addToChatHistory ?q) ?n ?u ?w0)
    with (Ran (Returned tt) (after (run (addToChatHistory q) n u w0)) n u).
  cbn [outcome after net_rest usr_rest].
  rewrite run_try_finally. cbv zeta.
  cbn [hideProcessing upd run outcome after net_rest usr_rest].
  rewrite concealed_hide. split; [|reflexivity].
  rewrite run_try_catch. cbv zeta.
  match goal with
  | |- context [run ?p ?n ?u ?w0] =>
      destruct (run p n u w0) as [[[]|e] w1 n1 u1]
  end; reflexivity.
Qed.

Lemma processing_always_hidden_witness :
  concealed "processingOverlay"
    (after (run handleQuestion [Rejected] []
              (typed "questionInput" "What is our PTO policy?" world0)))
  = true.
Proof.
  refine (proj2 (processing_always_hidden [Rejected] []
                   (typed "questionInput" "What is our PTO policy?" world0)
                   (set_value "What is our PTO policy?" blank) _ _)).
  - reflexivity.
  - vm_compute. lia.
Defined.

(** ** Documents *)

(** C9: a logged-in user who deletes a document with a valid id is asked
    first; after a cancel the call has ended with nothing but the question
    shown: no request sent, the document list as it was. *)
Theorem delete_asks_first (id : jsval) (net : list fetch_result)
    (usr : list bool) (w : world) :
  isLoggedIn w = true ->
  invalid_id id = false ->
  let r := run (deleteDocument id) net usr w in
  (exists rest, log (after r) = log w ++ Asked delete_prompt :: rest)
  /\ (List.hd false usr = false ->
      run_sync (deleteDocument id) usr w
      = Some (Returned tt, emit (Asked delete_prompt) w)
      /\ requests (log (after r)) = requests (log w)
      /\ uploadedDocuments (after r) = uploadedDocuments w).
Proof.
  intros Hlog Hid r. split.
  - apply (run_wp (fun w' => exists rest,
                       log w' = log w ++ Asked delete_prompt :: rest)
             (deleteDocument id)
             (fun _ w' => exists rest,
                  log w' = log w ++ Asked delete_prompt :: rest)).
    apply wp_deleteDocument_asked; try assumption.
    + intros d w' [rest Hrest]. by exists rest.
    + intros e w' [rest Hrest]. exists (rest ++ [e]). cbn. rewrite Hrest.
      by rewrite <- app_assoc.
    + intros v w' [rest Hrest]. by exists rest.
    + by exists [].
  - intros Hcancel.
    assert (run_sync (deleteDocument id) usr w
            = Some (Returned tt, emit (Asked delete_prompt) w)) as Hsync.
    { unfold deleteDocument. rewrite run_sync_get_bind, Hlog, Hid.
      cbn [negb]. cbn [confirm mbind prog_bind bind run_sync].
      by rewrite Hcancel. }
    split; [exact Hsync|]. subst r.
    destruct (run_sync_run _ _ _ _ _ Hsync net) as [usr' ->]. cbn [after].
    split; [|reflexivity].
    change (log (emit ?e w)) with (log w ++ [e]).
    rewrite requests_app. apply app_nil_r.
Qed.

Lemma delete_asks_first_witness :
  run_sync (deleteDocument (VNum 7)) [false]
           (logged_in (VStr "t") (VStr "admin") world0)
  = Some (Returned tt,
          emit (Asked delete_prompt) (logged_in (VStr "t") (VStr "admin") world0)).
Proof.
  refine (proj1 (proj2 (delete_asks_first (VNum 7) [] [false]
                          (logged_in (VStr "t") (VStr "admin") world0) _ _) _)).
  - reflexivity.
  - reflexivity.
  - reflexivity.
Defined.

(** C5, as amended: while nobody is logged in, upload, delete and download
    end on the spot with the notice "Please login first" and nothing else
    done; the refresh of the list ends on the spot too, silently. *)
Theorem logged_out_operations_rejected (id : jsval) (usr : list bool)
    (w : world) :
  isLoggedIn w = false ->
  run_sync handleFileUpload usr w
  = Some (Returned tt, emit (Notify "Please login first" "error") w)
  /\ run_sync (deleteDocument id) usr w
     = Some (Returned tt, emit (Notify "Please login first" "error") w)
  /\ run_sync (downloadDocument id) usr w
     = Some (Returned tt, emit (Notify "Please login first" "error") w)
  /\ run_sync loadDocuments usr w = Some (Returned tt, w).
Proof.
  intros Hout.
  unfold handleFileUpload, deleteDocument, downloadDocument, loadDocuments.
  rewrite !run_sync_get_bind, Hout. by cbn.
Qed.

Lemma logged_out_operations_rejected_witness :
  run_sync loadDocuments [] world0 = Some (Returned tt, world0).
Proof.
  refine (proj2 (proj2 (proj2 (logged_out_operations_rejected VNull [] world0 _)))).
  reflexivity.
Defined.

(** C5 as the specification has it fails: the refresh of the list, called
    while nobody is logged in, shows no notice. *)
Lemma refresh_logged_out_is_silent :
  ~ (forall o w, isLoggedIn w = false -> rejected_with_notice (operation o) w).
Proof.
  intros Hclaim. destruct (Hclaim OpList world0 eq_refl) as [message Hrun].
  specialize (Hrun []). vm_compute in Hrun. discriminate Hrun.
Qed.

(** ** Upload *)




Lemma files_field_formData team project files :
  files_field (FormBody (formData team project files)) = files.
Proof.
  unfold formData, files_field. cbn. induction files as [|f files IH]; cbn; congruence.
Qed.



(** C1, at the scenario of the specification: the selection is announced
    with one rejection, for [setup.exe], and only [report.pdf] is listed; the
    upload request carries both files all the same. *)
Lemma upload_sends_rejected_file :
  let selected := run (handleFileSelect picked) [] [] upload_ready in
  let r := run handleFileUpload
             [ok_json (VObj []); ok_json (VObj [("documents", VArr [])])] []
             (after selected) in
  notices (log (after selected)) = [(unsupported "setup.exe", "error")]
  /\ (el_children <$> getElementById "fileList" (after selected))
     = Some [FileItem (File "report.pdf" 2048)]
  /\ List.map (fun q => (req_url q, files_field (req_body_of q)))
              (requests (log (after r)))
     = [(EpUpload, [File "setup.exe" 4096; File "report.pdf" 2048]);
        (EpDocuments, [])].
Proof. vm_compute. repeat split. Qed.

(** ** Login *)

(** A login that the backend refuses, or that never reaches it, is answered
    with the failure notice; the session fields and the modal stay as they
    were. *)
Lemma login_failure_notified answer net usr w usernameEl passwordEl :
  getElementById "username" w = Some usernameEl ->
  getElementById "password" w = Some passwordEl ->
  trim (el_value usernameEl) <> EmptyString ->
  trim (el_value passwordEl) <> EmptyString ->
  (answer = Rejected
   \/ exists r, answer = Settled r /\ res_ok r = false) ->
  let r := run handleLogin (answer :: net) usr w in
  outcome r = Returned tt
  /\ exists q,
      after r
      = emit (Notify "Login failed. Please check your credentials." "error")
          (emit (Sent q) (emit (Notify "Logging in..." "info") w)).
Proof.
  intros Hu Hp Hun Hpw Hanswer. unfold handleLogin.
  rewrite run_get_bind, Hu, Hp. cbv zeta.
  apply String.eqb_neq in Hun, Hpw. rewrite Hun, Hpw. cbn [orb].
  destruct Hanswer as [->|(resp & -> & Hok)].
  - cbn. eauto.
  - cbn. rewrite Hok. cbn. destruct (res_text resp); cbn; eauto.
Qed.

(** C4, where the backend answers 200 without a token: the call ends with
    "Logging in..." as its only notice; nothing tells the user that the login
    failed.  The session stays logged out and the modal open. *)
Lemma login_without_token_is_silent :
  let r := run handleLogin [ok_json (VObj [("detail", VStr "no token")])] []
             login_ready in
  outcome r = Returned tt
  /\ notices (log (after r)) = [("Logging in...", "info")]
  /\ isLoggedIn (after r) = false
  /\ currentUser (after r) = VNull
  /\ authToken (after r) = VNull
  /\ displayed "loginModal" "flex" (after r) = true.
Proof. vm_compute. repeat split. Qed.

(** The same form against a backend that answers 401. *)
Example login_refused :
  let r := run handleLogin [failed 401 "Unauthorized" "bad credentials"] []
             login_ready in
  notices (log (after r))
  = [("Logging in...", "info");
     ("Login failed. Please check your credentials.", "error")]
  /\ isLoggedIn (after r) = false
  /\ displayed "loginModal" "flex" (after r) = true.
Proof. vm_compute. repeat split. Qed.

(** * Further properties of the controller *)

(** ** Which files pass *)

Lemma fold_case_lower_char a b :
  lower_letter b = true -> lower_char a = b -> fold_case a = fold_case b.
Proof.
  unfold lower_letter, fold_case, lower_char.
  pose proof (nat_ascii_bounded a) as Hbound.
  set (x := nat_of_ascii a) in *.
  intros Hb Hab. subst b.
  repeat match goal with
         | |- context [(?n <=? ?m)%nat] => destruct (Nat.leb_spec n m)
         | |- context [(?n =? ?m)%nat] => destruct (Nat.eqb_spec n m)
         | H : context [(?n <=? ?m)%nat] |- _ => destruct (Nat.leb_spec n m)
         | H : context [(?n =? ?m)%nat] |- _ => destruct (Nat.eqb_spec n m)
         end;
    cbn [andb orb negb] in *; try discriminate; try lia;
    repeat match goal with
           | H : context [nat_of_ascii (ascii_of_nat ?n)] |- _ =>
               rewrite (nat_ascii_embedding n) in H by lia
           | |- context [nat_of_ascii (ascii_of_nat ?n)] =>
               rewrite (nat_ascii_embedding n) by lia
           end;
    try lia.
Qed.

Lemma eq_nocase_toLowerCase s t :
  all_lower t = true -> toLowerCase s = t -> eq_nocase s t = true.
Proof.
  revert t. induction s as [|a s IH]; intros [|b t]; cbn; try done.
  intros [Hb Ht]%andb_prop Heq. injection Heq as Ha Hs.
  rewrite (fold_case_lower_char a b Hb Ha), Nat.eqb_refl. cbn.
  by apply IH.
Qed.

(** X3: [isValidFile] accepts a file exactly when what follows the last dot
    of its name (the whole name when there is no dot) is [txt], [pdf], [doc]
    or [docx] up to the case of its letters. *)
Theorem isValidFile_exact (f : file) :
  isValidFile f = true <->
  exists allowed,
    In allowed ["txt"; "pdf"; "doc"; "docx"]
    /\ eq_nocase (pop (split "." (file_name f))) allowed = true.
Proof.
  unfold isValidFile. cbv zeta. split.
  - intros Hf. apply existsb_exists in Hf as (t & Hin & Heq).
    apply String.eqb_eq in Heq. cbn in Hin.
    destruct Hin as [<-|[<-|[<-|[<-|[]]]]]; injection Heq as Heq;
      [exists "txt"|exists "pdf"|exists "doc"|exists "docx"];
      (split; [cbn; tauto|by apply eq_nocase_toLowerCase]).
  - intros (allowed & Hin & Heq).
    assert (all_lower allowed = true) as Hlow.
    { cbn in Hin. destruct Hin as [<-|[<-|[<-|[<-|[]]]]]; reflexivity. }
    rewrite (toLowerCase_nocase _ allowed Hlow Heq).
    cbn in Hin. destruct Hin as [<-|[<-|[<-|[<-|[]]]]]; reflexivity.
Qed.

Lemma isValidFile_exact_witness :
  isValidFile (File "setup.exe" 4096) = false
  /\ isValidFile (File "notes.TxT" 12) = true.
Proof.
  split.
  - destruct (isValidFile (File "setup.exe" 4096)) eqn:Hf; [|reflexivity].
    apply (proj1 (isValidFile_exact (File "setup.exe" 4096))) in Hf.
    destruct Hf as (allowed & Hin & Heq). cbn in Hin.
    destruct Hin as [<-|[<-|[<-|[<-|[]]]]]; vm_compute in Heq; discriminate Heq.
  - apply (proj2 (isValidFile_exact (File "notes.TxT" 12))).
    exists "txt". split; [cbn; tauto|reflexivity].
Defined.

(** X4: only what follows the last dot counts, neither what precedes it nor
    the size of the file; a name without a dot is its own extension. *)
Theorem isValidFile_last_segment (base ext : string) (n m : Z) :
  free_of "." ext = true ->
  isValidFile (File (base +:+ "." +:+ ext) n) = isValidFile (File ext m).
Proof.
  intros Hfree. unfold isValidFile. cbn [file_name].
  rewrite (pop_split_ext base ext Hfree), (split_free "." ext Hfree).
  reflexivity.
Qed.

Lemma isValidFile_last_segment_witness :
  isValidFile (File "report.pdf.exe" 10) = isValidFile (File "exe" 0)
  /\ isValidFile (File "setup.exe.pdf" 10) = isValidFile (File "pdf" 0).
Proof.
  split.
  - apply (isValidFile_last_segment "report.pdf" "exe" 10 0). reflexivity.
  - apply (isValidFile_last_segment "setup.exe" "pdf" 10 0). reflexivity.
Defined.

(** ** Calls to the backend *)

Lemma run_upd_bind {A} f (k : prog A) net usr w :
  run (upd f;; k) net usr w = run k net usr (f w).
Proof. reflexivity. Qed.

Lemma run_notify_bind {A} message type (k : prog A) net usr w :
  run (showNotification message type;; k) net usr w
  = run k net usr (emit (Notify message type) w).
Proof. reflexivity. Qed.

Lemma run_notify message type net usr w :
  run (showNotification message type) net usr w
  = Ran (Returned tt) (emit (Notify message type) w) net usr.
Proof. reflexivity. Qed.

Lemma run_await {A} (p : prog A) net usr w :
  run (await p) net usr w = run p net usr w.
Proof.
  unfold await. rewrite run_bind. cbv zeta.
  by destruct (run p net usr w) as [[a|e] w' net' usr'].
Qed.

(** [makeAPICall] sends one request, with the bearer token when one is held,
    and touches nothing else; it returns the parsed body of an ok response
    and throws on anything else. *)
Lemma run_makeAPICall (ep : endpoint) (method : string) (body : req_body)
    (net : list fetch_result) (usr : list bool) (w : world) :
  run (makeAPICall ep method body) net usr w
  = Ran (api_outcome (List.hd Rejected net))
        (emit (Sent (Request ep method (api_headers w) body)) w)
        (List.tl net) usr.
Proof.
  unfold makeAPICall. rewrite run_try_catch, run_get_bind. cbv zeta.
  cbn [fetch mbind prog_bind bind run].
  destruct (List.hd Rejected net) as [|r]; [reflexivity|].
  cbn [api_outcome]. destruct (res_ok r); cbn [negb].
  - destruct (res_json r); reflexivity.
  - destruct (res_text r); reflexivity.
Qed.

Lemma api_fails_outcome answer :
  api_fails answer = true -> exists e, api_outcome answer = Thrown e.
Proof.
  destruct answer as [|r]; cbn; [by eexists|].
  destruct (res_ok r); cbn.
  - destruct (res_json r); [discriminate|by eexists].
  - intros _. destruct (res_text r); by eexists.
Qed.

Lemma notices_app l1 l2 : notices (l1 ++ l2) = notices l1 ++ notices l2.
Proof. apply flat_map_app. Qed.

(** ** Synchronous methods *)

Lemma synchronous_bind {A B} (p : prog A) (f : A -> prog B) :
  synchronous p -> (forall a, synchronous (f a)) -> synchronous (p ≫= f).
Proof.
  unfold mbind, prog_bind. intros Hp Hf.
  induction p as [a|e|g k IH|k IH|r k IH|m k IH|k IH]; cbn in *; auto.
Qed.

Lemma synchronous_get_bind {A} (k : world -> prog A) :
  (forall w, synchronous (k w)) -> synchronous (get ≫= k).
Proof. exact id. Qed.

Lemma synchronous_confirm_bind {A} m (k : bool -> prog A) :
  (forall b, synchronous (k b)) -> synchronous (confirm m ≫= k).
Proof. exact id. Qed.

Lemma synchronous_try_catch {A} (p : prog A) (h : exn -> prog A) :
  synchronous p -> (forall e, synchronous (h e)) -> synchronous (try_catch p h).
Proof.
  intros Hp Hh.
  induction p as [a|e|g k IH|k IH|r k IH|m k IH|k IH]; cbn in *; auto.
Qed.

Lemma synchronous_forEach {X} (l : list X) (f : X -> prog unit) :
  (forall x, synchronous (f x)) -> synchronous (forEach l f).
Proof.
  intros Hf. induction l as [|x l IH]; cbn [forEach]; [exact I|].
  apply synchronous_bind; [apply Hf|intros _; exact IH].
Qed.

Lemma run_synchronous {A} (p : prog A) net usr w :
  synchronous p -> net_rest (run p net usr w) = net.
Proof.
  revert usr w. induction p as [a|e|g k IH|k IH|r k IH|m k IH|k IH];
    intros usr w Hp; cbn in *; auto; done.
Qed.

Lemma run_sync_synchronous {A} (p : prog A) usr w :
  synchronous p -> is_Some (run_sync p usr w).
Proof.
  revert usr w. induction p as [a|e|g k IH|k IH|r k IH|m k IH|k IH];
    intros usr w Hp; cbn in *; auto; done.
Qed.

Ltac sync_step :=
  lazymatch goal with
  | |- synchronous (Ret _) => exact I
  | |- synchronous (Throw _) => exact I
  | |- synchronous (get ≫= _) => apply synchronous_get_bind; intros ?
  | |- synchronous (confirm _ ≫= _) => apply synchronous_confirm_bind; intros ?
  | |- synchronous (_ ≫= _) => apply synchronous_bind; [|intros ?]
  | |- synchronous (try_catch _ _) => apply synchronous_try_catch; [|intros ?]
  | |- synchronous (forEach _ _) => apply synchronous_forEach; intros ?
  | |- synchronous (upd _) => exact I
  | |- synchronous (showNotification _ _) => exact I
  | |- synchronous (match ?x with _ => _ end) => destruct x
  | |- synchronous (let _ := _ in _) => cbv zeta
  end.

Ltac sync := repeat sync_step; eauto.

Lemma synchronous_updateDocumentStats : synchronous updateDocumentStats.
Proof. unfold updateDocumentStats. sync. Qed.

Lemma synchronous_renderDocuments : synchronous renderDocuments.
Proof.
  pose proof synchronous_updateDocumentStats. unfold renderDocuments. sync.
Qed.

(** ** Login, once more *)

(** X5: a login form with an empty user name or password, white space not
    counting, is turned down on the spot: one notice, no request. *)
Theorem empty_credentials_rejected (usr : list bool) (w : world)
    (usernameEl passwordEl : element) :
  getElementById "username" w = Some usernameEl ->
  getElementById "password" w = Some passwordEl ->
  trim (el_value usernameEl) = EmptyString
  \/ trim (el_value passwordEl) = EmptyString ->
  run_sync handleLogin usr w
  = Some (Returned tt,
          emit (Notify "Please enter both username and password" "error") w).
Proof.
  intros Hu Hp Hempty. unfold handleLogin.
  rewrite run_sync_get_bind, Hu, Hp. cbv zeta.
  destruct Hempty as [-> | ->]; [reflexivity|].
  by rewrite orb_true_r.
Qed.

Lemma empty_credentials_rejected_witness :
  run_sync handleLogin []
    (typed "username" "admin" (typed "password" "   " world0))
  = Some (Returned tt,
          emit (Notify "Please enter both username and password" "error")
               (typed "username" "admin" (typed "password" "   " world0))).
Proof.
  apply (empty_credentials_rejected []
           (typed "username" "admin" (typed "password" "   " world0))
           (set_value "admin" blank) (set_value "   " blank)).
  - reflexivity.
  - reflexivity.
  - right. reflexivity.
Defined.

(** X6: a login that the backend refuses, or that fails on the way, is
    answered with the failure notice after one request for the trimmed
    credentials; the session fields and the page are left as they were. *)
Theorem login_failure_leaves_session (answer : fetch_result)
    (net : list fetch_result) (usr : list bool) (w : world)
    (usernameEl passwordEl : element) :
  getElementById "username" w = Some usernameEl ->
  getElementById "password" w = Some passwordEl ->
  trim (el_value usernameEl) <> EmptyString ->
  trim (el_value passwordEl) <> EmptyString ->
  api_fails answer = true ->
  run handleLogin (answer :: net) usr w
  = Ran (Returned tt)
        (emit (Notify "Login failed. Please check your credentials." "error")
           (emit (Sent (login_request (trim (el_value usernameEl))
                          (trim (el_value passwordEl)) w))
              (emit (Notify "Logging in..." "info") w)))
        net usr.
Proof.
  intros Hu Hp Hun Hpw Hfail. unfold handleLogin.
  rewrite run_get_bind, Hu, Hp. cbv zeta.
  apply String.eqb_neq in Hun, Hpw. rewrite Hun, Hpw. cbn [orb].
  rewrite run_try_catch. cbv zeta.
  rewrite run_notify_bind.
  rewrite run_bind, run_await, run_makeAPICall. cbv zeta.
  cbn [outcome after net_rest usr_rest List.hd List.tl].
  destruct (api_fails_outcome answer Hfail) as [e ->]. reflexivity.
Qed.

Lemma login_failure_leaves_session_witness :
  after (run handleLogin [failed 401 "Unauthorized" "bad credentials"] []
           login_ready)
  = emit (Notify "Login failed. Please check your credentials." "error")
      (emit (Sent (login_request "admin" "wrong" login_ready))
         (emit (Notify "Logging in..." "info") login_ready)).
Proof.
  rewrite (login_failure_leaves_session
             (failed 401 "Unauthorized" "bad credentials") [] [] login_ready
             (set_value "admin" blank) (set_value "wrong" blank)).
  - reflexivity.
  - reflexivity.
  - reflexivity.
  - intros H. vm_compute in H. discriminate H.
  - intros H. vm_compute in H. discriminate H.
  - reflexivity.
Defined.

(** ** The document list *)

Lemma renderDocuments_same_fields net usr w :
  same_fields w (after (run renderDocuments net usr w)).
Proof.
  apply (run_keeps (same_fields w) renderDocuments net usr w).
  - apply keeps_renderDocuments. intros d w' H. exact H.
  - by repeat split.
Qed.

Lemma prop_opt_prop v k : is_nullish v = false -> prop v k = Some (opt_prop v k).
Proof. by destruct v. Qed.

Lemma truthy_opt_prop v k : truthy (opt_prop v k) = true -> is_nullish v = false.
Proof. by destruct v. Qed.

(** X7: a refresh by a logged-in user sends one request for the list and
    always ends normally; the list is replaced by the [documents] of an ok
    answer when that is truthy, and is left as it was by any other answer.
    The session and the chat history are not touched. *)
Theorem loadDocuments_replaces_or_keeps (net : list fetch_result)
    (usr : list bool) (w : world) :
  isLoggedIn w = true ->
  let r := run loadDocuments net usr w in
  outcome r = Returned tt
  /\ net_rest r = List.tl net
  /\ uploadedDocuments (after r)
     = documents_after (List.hd Rejected net) (uploadedDocuments w)
  /\ requests (log (after r)) = requests (log w) ++ [documents_request w]
  /\ isLoggedIn (after r) = true
  /\ authToken (after r) = authToken w
  /\ currentUser (after r) = currentUser w
  /\ chatHistory (after r) = chatHistory w.
Proof.
  intros Hlog. unfold loadDocuments, documents_after.
  rewrite run_get_bind, Hlog. cbn [negb].
  rewrite run_try_catch, run_bind, run_await, run_makeAPICall. cbv zeta.
  cbn [outcome after net_rest usr_rest].
  assert (requests (log (emit (Sent (documents_request w)) w))
          = requests (log w) ++ [documents_request w]) as Hsent.
  { cbn [log emit]. by rewrite requests_app. }
  destruct (api_outcome (List.hd Rejected net)) as [v|e].
  2: { cbn. rewrite requests_app, app_nil_r. by rewrite <- Hsent. }
  destruct (prop v "documents") as [documents|] eqn:Hdocs.
  2: { destruct v; try discriminate Hdocs; cbn;
         rewrite requests_app, app_nil_r; by rewrite <- Hsent. }
  assert (documents = opt_prop v "documents") as ->.
  { unfold opt_prop. by rewrite Hdocs. }
  destruct (truthy (opt_prop v "documents")) eqn:Htruthy.
  2: { cbn. by rewrite <- Hsent. }
  rewrite run_upd_bind.
  pose proof (renderDocuments_same_fields (List.tl net) usr
                (set_uploadedDocuments (opt_prop v "documents")
                   (emit (Sent (documents_request w)) w)))
    as (H1 & H2 & H3 & H4 & H5 & H6).
  pose proof (run_synchronous renderDocuments (List.tl net) usr
                (set_uploadedDocuments (opt_prop v "documents")
                   (emit (Sent (documents_request w)) w))
                synchronous_renderDocuments) as Hnet.
  destruct (run renderDocuments _ _ _) as [[[]|e] w' net' usr'];
    cbn [outcome after net_rest usr_rest] in *.
  - rewrite H1, H2, H3, H4, H5, H6. cbn. by rewrite <- Hsent.
  - rewrite run_notify. cbn [outcome after net_rest usr_rest emit log
      uploadedDocuments isLoggedIn authToken currentUser chatHistory].
    rewrite H1, H2, H3, H4, H5, H6, requests_app, app_nil_r. cbn.
    by rewrite <- Hsent.
Qed.

(** ** Rendering the list *)

Lemma docId_of_nullish doc : is_nullish doc = true -> docId_of doc = None.
Proof. by destruct doc. Qed.

Lemma docId_of_some doc : is_nullish doc = false -> is_Some (docId_of doc).
Proof. destruct doc; try done; by eexists. Qed.

Lemma forEach_render docs net usr w items :
  el_children <$> getElementById "documentsList" w = Some items ->
  let r := run (forEach docs (fun doc =>
                  match docId_of doc with
                  | None => Throw TypeError
                  | Some docId =>
                      if negb (truthy docId) then Ret tt
                      else upd (with_el "documentsList"
                                  (append_child (DocumentItem docId doc)))
                  end)) net usr w in
  (forall id, id <> "documentsList" ->
              getElementById id (after r) = getElementById id w)
  /\ same_fields w (after r)
  /\ if forallb (fun doc => negb (is_nullish doc)) docs then
       outcome r = Returned tt
       /\ el_children <$> getElementById "documentsList" (after r)
          = Some (items ++ listed docs)
     else outcome r = Thrown TypeError.
Proof.
  revert w items. induction docs as [|doc docs IH]; intros w items Hitems.
  - cbn. rewrite app_nil_r. by repeat split.
  - cbn [forEach forallb listed flat_map]. cbv zeta. rewrite run_bind. cbv zeta.
    destruct (is_nullish doc) eqn:Hdoc; cbn [negb andb].
    { rewrite (docId_of_nullish doc Hdoc). cbn. by repeat split. }
    destruct (docId_of_some doc Hdoc) as [docId ->].
    destruct (truthy docId); cbn [negb].
    + cbn [upd run outcome after net_rest usr_rest].
      destruct (IH (with_el "documentsList"
                      (append_child (DocumentItem docId doc)) w)
                  (items ++ [DocumentItem docId doc])) as (Hother & Hsame & Hres).
      { rewrite getElementById_with_el.
        destruct (getElementById "documentsList" w) as [e|]; [|done].
        cbn in *. congruence. }
      split; [|split; [exact Hsame|]].
      * intros id Hid. rewrite (Hother id Hid).
        by apply getElementById_with_el_ne.
      * destruct (forallb _ docs); [|exact Hres].
        destruct Hres as [Hout Hlist]. split; [exact Hout|].
        rewrite Hlist. cbn [app]. by rewrite <- app_assoc.
    + cbn [run outcome after net_rest usr_rest].
      destruct (IH w items Hitems) as (Hother & Hsame & Hres).
      split; [exact Hother|]. split; [exact Hsame|]. exact Hres.
Qed.



(** ** Refresh, delete and download *)

Lemma run_loadDocuments_outcome net usr w :
  outcome (run loadDocuments net usr w) = Returned tt.
Proof.
  unfold loadDocuments. rewrite run_get_bind.
  destruct (isLoggedIn w); cbn [negb]; [|reflexivity].
  rewrite run_try_catch. cbv zeta.
  by destruct (run _ net usr w) as [[[]|e] w' net' usr'].
Qed.

Lemma loadDocuments_replaces_or_keeps_witness :
  uploadedDocuments
    (after (run loadDocuments [ok_json (VObj [("documents", VArr [VNum 7])])] []
              (logged_in (VStr "t") (VStr "admin") world0)))
  = VArr [VNum 7]
  /\ uploadedDocuments
       (after (run loadDocuments [ok_json (VObj [("detail", VStr "none")])] []
                 (set_uploadedDocuments (VArr [VNum 1])
                    (logged_in (VStr "t") (VStr "admin") world0))))
     = VArr [VNum 1].
Proof.
  split.
  - exact (proj1 (proj2 (proj2
             (loadDocuments_replaces_or_keeps
                [ok_json (VObj [("documents", VArr [VNum 7])])] []
                (logged_in (VStr "t") (VStr "admin") world0) eq_refl)))).
  - exact (proj1 (proj2 (proj2
             (loadDocuments_replaces_or_keeps
                [ok_json (VObj [("detail", VStr "none")])] []
                (set_uploadedDocuments (VArr [VNum 1])
                   (logged_in (VStr "t") (VStr "admin") world0)) eq_refl)))).
Defined.

(** X9: a logged-in user's delete or download of a document whose id is
    falsy ([undefined], [null], [0], the empty string) or the string
    ["undefined"] ends on the spot with the notice "Invalid document ID": no
    dialog, no request, no navigation. *)
Theorem invalid_id_rejected (id : jsval) (usr : list bool) (w : world) :
  isLoggedIn w = true ->
  invalid_id id = true ->
  run_sync (deleteDocument id) usr w
  = Some (Returned tt, emit (Notify "Invalid document ID" "error") w)
  /\ run_sync (downloadDocument id) usr w
     = Some (Returned tt, emit (Notify "Invalid document ID" "error") w).
Proof.
  intros Hlog Hid. unfold deleteDocument, downloadDocument.
  rewrite !run_sync_get_bind, Hlog, Hid. by cbn.
Qed.

Lemma invalid_id_rejected_witness :
  Forall (fun id =>
            run_sync (deleteDocument id) [true]
                     (logged_in (VStr "t") (VStr "admin") world0)
            = Some (Returned tt,
                    emit (Notify "Invalid document ID" "error")
                         (logged_in (VStr "t") (VStr "admin") world0)))
         [VUndefined; VNull; VNum 0; VStr ""; VStr "undefined"; VBool false].
Proof.
  repeat (apply List.Forall_cons;
          [refine (proj1 (invalid_id_rejected _ [true]
                            (logged_in (VStr "t") (VStr "admin") world0) _ _));
           reflexivity|]).
  apply List.Forall_nil.
Defined.

(** [downloadDocument] is synchronous and never sends a request: it opens
    the download target of a valid id for a logged-in user, with the notice
    "Download started...", and otherwise shows one error notice. *)
Lemma download_only_navigates (id : jsval) (usr : list bool) (w : world) :
  run_sync (downloadDocument id) usr w
  = Some (Returned tt,
          if negb (isLoggedIn w) then
            emit (Notify "Please login first" "error") w
          else if invalid_id id then
            emit (Notify "Invalid document ID" "error") w
          else
            emit (Notify "Download started..." "info")
                 (emit (Opened (EpDownload id)) w)).
Proof.
  unfold downloadDocument. rewrite run_sync_get_bind.
  destruct (isLoggedIn w); cbn [negb]; [|reflexivity].
  destruct (invalid_id id); reflexivity.
Qed.

(** X10: a confirmed delete sends one DELETE request.  When that fails the
    user is told "Delete failed" and nothing else happens: no refresh, the
    list as it was.  When it succeeds the user is told so and the rest is
    the refresh of [loadDocuments]: the list changes only by what the
    backend then answers. *)
Theorem delete_confirmed (id : jsval) (answer : fetch_result)
    (net : list fetch_result) (usr : list bool) (w : world) :
  isLoggedIn w = true ->
  invalid_id id = false ->
  run (deleteDocument id) (answer :: net) (true :: usr) w
  = if api_fails answer then
      Ran (Returned tt)
          (emit (Notify "Delete failed" "error")
             (emit (Sent (delete_request id w))
                (emit (Asked delete_prompt) w)))
          net usr
    else
      run loadDocuments net usr
          (emit (Notify "Document deleted successfully" "success")
             (emit (Sent (delete_request id w))
                (emit (Asked delete_prompt) w))).
Proof.
  intros Hlog Hid. unfold deleteDocument.
  rewrite run_get_bind, Hlog, Hid. cbn [negb].
  change (run (confirm delete_prompt ≫= ?k) (answer :: net) (true :: usr) w)
    with (run (k true) (answer :: net) usr (emit (Asked delete_prompt) w)).
  cbv beta. cbn [negb].
  rewrite run_try_catch, run_bind, run_await, run_makeAPICall. cbv zeta.
  cbn [outcome after net_rest usr_rest List.hd List.tl].
  destruct answer as [|r]; [reflexivity|].
  cbn [api_outcome api_fails]. destruct (res_ok r); cbn [negb orb].
  - destruct (res_json r) as [v|]; [|reflexivity].
    rewrite run_notify_bind, run_await.
    pose proof (run_loadDocuments_outcome net usr
                  (emit (Notify "Document deleted successfully" "success")
                     (emit (Sent (delete_request id w))
                        (emit (Asked delete_prompt) w)))) as Hout.
    unfold delete_request, api_headers in *. cbn [authToken emit] in *.
    by rewrite Hout.
  - destruct (res_text r); reflexivity.
Qed.

Lemma delete_confirmed_witness :
  let w := set_uploadedDocuments (VArr [VObj [("id", VNum 7)]])
             (logged_in (VStr "t") (VStr "admin") world0) in
  uploadedDocuments
    (after (run (deleteDocument (VNum 7))
              [failed 500 "Internal Server Error" "boom"] [true] w))
  = VArr [VObj [("id", VNum 7)]]
  /\ uploadedDocuments
       (after (run (deleteDocument (VNum 7))
                 [ok_json (VObj []); Rejected] [true] w))
     = VArr [VObj [("id", VNum 7)]].
Proof.
  intros w. split.
  - rewrite (delete_confirmed (VNum 7)
               (failed 500 "Internal Server Error" "boom") [] [] w eq_refl eq_refl).
    reflexivity.
  - rewrite (delete_confirmed (VNum 7) (ok_json (VObj [])) [Rejected] [] w
               eq_refl eq_refl).
    vm_compute. reflexivity.
Defined.

(** ** Questions, once more *)

Lemma run_addToChatHistory_bind {A} question (k : prog A) net usr w :
  run (addToChatHistory question;; k) net usr w
  = run k net usr
      (with_el "chatHistoryList"
         (set_children
            (List.map HistoryItem (unshift_capped question (chatHistory w))))
         (set_chatHistory (unshift_capped question (chatHistory w)) w)).
Proof. reflexivity. Qed.

Lemma valid_question el :
  3 <= String.length (trim (el_value el)) ->
  String.eqb (trim (el_value el)) "" = false
  /\ (String.length (trim (el_value el)) <? 3)%nat = false.
Proof.
  intros Hlong. split; [|by apply Nat.ltb_ge].
  apply String.eqb_neq. intros Hempty. rewrite Hempty in Hlong. cbn in Hlong. lia.
Qed.

(** The page once [handleQuestion] has recorded [question] and shown the
    overlay. *)
Lemma handleQuestion_asked net usr w el :
  getElementById "questionInput" w = Some el ->
  3 <= String.length (trim (el_value el)) ->
  run handleQuestion net usr w
  = run (try_finally
           (try_catch
              (response ← await (makeAPICall EpAsk "POST"
                                   (JsonBody (VObj [("question",
                                                     VStr (trim (el_value el)))])));
               displayResult (trim (el_value el)) response;;
               upd (with_el "questionInput" (set_value "")))
              (fun _ =>
                 showNotification
                   "Failed to process question. Please try again." "error"))
           hideProcessing)
        net usr
        (with_el "chatHistoryList"
           (set_children
              (List.map HistoryItem
                 (unshift_capped (trim (el_value el)) (chatHistory w))))
           (set_chatHistory
              (unshift_capped (trim (el_value el)) (chatHistory w))
              (with_el "processingOverlay" (set_hidden false "flex") w))).
Proof.
  intros Hel Hlong. destruct (valid_question el Hlong) as [Hne Hlen].
  unfold handleQuestion. rewrite run_get_bind, Hel. cbv zeta.
  rewrite Hne, Hlen. unfold showProcessing. rewrite run_upd_bind.
  by rewrite run_addToChatHistory_bind.
Qed.

Lemma run_handleQuestion_failure answer net usr w el :
  getElementById "questionInput" w = Some el ->
  3 <= String.length (trim (el_value el)) ->
  api_fails answer = true ->
  let question := trim (el_value el) in
  run handleQuestion (answer :: net) usr w
  = Ran (Returned tt)
        (with_el "processingOverlay" (set_hidden true "none")
           (emit (Notify "Failed to process question. Please try again." "error")
              (emit (Sent (ask_request question w))
                 (with_el "chatHistoryList"
                    (set_children
                       (List.map HistoryItem
                          (unshift_capped question (chatHistory w))))
                    (set_chatHistory (unshift_capped question (chatHistory w))
                       (with_el "processingOverlay" (set_hidden false "flex")
                          w))))))
        net usr.
Proof.
  intros Hel Hlong Hfail question.
  rewrite (handleQuestion_asked _ _ _ el Hel Hlong).
  rewrite run_try_finally, run_try_catch, run_bind, run_await, run_makeAPICall.
  cbv zeta. cbn [outcome after net_rest usr_rest List.hd List.tl].
  destruct (api_fails_outcome answer Hfail) as [e ->]. reflexivity.
Qed.

(** X11: a question is recorded in the chat history before the backend is
    asked.  When the one request fails the user is told so, the question
    stays in the history and in the input box, no result is added, and the
    overlay is hidden again. *)
Theorem question_failure_keeps_question (answer : fetch_result)
    (net : list fetch_result) (usr : list bool) (w : world) (el : element) :
  getElementById "questionInput" w = Some el ->
  3 <= String.length (trim (el_value el)) ->
  api_fails answer = true ->
  let question := trim (el_value el) in
  let r := run handleQuestion (answer :: net) usr w in
  outcome r = Returned tt
  /\ chatHistory (after r) = unshift_capped question (chatHistory w)
  /\ getElementById "questionInput" (after r) = Some el
  /\ getElementById "resultsContent" (after r) = getElementById "resultsContent" w
  /\ requests (log (after r)) = requests (log w) ++ [ask_request question w]
  /\ notices (log (after r))
     = notices (log w)
       ++ [("Failed to process question. Please try again.", "error")]
  /\ concealed "processingOverlay" (after r) = true.
Proof.
  intros Hel Hlong Hfail question r. subst r question.
  rewrite (run_handleQuestion_failure answer net usr w el Hel Hlong Hfail).
  cbn [outcome after]. split; [reflexivity|]. split; [reflexivity|].
  split; [by dom_lookup|]. split; [by dom_lookup|].
  split; [|split; [|apply concealed_hide]].
  - cbn [log emit with_el set_dom set_chatHistory].
    rewrite !requests_app. cbn. by rewrite app_nil_r.
  - cbn [log emit with_el set_dom set_chatHistory].
    rewrite !notices_app. cbn. by rewrite app_nil_r.
Qed.

Lemma question_failure_keeps_question_witness :
  let w := typed "questionInput" "  What is our PTO policy? " world0 in
  let r := run handleQuestion [Rejected] [] w in
  chatHistory (after r) = ["What is our PTO policy?"]
  /\ el_value <$> getElementById "questionInput" (after r)
     = Some "  What is our PTO policy? "
  /\ notices (log (after r))
     = [("Failed to process question. Please try again.", "error")].
Proof.
  intros w r.
  destruct (question_failure_keeps_question Rejected [] [] w
              (set_value "  What is our PTO policy? " blank))
    as (_ & Hhistory & Hinput & _ & _ & Hnotices & _).
  - reflexivity.
  - vm_compute. lia.
  - reflexivity.
  - split; [exact Hhistory|]. split; [|exact Hnotices].
    subst r. by rewrite Hinput.
Defined.

(** What [displayResult] does with an answer, the results section and its
    content being on the page. *)
Lemma run_displayResult question v net usr w resultsSection resultsContent :
  getElementById "resultsSection" w = Some resultsSection ->
  getElementById "resultsContent" w = Some resultsContent ->
  run (displayResult question v) net usr w
  = if renderable v then
      Ran (Returned tt)
          ((if (0 <? length (chatHistory w))%nat
            then with_el "chatHistory" remove_hidden else id)
             (with_el "resultsContent" (prepend_child (result_of question v))
                (with_el "resultsSection" remove_hidden w)))
          net usr
    else Ran (Thrown TypeError) (with_el "resultsSection" remove_hidden w) net usr.
Proof.
  intros Hsection Hcontent. unfold displayResult, renderable, result_of.
  rewrite run_get_bind, Hsection, Hcontent, run_upd_bind.
  destruct (is_nullish v) eqn:Hnull; cbn [negb andb].
  { by destruct v. }
  rewrite !(prop_opt_prop v) by exact Hnull.
  destruct (opt_prop v "sources") as [| | | | |sources|]; try reflexivity.
  destruct (forallb _ sources); [|reflexivity].
  rewrite run_upd_bind. by destruct (0 <? length (chatHistory w))%nat.
Qed.




(** X13: an ok answer that cannot be rendered, [null] or one whose [sources]
    is not an array, is reported like a failed request: the user is told that
    the question could not be processed, no result is added, and the input
    box keeps the question; the results section has been unhidden all the
    same. *)
Theorem malformed_answer_reported_as_failure (resp : response) (v : jsval)
    (net : list fetch_result) (usr : list bool) (w : world)
    (el resultsSection resultsContent : element) :
  getElementById "questionInput" w = Some el ->
  getElementById "resultsSection" w = Some resultsSection ->
  getElementById "resultsContent" w = Some resultsContent ->
  3 <= String.length (trim (el_value el)) ->
  res_ok resp = true -> res_json resp = Some v -> renderable v = false ->
  let r := run handleQuestion (Settled resp :: net) usr w in
  outcome r = Returned tt
  /\ notices (log (after r))
     = notices (log w)
       ++ [("Failed to process question. Please try again.", "error")]
  /\ getElementById "resultsContent" (after r) = Some resultsContent
  /\ getElementById "questionInput" (after r) = Some el
  /\ el_hidden <$> getElementById "resultsSection" (after r) = Some false
  /\ concealed "processingOverlay" (after r) = true.
Proof.
  intros Hel Hsection Hcontent Hlong Hok Hjson Hrender r. subst r.
  rewrite (handleQuestion_asked _ _ _ el Hel Hlong).
  rewrite run_try_finally, run_try_catch, run_bind, run_await, run_makeAPICall.
  cbv zeta. cbn [outcome after net_rest usr_rest List.hd List.tl api_outcome].
  rewrite Hok, Hjson. cbn [negb]. rewrite run_bind.
  erewrite run_displayResult; [|by dom_lookup|by dom_lookup].
  rewrite Hrender. cbv zeta.
  cbn [outcome after net_rest usr_rest]. rewrite run_notify.
  cbn [upd run outcome after net_rest usr_rest hideProcessing].
  split; [reflexivity|]. split; [|split; [|split; [|split]]].
  - cbn [log emit with_el set_dom set_chatHistory].
    rewrite !notices_app. cbn. by rewrite app_nil_r.
  - by dom_lookup.
  - by dom_lookup.
  - dom_lookup. by rewrite Hsection.
  - apply concealed_hide.
Qed.

Lemma malformed_answer_reported_as_failure_witness :
  let v := VObj [("answer", VStr "Twenty days a year.")] in
  let w := typed "questionInput" "What is our PTO policy?" world0 in
  notices (log (after (run handleQuestion [ok_json v] [] w)))
  = [("Failed to process question. Please try again.", "error")].
Proof.
  intros v w.
  refine (proj1 (proj2 (malformed_answer_reported_as_failure
                          (Response true 200 "OK" None (Some v)) v [] [] w
                          (set_value "What is our PTO policy?" blank)
                          blank blank _ _ _ _ _ _ _))); try reflexivity.
  vm_compute. lia.
Defined.

(** ** Logout, once more *)

(** X14: a logout is synchronous and sends nothing; it shows one notice and
    swaps the two buttons of the header.  It leaves the chat history, the
    results and what [renderDocuments] last put on the page as they were:
    only the document list in memory is emptied. *)
Theorem logout_keeps_history (net : list fetch_result) (usr : list bool)
    (w : world) :
  let r := run handleLogout net usr w in
  net_rest r = net
  /\ log (after r) = log w ++ [Notify "Logged out successfully" "success"]
  /\ chatHistory (after r) = chatHistory w
  /\ displayed "adminLoginBtn" "inline-flex" (after r) = true
  /\ concealed "logoutBtn" (after r) = true
  /\ forall id,
      ~ In id ["mainView"; "adminPanel"; "adminLoginBtn"; "logoutBtn"] ->
      getElementById id (after r) = getElementById id w.
Proof.
  cbn. repeat split.
  - unfold displayed. dom_lookup.
    by destruct (getElementById "adminLoginBtn" w).
  - unfold concealed. dom_lookup. by destruct (getElementById "logoutBtn" w).
  - intros id Hid. dom_lookup.
    rewrite !getElementById_with_el_ne; [reflexivity|..]; intros <-; apply Hid;
      cbn; tauto.
Qed.

Lemma scripted_is_reachable script :
  Loop.reachable Loop.any_answer (scripted script).
Proof.
  unfold scripted. apply scripted_reachable; [by constructor|apply within_all_any].
Qed.

(** X15: in every state that the event loop reaches, a session that is not
    logged in holds neither a token nor a user. *)
Theorem logged_out_holds_nothing (s : Loop.state) :
  Loop.reachable Loop.any_answer s ->
  isLoggedIn (Loop.page s) = false ->
  authToken (Loop.page s) = VNull /\ currentUser (Loop.page s) = VNull.
Proof.
  intros Hs.
  apply (reachable_inv Loop.any_answer
           (fun w => isLoggedIn w = false ->
                     authToken w = VNull /\ currentUser w = VNull));
    try exact Hs; try (intros; cbn in *; auto; congruence).
  intros w (_ & Huser & Htoken & _) _. by split.
Qed.

Lemma logged_out_holds_nothing_witness :
  authToken (Loop.page (scripted in_and_out)) = VNull
  /\ currentUser (Loop.page (scripted in_and_out)) = VNull.
Proof.
  apply (logged_out_holds_nothing (scripted in_and_out)).
  - apply scripted_is_reachable.
  - vm_compute. reflexivity.
Defined.

(** X16: the emptying of the document list by a logout does not last when a
    refresh is under way: the answer that comes in after the logout is
    stored all the same, so the event loop reaches states in which nobody
    is logged in, no token is held, and the controller holds documents. *)
Theorem stale_list_after_logout :
  exists s doc docs,
    Loop.reachable Loop.any_answer s
    /\ isLoggedIn (Loop.page s) = false
    /\ authToken (Loop.page s) = VNull
    /\ uploadedDocuments (Loop.page s) = VArr (doc :: docs).
Proof.
  pose (documents := VArr [VObj [("id", VNum 7); ("filename", VStr "pay.pdf")]]).
  exists (scripted (logout_during_refresh documents)).
  exists (VObj [("id", VNum 7); ("filename", VStr "pay.pdf")]), [].
  split; [apply scripted_is_reachable|].
  split; [vm_compute; reflexivity|]. split; vm_compute; reflexivity.
Qed.

(** ** What a refresh leaves alone *)

Section DocumentsFrame.

Variable I : world -> Prop.

(** [I] does not look at the three elements of the document list, nor at
    the list itself, nor at the log. *)
Hypothesis I_list : forall f w, I w -> I (with_el "documentsList" f w).
Hypothesis I_total : forall f w, I w -> I (with_el "totalDocs" f w).
Hypothesis I_size : forall f w, I w -> I (with_el "totalSize" f w).
Hypothesis I_docs : forall v w, I w -> I (set_uploadedDocuments v w).
Hypothesis I_emit : forall e w, I w -> I (emit e w).

Ltac side :=
  intros;
  first [ apply I_list | apply I_total | apply I_size | apply I_docs
        | apply I_emit ];
  assumption.

Ltac keep := repeat (keep_step side); eauto.

Lemma frame_updateDocumentStats : keeps Loop.any_answer I updateDocumentStats.
Proof. unfold updateDocumentStats. keep. Qed.

Lemma frame_renderDocuments : keeps Loop.any_answer I renderDocuments.
Proof.
  pose proof frame_updateDocumentStats. unfold renderDocuments. keep.
Qed.

Lemma frame_loadDocuments : keeps Loop.any_answer I loadDocuments.
Proof.
  pose proof frame_renderDocuments.
  pose proof (keeps_makeAPICall Loop.any_answer I I_emit).
  pose proof (keeps_showNotification Loop.any_answer I I_emit).
  unfold loadDocuments. keep.
Qed.

End DocumentsFrame.

Lemma loadDocuments_elsewhere id net usr w :
  ~ In id ["documentsList"; "totalDocs"; "totalSize"] ->
  getElementById id (after (run loadDocuments net usr w)) = getElementById id w.
Proof.
  intros Hid.
  apply (run_keeps (fun w' => getElementById id w' = getElementById id w)
           loadDocuments net usr w); [|reflexivity].
  apply frame_loadDocuments; try (intros; assumption);
    intros f w' Hw'; rewrite getElementById_with_el_ne; try exact Hw';
    intros <-; apply Hid; cbn; tauto.
Qed.

Lemma renderDocuments_touches id net usr w :
  ~ In id ["documentsList"; "totalDocs"; "totalSize"] ->
  getElementById id (after (run renderDocuments net usr w)) = getElementById id w.
Proof.
  intros Hid.
  apply (run_keeps (fun w' => getElementById id w' = getElementById id w)
           renderDocuments net usr w); [|reflexivity].
  apply frame_renderDocuments; try (intros; assumption);
    intros f w' Hw'; rewrite getElementById_with_el_ne; try exact Hw';
    intros <-; apply Hid; cbn; tauto.
Qed.

Lemma loadDocuments_session net usr w :
  let w' := after (run loadDocuments net usr w) in
  isLoggedIn w' = isLoggedIn w /\ authToken w' = authToken w
  /\ currentUser w' = currentUser w /\ chatHistory w' = chatHistory w.
Proof.
  apply (run_keeps
           (fun w' => isLoggedIn w' = isLoggedIn w /\ authToken w' = authToken w
                      /\ currentUser w' = currentUser w
                      /\ chatHistory w' = chatHistory w)
           loadDocuments net usr w); [|by repeat split].
  apply frame_loadDocuments; intros; assumption.
Qed.

Lemma loadDocuments_log net usr w :
  let w' := after (run loadDocuments net usr w) in
  navigations (log w') = navigations (log w)
  /\ exists added,
      notices (log w') = notices (log w) ++ added
      /\ Forall (fun n => n = ("Failed to load documents", "error")) added.
Proof.
  intros w'. subst w'.
  unfold loadDocuments. rewrite run_get_bind.
  destruct (isLoggedIn w); cbn [negb].
  2: { split; [reflexivity|]. exists []. by rewrite app_nil_r. }
  rewrite run_try_catch, run_bind, run_await, run_makeAPICall. cbv zeta.
  cbn [outcome after net_rest usr_rest].
  assert (forall w0 : world,
             log w0 = log w ++ [Sent (documents_request w)] ->
             navigations (log w0) = navigations (log w)
             /\ notices (log w0) = notices (log w)) as Hsent.
  { intros w0 ->. unfold navigations, notices. rewrite !flat_map_app. cbn.
    by rewrite !app_nil_r. }
  assert (forall w0 : world,
             log w0 = log w ++ [Sent (documents_request w)] ->
             navigations (log (emit (Notify "Failed to load documents" "error") w0))
             = navigations (log w)
             /\ exists added,
                 notices (log (emit (Notify "Failed to load documents" "error") w0))
                 = notices (log w) ++ added
                 /\ Forall (fun n => n = ("Failed to load documents", "error"))
                           added) as Hfailed.
  { intros w0 Hw0. destruct (Hsent w0 Hw0) as [Hnav Hnot]. cbn [log emit].
    unfold navigations, notices in *. rewrite !flat_map_app, Hnav, Hnot. cbn.
    rewrite app_nil_r. split; [reflexivity|]. eexists. split; [reflexivity|].
    by repeat constructor. }
  assert (forall w0 : world,
             log w0 = log w ++ [Sent (documents_request w)] ->
             navigations (log w0) = navigations (log w)
             /\ exists added,
                 notices (log w0) = notices (log w) ++ added
                 /\ Forall (fun n => n = ("Failed to load documents", "error"))
                           added) as Hquiet.
  { intros w0 Hw0. destruct (Hsent w0 Hw0) as [Hnav Hnot].
    split; [exact Hnav|]. exists []. by rewrite app_nil_r. }
  destruct (api_outcome (List.hd Rejected net)) as [v|e];
    [|rewrite run_notify; by apply Hfailed].
  destruct (prop v "documents") as [documents|];
    [|rewrite run_notify; by apply Hfailed].
  destruct (truthy documents); [|by apply Hquiet].
  rewrite run_upd_bind.
  pose proof (renderDocuments_same_fields (List.tl net) usr
                (set_uploadedDocuments documents
                   (emit (Sent (documents_request w)) w)))
    as (_ & _ & _ & _ & _ & Hlog).
  destruct (run renderDocuments _ _ _) as [[[]|e] w0 net0 usr0];
    cbn [outcome after net_rest usr_rest] in *.
  - by apply Hquiet.
  - rewrite run_notify. by apply Hfailed.
Qed.

Lemma loadDocuments_touches_notices net usr w :
  exists added,
    notices (log (after (run loadDocuments net usr w)))
    = notices (log w) ++ added
    /\ Forall (fun n => n = ("Failed to load documents", "error")) added.
Proof. exact (proj2 (loadDocuments_log net usr w)). Qed.

(** X17: whatever the backend answers, a refresh leaves alone the session,
    the chat history and all of the page but the document list and its two
    totals; the only thing it can tell the user is that it failed. *)
Theorem loadDocuments_touches (net : list fetch_result) (usr : list bool)
    (w : world) :
  let w' := after (run loadDocuments net usr w) in
  (forall id, ~ In id ["documentsList"; "totalDocs"; "totalSize"] ->
              getElementById id w' = getElementById id w)
  /\ isLoggedIn w' = isLoggedIn w /\ authToken w' = authToken w
  /\ currentUser w' = currentUser w /\ chatHistory w' = chatHistory w
  /\ navigations (log w') = navigations (log w)
  /\ exists added,
      notices (log w') = notices (log w) ++ added
      /\ Forall (fun n => n = ("Failed to load documents", "error")) added.
Proof.
  intros w'. split; [intros id Hid; by apply loadDocuments_elsewhere|].
  destruct (loadDocuments_session net usr w) as (H1 & H2 & H3 & H4).
  do 4 (split; [assumption|]). exact (loadDocuments_log net usr w).
Qed.

(** ** Upload, once more *)

(** X18: with nobody's team or project chosen, or no file picked, a
    logged-in user's upload is turned down on the spot, with one notice and
    no request; the choice of team and project is checked before the files,
    and neither is trimmed. *)
Theorem incomplete_upload_rejected (usr : list bool) (w : world)
    (teamSelect projectSelect fileInput : element) :
  isLoggedIn w = true ->
  getElementById "teamSelect" w = Some teamSelect ->
  getElementById "projectSelect" w = Some projectSelect ->
  getElementById "fileInput" w = Some fileInput ->
  el_value teamSelect = EmptyString \/ el_value projectSelect = EmptyString
  \/ el_files fileInput = [] ->
  run_sync handleFileUpload usr w
  = Some (Returned tt,
          emit (Notify
                  (if String.eqb (el_value teamSelect) ""
                      || String.eqb (el_value projectSelect) ""
                   then "Please select both team and project"
                   else "Please select files to upload") "error") w).
Proof.
  intros Hlog Hteam Hproject Hinput Hmissing. unfold handleFileUpload.
  rewrite run_sync_get_bind, Hlog, Hteam, Hproject, Hinput. cbn [negb]. cbv zeta.
  destruct (String.eqb (el_value teamSelect) ""
            || String.eqb (el_value projectSelect) "") eqn:Hchosen;
    [reflexivity|].
  apply orb_false_elim in Hchosen as [Ht Hp].
  apply String.eqb_neq in Ht, Hp.
  destruct Hmissing as [H|[H|H]]; [done|done|]. by rewrite H.
Qed.

Lemma incomplete_upload_rejected_witness :
  let w := typed "teamSelect" "Engineering"
             (logged_in (VStr "t") (VStr "admin") world0) in
  run_sync handleFileUpload [] w
  = Some (Returned tt,
          emit (Notify "Please select both team and project" "error") w).
Proof.
  intros w.
  apply (incomplete_upload_rejected [] w (set_value "Engineering" blank)
           blank blank); try reflexivity.
  right. left. reflexivity.
Defined.

Lemma run_fetch_bind {A} r (k : fetch_result -> prog A) net usr w :
  run (fetch r ≫= k) net usr w
  = run (k (List.hd Rejected net)) (List.tl net) usr (emit (Sent r) w).
Proof. reflexivity. Qed.

Lemma run_throw {A} e net usr w : run (@Throw A e) net usr w = Ran (Thrown e) w net usr.
Proof. reflexivity. Qed.

Lemma run_settle_bind {A B} (body : option A) (k : A -> prog B) net usr w :
  run (settle body ≫= k) net usr w
  = match body with
    | Some a => run (k a) net usr w
    | None => Ran (Thrown BodyRejected) w net usr
    end.
Proof. by destruct body. Qed.

Lemma run_resetUploadForm_outcome net usr w :
  outcome (run resetUploadForm net usr w) = Returned tt.
Proof. reflexivity. Qed.

Lemma run_uploadFiles team project files answer net usr w :
  let sent :=
    emit (Sent (upload_request team project files w))
         (with_el "uploadProgressModal" (set_hidden false "flex") w) in
  run (uploadFiles team project files) (answer :: net) usr w
  = if api_fails answer then
      Ran (Thrown match answer with
                  | Rejected => FetchRejected
                  | Settled resp =>
                      if res_ok resp then BodyRejected
                      else UploadFailed (res_statusText resp)
                  end)
          (with_el "uploadProgressModal" (set_hidden true "none") sent) net usr
    else
      let r := run loadDocuments net usr
                 (emit (Notify "Files uploaded successfully!" "success")
                    (with_el "uploadProgressModal" (set_hidden true "none")
                       sent)) in
      run resetUploadForm (net_rest r) (usr_rest r) (after r).
Proof.
  intros sent. subst sent. unfold uploadFiles, showUploadProgressModal.
  rewrite run_upd_bind, run_try_catch. cbv zeta.
  rewrite run_get_bind, run_fetch_bind. cbn [List.hd List.tl].
  destruct answer as [|resp]; [reflexivity|]. cbn [api_fails].
  destruct (res_ok resp); cbn [negb orb]; [|reflexivity].
  rewrite run_settle_bind.
  destruct (res_json resp) as [v|]; [|reflexivity].
  unfold hideUploadProgressModal. rewrite run_upd_bind, run_notify_bind.
  rewrite run_bind, (run_await (A:=unit)). cbv zeta.
  rewrite run_loadDocuments_outcome.
  unfold upload_request. cbn [authToken with_el set_dom].
  by rewrite run_resetUploadForm_outcome.
Qed.

(** What an upload comes to once it is past its checks. *)
Lemma run_handleFileUpload answer net usr w teamSelect projectSelect fileInput :
  isLoggedIn w = true ->
  getElementById "teamSelect" w = Some teamSelect ->
  getElementById "projectSelect" w = Some projectSelect ->
  getElementById "fileInput" w = Some fileInput ->
  el_value teamSelect <> EmptyString ->
  el_value projectSelect <> EmptyString ->
  el_files fileInput <> [] ->
  let sent :=
    emit (Sent (upload_request (el_value teamSelect) (el_value projectSelect)
                  (el_files fileInput) w))
         (with_el "uploadProgressModal" (set_hidden false "flex") w) in
  run handleFileUpload (answer :: net) usr w
  = if api_fails answer then
      Ran (Returned tt)
          (emit (Notify "Upload failed. Please try again." "error")
             (with_el "uploadProgressModal" (set_hidden true "none") sent))
          net usr
    else
      let r := run loadDocuments net usr
                 (emit (Notify "Files uploaded successfully!" "success")
                    (with_el "uploadProgressModal" (set_hidden true "none")
                       sent)) in
      run resetUploadForm (net_rest r) (usr_rest r) (after r).
Proof.
  intros Hlog Hteam Hproject Hinput Ht Hp Hfiles sent. subst sent.
  unfold handleFileUpload.
  rewrite run_get_bind, Hlog, Hteam, Hproject, Hinput. cbn [negb]. cbv zeta.
  apply String.eqb_neq in Ht, Hp. rewrite Ht, Hp. cbn [orb].
  destruct (el_files fileInput) as [|f files] eqn:Hfs; [done|].
  cbn [length Nat.eqb]. rewrite run_try_catch. cbv zeta.
  rewrite (run_await (A:=unit)), run_uploadFiles. cbv zeta.
  destruct (api_fails answer); [reflexivity|].
  by rewrite run_resetUploadForm_outcome.
Qed.

(** X19: when the upload request fails, the progress modal is hidden again
    and the user is told "Upload failed. Please try again."; nothing else
    happens: no refresh, the document list and the form as they were. *)
Theorem upload_failure_keeps_form (answer : fetch_result)
    (net : list fetch_result) (usr : list bool) (w : world)
    (teamSelect projectSelect fileInput : element) :
  isLoggedIn w = true ->
  getElementById "teamSelect" w = Some teamSelect ->
  getElementById "projectSelect" w = Some projectSelect ->
  getElementById "fileInput" w = Some fileInput ->
  el_value teamSelect <> EmptyString ->
  el_value projectSelect <> EmptyString ->
  el_files fileInput <> [] ->
  api_fails answer = true ->
  let r := run handleFileUpload (answer :: net) usr w in
  outcome r = Returned tt
  /\ net_rest r = net
  /\ requests (log (after r))
     = requests (log w)
       ++ [upload_request (el_value teamSelect) (el_value projectSelect)
             (el_files fileInput) w]
  /\ notices (log (after r))
     = notices (log w) ++ [("Upload failed. Please try again.", "error")]
  /\ uploadedDocuments (after r) = uploadedDocuments w
  /\ concealed "uploadProgressModal" (after r) = true
  /\ forall id, id <> "uploadProgressModal" ->
                getElementById id (after r) = getElementById id w.
Proof.
  intros Hlog Hteam Hproject Hinput Ht Hp Hfiles Hfail r. subst r.
  rewrite (run_handleFileUpload answer net usr w teamSelect projectSelect
             fileInput Hlog Hteam Hproject Hinput Ht Hp Hfiles).
  cbv zeta. rewrite Hfail. cbn [outcome after net_rest].
  do 2 (split; [reflexivity|]). split; [|split; [|split; [reflexivity|split]]].
  - cbn [log emit with_el set_dom]. rewrite !requests_app. cbn.
    by rewrite app_nil_r.
  - cbn [log emit with_el set_dom]. rewrite !notices_app. cbn.
    by rewrite app_nil_r.
  - unfold concealed. dom_lookup.
    by destruct (getElementById "uploadProgressModal" w).
  - intros id Hid. dom_lookup. by rewrite ?getElementById_with_el_ne.
Qed.

Lemma upload_failure_keeps_form_witness :
  let r := run handleFileUpload [failed 413 "Payload Too Large" "too big"] []
             upload_ready in
  notices (log (after r)) = [("Upload failed. Please try again.", "error")]
  /\ el_files <$> getElementById "fileInput" (after r) = Some picked
  /\ el_value <$> getElementById "teamSelect" (after r) = Some "Engineering".
Proof.
  intros r.
  destruct (upload_failure_keeps_form
              (failed 413 "Payload Too Large" "too big") [] [] upload_ready
              (set_value "Engineering" blank) (set_value "Cloud Team" blank)
              (set_files picked blank))
    as (_ & _ & _ & Hnotices & _ & _ & Hform);
    [reflexivity|reflexivity|reflexivity|reflexivity|done|done|done
    |reflexivity|].
  split; [exact Hnotices|]. subst r. by rewrite !Hform.
Defined.

Lemma after_resetUploadForm net usr w uploadForm :
  getElementById "uploadForm" w = Some uploadForm ->
  after (run resetUploadForm net usr w)
  = with_el "projectSelect"
      (fun e => set_value "" (set_children [OptionItem "" "Select Project"] e))
      (with_el "teamSelect" (set_value "")
         (with_el "fileList" (set_children [])
            (with_el "teamSelect" (fun e => set_files [] (set_value "" e))
               (with_el "projectSelect" (fun e => set_files [] (set_value "" e))
                  (with_el "fileInput" (fun e => set_files [] (set_value "" e))
                     w))))).
Proof.
  intros Hform. cbn. unfold form_reset. by rewrite Hform.
Qed.

(** X20: when the upload request succeeds, the progress modal is hidden, the
    user is told so, the list is refreshed, and then the form is emptied:
    no team, no project, no files, nothing in the list of picked files. *)
Theorem upload_success_empties_form (answer : fetch_result)
    (net : list fetch_result) (usr : list bool) (w : world)
    (teamSelect projectSelect fileInput uploadForm fileList : element) :
  isLoggedIn w = true ->
  getElementById "teamSelect" w = Some teamSelect ->
  getElementById "projectSelect" w = Some projectSelect ->
  getElementById "fileInput" w = Some fileInput ->
  getElementById "uploadForm" w = Some uploadForm ->
  getElementById "fileList" w = Some fileList ->
  el_value teamSelect <> EmptyString ->
  el_value projectSelect <> EmptyString ->
  el_files fileInput <> [] ->
  api_fails answer = false ->
  let r := run handleFileUpload (answer :: net) usr w in
  outcome r = Returned tt
  /\ concealed "uploadProgressModal" (after r) = true
  /\ el_value <$> getElementById "teamSelect" (after r) = Some EmptyString
  /\ el_value <$> getElementById "projectSelect" (after r) = Some EmptyString
  /\ el_children <$> getElementById "projectSelect" (after r)
     = Some [OptionItem "" "Select Project"]
  /\ el_files <$> getElementById "fileInput" (after r) = Some []
  /\ el_children <$> getElementById "fileList" (after r) = Some []
  /\ In ("Files uploaded successfully!", "success") (notices (log (after r))).
Proof.
  intros Hlog Hteam Hproject Hinput Hform Hlist Ht Hp Hfiles Hok r. subst r.
  rewrite (run_handleFileUpload answer net usr w teamSelect projectSelect
             fileInput Hlog Hteam Hproject Hinput Ht Hp Hfiles).
  cbv zeta. rewrite Hok.
  set (w2 := emit (Notify "Files uploaded successfully!" "success") _).
  set (rl := run loadDocuments net usr w2).
  assert (forall id, ~ In id ["documentsList"; "totalDocs"; "totalSize"] ->
                     getElementById id (after rl) = getElementById id w2)
    as Helse by (intros id Hid; by apply loadDocuments_elsewhere).
  split; [apply run_resetUploadForm_outcome|].
  rewrite (after_resetUploadForm _ _ (after rl) uploadForm).
  2: { rewrite Helse by (cbn; intros [H|[H|[H|[]]]]; discriminate H).
       subst w2. by dom_lookup. }
  assert (forall id el, ~ In id ["documentsList"; "totalDocs"; "totalSize"] ->
                        id <> "uploadProgressModal" ->
                        getElementById id w = Some el ->
                        getElementById id (after rl) = Some el) as Hkept.
  { intros id el Hid Hne Hel. rewrite (Helse id Hid). subst w2. dom_lookup.
    by rewrite ?getElementById_with_el_ne. }
  split; [|split; [|split; [|split; [|split; [|split]]]]].
  - unfold concealed. dom_lookup. rewrite Helse
      by (cbn; intros [H|[H|[H|[]]]]; discriminate H).
    subst w2. dom_lookup. by destruct (getElementById "uploadProgressModal" w).
  - dom_lookup. rewrite (Hkept "teamSelect" teamSelect); try done.
    cbn; intros [H|[H|[H|[]]]]; discriminate H.
  - dom_lookup. rewrite (Hkept "projectSelect" projectSelect); try done.
    cbn; intros [H|[H|[H|[]]]]; discriminate H.
  - dom_lookup. rewrite (Hkept "projectSelect" projectSelect); try done.
    cbn; intros [H|[H|[H|[]]]]; discriminate H.
  - dom_lookup. rewrite (Hkept "fileInput" fileInput); try done.
    cbn; intros [H|[H|[H|[]]]]; discriminate H.
  - dom_lookup. rewrite (Hkept "fileList" fileList); try done.
    cbn; intros [H|[H|[H|[]]]]; discriminate H.
  - unfold with_el at 1 2 3 4 5 6. cbn [log set_dom]. subst rl.
    destruct (loadDocuments_touches_notices net usr w2) as (added & -> & _).
    subst w2. cbn [log emit]. rewrite notices_app. cbn.
    apply in_or_app. left. apply in_or_app. right. cbn. tauto.
Qed.

Lemma upload_success_empties_form_witness :
  let r := run handleFileUpload [ok_json (VObj [("uploaded", VNum 2)])] []
             upload_ready in
  outcome r = Returned tt
  /\ el_files <$> getElementById "fileInput" (after r) = Some []
  /\ In ("Files uploaded successfully!", "success") (notices (log (after r))).
Proof.
  intros r.
  destruct (upload_success_empties_form
              (ok_json (VObj [("uploaded", VNum 2)])) [] [] upload_ready
              (set_value "Engineering" blank) (set_value "Cloud Team" blank)
              (set_files picked blank) blank blank)
    as (Hout & _ & _ & _ & _ & Hfiles & _ & Htold);
    [reflexivity|reflexivity|reflexivity|reflexivity|reflexivity|reflexivity
    |done|done|done|reflexivity|].
  exact (conj Hout (conj Hfiles Htold)).
Defined.

(** ** Login, when it works *)

Lemma run_hideLoginModal net usr w :
  run hideLoginModal net usr w
  = Ran (Returned tt)
        (form_reset "loginForm" ["username"; "password"]
           (with_el "loginModal" (set_hidden true "none") w)) net usr.
Proof. reflexivity. Qed.

Lemma isLoggedIn_form_reset form fields w :
  isLoggedIn (form_reset form fields w) = isLoggedIn w.
Proof. by destruct (form_reset_dom form fields w) as [d ->]. Qed.

(** The page on which an accepted login draws the document list. *)
Lemma run_showAdminPanel net usr w :
  isLoggedIn w = true ->
  run showAdminPanel net usr w
  = run renderDocuments net usr
      (with_el "logoutBtn" (set_hidden false "inline-flex")
         (with_el "adminLoginBtn" (set_hidden true "none")
            (with_el "adminPanel" (set_hidden false "block")
               (with_el "mainView" (set_hidden true "none") w)))).
Proof.
  intros Hlog. unfold showAdminPanel. rewrite !run_upd_bind.
  unfold updateAuthButtons. rewrite run_bind, run_get_bind.
  cbn [isLoggedIn with_el set_dom]. rewrite Hlog. cbv zeta.
  rewrite run_upd_bind. cbn [upd run outcome after net_rest usr_rest].
  reflexivity.
Qed.

Lemma renderDocuments_outcome net usr w :
  outcome (run renderDocuments net usr w)
  = match getElementById "documentsList" w with
    | Some _ =>
        if well_listed (uploadedDocuments w) then Returned tt
        else Thrown TypeError
    | None => Returned tt
    end.
Proof.
  unfold renderDocuments. rewrite run_get_bind.
  destruct (getElementById "documentsList" w) as [documentsList|] eqn:Hlist;
    [|reflexivity].
  rewrite run_upd_bind.
  destruct (uploadedDocuments w) as [| | | | |docs|] eqn:Hup; try reflexivity.
  rewrite run_bind. cbv zeta.
  destruct (forEach_render docs net usr
              (with_el "documentsList" (set_children []) w) [])
    as (Hother & Hsame & Hres).
  { by rewrite getElementById_with_el, Hlist. }
  cbn [well_listed]. destruct (forallb _ docs); [|by rewrite Hres].
  destruct Hres as [Hout Hitems]. rewrite Hout.
  unfold updateDocumentStats. rewrite run_get_bind.
  destruct Hsame as (H1 & H2 & H3 & H4 & H5 & H6). rewrite H5.
  cbn [uploadedDocuments with_el set_dom]. rewrite Hup.
  match goal with
  | |- context [getElementById "totalDocs" ?w1] =>
      by destruct (getElementById "totalDocs" w1),
                  (getElementById "totalSize" w1)
  end.
Qed.


(** What a login comes to once the backend has answered with a token. *)
Lemma run_handleLogin_accepted answer net usr w usernameEl passwordEl v :
  getElementById "username" w = Some usernameEl ->
  getElementById "password" w = Some passwordEl ->
  trim (el_value usernameEl) <> EmptyString ->
  trim (el_value passwordEl) <> EmptyString ->
  api_outcome answer = Returned v ->
  truthy (opt_prop v "access_token") = true ->
  let w3 :=
    with_el "logoutBtn" (set_hidden false "inline-flex")
      (with_el "adminLoginBtn" (set_hidden true "none")
         (with_el "adminPanel" (set_hidden false "block")
            (with_el "mainView" (set_hidden true "none")
               (form_reset "loginForm" ["username"; "password"]
                  (with_el "loginModal" (set_hidden true "none")
                     (set_isLoggedIn true
                        (set_currentUser (opt_prop v "user")
                           (set_authToken (opt_prop v "access_token")
                              (emit (Sent (login_request
                                             (trim (el_value usernameEl))
                                             (trim (el_value passwordEl)) w))
                                 (emit (Notify "Logging in..." "info")
                                    w)))))))))) in
  let drawn := run renderDocuments net usr w3 in
  run handleLogin (answer :: net) usr w
  = match outcome drawn with
    | Returned _ =>
        run loadDocuments (net_rest drawn) (usr_rest drawn)
          (emit (Notify "Login successful! Welcome to admin panel." "success")
             (after drawn))
    | Thrown _ =>
        Ran (Returned tt)
            (emit (Notify "Login failed. Please check your credentials." "error")
               (after drawn))
            (net_rest drawn) (usr_rest drawn)
    end.
Proof.
  intros Hu Hp Hun Hpw Hanswer Htoken w3 drawn. unfold handleLogin.
  rewrite run_get_bind, Hu, Hp. cbv zeta.
  apply String.eqb_neq in Hun, Hpw. rewrite Hun, Hpw. cbn [orb].
  rewrite run_try_catch. cbv zeta.
  rewrite run_notify_bind.
  rewrite run_bind, run_await, run_makeAPICall. cbv zeta.
  cbn [outcome after net_rest usr_rest List.hd List.tl].
  rewrite Hanswer, Htoken.
  rewrite !run_upd_bind.
  rewrite (run_bind hideLoginModal), run_hideLoginModal. cbv zeta.
  cbn [outcome after net_rest usr_rest].
  rewrite (run_bind showAdminPanel), run_showAdminPanel
    by by rewrite isLoggedIn_form_reset.
  cbv zeta. change (run renderDocuments net usr _) with drawn.
  clearbody drawn. destruct drawn as [[[]|e] w4 net4 usr4];
    cbn [outcome after net_rest usr_rest]; [|reflexivity].
  rewrite run_notify_bind, run_await.
  by rewrite run_loadDocuments_outcome.
Qed.

Lemma getElementById_form_reset_ne id form fields w :
  ~ In id fields ->
  getElementById id (form_reset form fields w) = getElementById id w.
Proof.
  intros Hid. unfold form_reset. destruct (getElementById form w); [|done].
  induction fields as [|field fields IH]; [done|]. cbn [fold_right].
  rewrite getElementById_with_el_ne.
  - apply IH. intros H. apply Hid. by right.
  - intros ->. apply Hid. by left.
Qed.

(** X21: once the backend has answered a login with a body that holds a
    token, the token and the user of that body are the session's, the login
    modal and the main view are hidden, the admin panel and the logout
    button are shown, and the login form, when the page has one, is emptied:
    all this whatever happens afterwards to the document list. *)
Theorem login_success_opens_admin_panel (answer : fetch_result)
    (net : list fetch_result) (usr : list bool) (w : world)
    (usernameEl passwordEl : element) (v : jsval) :
  getElementById "username" w = Some usernameEl ->
  getElementById "password" w = Some passwordEl ->
  trim (el_value usernameEl) <> EmptyString ->
  trim (el_value passwordEl) <> EmptyString ->
  api_outcome answer = Returned v ->
  truthy (opt_prop v "access_token") = true ->
  let r := run handleLogin (answer :: net) usr w in
  outcome r = Returned tt
  /\ isLoggedIn (after r) = true
  /\ authToken (after r) = opt_prop v "access_token"
  /\ currentUser (after r) = opt_prop v "user"
  /\ concealed "loginModal" (after r) = true
  /\ concealed "mainView" (after r) = true
  /\ displayed "adminPanel" "block" (after r) = true
  /\ concealed "adminLoginBtn" (after r) = true
  /\ displayed "logoutBtn" "inline-flex" (after r) = true
  /\ (is_Some (getElementById "loginForm" w) ->
      el_value <$> getElementById "username" (after r) = Some EmptyString
      /\ el_value <$> getElementById "password" (after r) = Some EmptyString).
Proof.
  intros Hu Hp Hun Hpw Hanswer Htoken r. subst r.
  rewrite (run_handleLogin_accepted answer net usr w usernameEl passwordEl v
             Hu Hp Hun Hpw Hanswer Htoken). cbv zeta.
  set (w0 := set_isLoggedIn true _).
  set (w3 := with_el "logoutBtn" _ _).
  set (drawn := run renderDocuments net usr w3).
  set (r := match outcome drawn with Returned _ => _ | Thrown _ => _ end).
  assert (outcome r = Returned tt
          /\ isLoggedIn (after r) = isLoggedIn w3
          /\ authToken (after r) = authToken w3
          /\ currentUser (after r) = currentUser w3
          /\ forall id, ~ In id ["documentsList"; "totalDocs"; "totalSize"] ->
                        getElementById id (after r) = getElementById id w3)
    as (Hout & Hlog & Htok & Huser & Hpage).
  { pose proof (renderDocuments_same_fields net usr w3)
      as (H1 & H2 & H3 & _ & _ & _).
    pose proof (fun id => renderDocuments_touches id net usr w3) as Hdrawn.
    fold drawn in H1, H2, H3, Hdrawn. subst r.
    destruct (outcome drawn) as [[]|e].
    - split; [apply run_loadDocuments_outcome|].
      destruct (loadDocuments_session (net_rest drawn) (usr_rest drawn)
                  (emit (Notify "Login successful! Welcome to admin panel."
                           "success") (after drawn)))
        as (L1 & L2 & L3 & _).
      rewrite L1, L2, L3. cbn [isLoggedIn authToken currentUser emit].
      do 3 (split; [assumption|]). intros id Hid.
      rewrite loadDocuments_elsewhere by exact Hid.
      rewrite getElementById_emit. by apply Hdrawn.
    - cbn [outcome after isLoggedIn authToken currentUser emit].
      split; [reflexivity|]. do 3 (split; [assumption|]). intros id Hid.
      rewrite getElementById_emit. by apply Hdrawn. }
  clearbody r. clear drawn.
  split; [exact Hout|].
  assert (isLoggedIn w3 = true /\ authToken w3 = opt_prop v "access_token"
          /\ currentUser w3 = opt_prop v "user") as (S1 & S2 & S3).
  { subst w3. cbn [isLoggedIn authToken currentUser with_el set_dom].
    match goal with
    | |- context [form_reset ?form ?fields ?x] =>
        destruct (form_reset_dom form fields x) as [d ->]
    end.
    by repeat split. }
  rewrite Hlog, Htok, Huser. do 3 (split; [assumption|]).
  assert (forall id, getElementById id w0 = getElementById id w) as Hw0
    by (intros id; subst w0; by dom_lookup).
  unfold concealed, displayed.
  rewrite !Hpage by (cbn; intros [H|[H|[H|[]]]]; discriminate H).
  subst w3.
  split; [|split; [|split; [|split; [|split]]]].
  - dom_lookup.
    rewrite getElementById_form_reset_ne
      by (cbn; intros [H|[H|[]]]; discriminate H).
    dom_lookup. by destruct (getElementById "loginModal" w0).
  - dom_lookup. by destruct (getElementById "mainView" _).
  - dom_lookup. by destruct (getElementById "adminPanel" _).
  - dom_lookup. by destruct (getElementById "adminLoginBtn" _).
  - dom_lookup. by destruct (getElementById "logoutBtn" _).
  - intros [loginForm Hform]. dom_lookup. unfold form_reset.
    rewrite getElementById_with_el_ne, Hw0, Hform by done.
    cbn [fold_right]. dom_lookup. rewrite !Hw0, Hu, Hp. by split.
Qed.

Lemma login_success_opens_admin_panel_witness :
  let r := run handleLogin
             [ok_json (VObj [("access_token", VStr "t"); ("user", VStr "admin")])]
             [] login_ready in
  isLoggedIn (after r) = true
  /\ authToken (after r) = VStr "t"
  /\ displayed "adminPanel" "block" (after r) = true
  /\ el_value <$> getElementById "password" (after r) = Some EmptyString.
Proof.
  intros r.
  destruct (login_success_opens_admin_panel
              (ok_json (VObj [("access_token", VStr "t"); ("user", VStr "admin")]))
              [] [] login_ready (set_value "admin" blank)
              (set_value "wrong" blank)
              (VObj [("access_token", VStr "t"); ("user", VStr "admin")]))
    as (_ & Hlog & Htoken & _ & _ & _ & Hpanel & _ & _ & Hform);
    [reflexivity|reflexivity
    |intros H; vm_compute in H; discriminate H
    |intros H; vm_compute in H; discriminate H
    |reflexivity|reflexivity|].
  destruct Hform as [_ Hpassword]; [by eexists|].
  exact (conj Hlog (conj Htoken (conj Hpanel Hpassword))).
Defined.

Lemma login_page_drawn net usr w usernameEl passwordEl v
    (w3 := with_el "logoutBtn" (set_hidden false "inline-flex")
             (with_el "adminLoginBtn" (set_hidden true "none")
                (with_el "adminPanel" (set_hidden false "block")
                   (with_el "mainView" (set_hidden true "none")
                      (form_reset "loginForm" ["username"; "password"]
                         (with_el "loginModal" (set_hidden true "none")
                            (set_isLoggedIn true
                               (set_currentUser (opt_prop v "user")
                                  (set_authToken (opt_prop v "access_token")
                                     (emit (Sent (login_request
                                                    (trim (el_value usernameEl))
                                                    (trim (el_value passwordEl)) w))
                                        (emit (Notify "Logging in..." "info")
                                           w))))))))))) :
  let drawn := run renderDocuments net usr w3 in
  outcome drawn
  = match getElementById "documentsList" w with
    | Some _ =>
        if well_listed (uploadedDocuments w) then Returned tt
        else Thrown TypeError
    | None => Returned tt
    end
  /\ isLoggedIn (after drawn) = true
  /\ authToken (after drawn) = opt_prop v "access_token"
  /\ log (after drawn)
     = log w ++ [Notify "Logging in..." "info";
                 Sent (login_request (trim (el_value usernameEl))
                         (trim (el_value passwordEl)) w)].
Proof.
  intros drawn. subst drawn.
  pose proof (renderDocuments_same_fields net usr w3)
    as (H1 & _ & H3 & _ & _ & H6).
  rewrite renderDocuments_outcome, H1, H3, H6. subst w3.
  dom_lookup.
  rewrite getElementById_form_reset_ne
    by (cbn; intros [H|[H|[]]]; discriminate H).
  dom_lookup.
  cbn [isLoggedIn authToken uploadedDocuments log with_el set_dom].
  match goal with
  | |- context [form_reset ?form ?fields ?x] =>
      destruct (form_reset_dom form fields x) as [d ->]
  end.
  cbn. rewrite <- app_assoc. by repeat split.
Qed.




(** X23: when the list held at the time of an accepted login cannot be
    drawn (it is not an array, or holds a [null]), the user is told that the
    login failed, and no list is fetched, although the session is logged in
    with the token received. *)
Theorem accepted_login_reported_failed (answer : fetch_result)
    (net : list fetch_result) (usr : list bool) (w : world)
    (usernameEl passwordEl documentsList : element) (v : jsval) :
  getElementById "username" w = Some usernameEl ->
  getElementById "password" w = Some passwordEl ->
  trim (el_value usernameEl) <> EmptyString ->
  trim (el_value passwordEl) <> EmptyString ->
  api_outcome answer = Returned v ->
  truthy (opt_prop v "access_token") = true ->
  getElementById "documentsList" w = Some documentsList ->
  well_listed (uploadedDocuments w) = false ->
  let r := run handleLogin (answer :: net) usr w in
  outcome r = Returned tt
  /\ isLoggedIn (after r) = true
  /\ authToken (after r) = opt_prop v "access_token"
  /\ requests (log (after r))
     = requests (log w)
       ++ [login_request (trim (el_value usernameEl))
             (trim (el_value passwordEl)) w]
  /\ notices (log (after r))
     = notices (log w)
       ++ [("Logging in...", "info");
           ("Login failed. Please check your credentials.", "error")].
Proof.
  intros Hu Hp Hun Hpw Hanswer Htoken Hlist Hdocs r. subst r.
  rewrite (run_handleLogin_accepted answer net usr w usernameEl passwordEl v
             Hu Hp Hun Hpw Hanswer Htoken). cbv zeta.
  destruct (login_page_drawn net usr w usernameEl passwordEl v)
    as (Hout & Hlog & Htok & Hsofar).
  rewrite Hlist, Hdocs in Hout. revert Hout Hlog Htok Hsofar.
  match goal with
  | |- context [run renderDocuments ?net' ?usr' ?w3] =>
      generalize (run renderDocuments net' usr' w3)
  end.
  intros drawn Hout Hlog Htok Hsofar. rewrite Hout.
  cbn [outcome after isLoggedIn authToken log emit].
  split; [reflexivity|]. split; [exact Hlog|]. split; [exact Htok|].
  rewrite Hsofar, <- app_assoc.
  split.
  - rewrite requests_app. reflexivity.
  - rewrite notices_app. reflexivity.
Qed.

Lemma accepted_login_reported_failed_witness :
  let r := run handleLogin
             [ok_json (VObj [("access_token", VStr "t"); ("user", VStr "admin")])]
             [] (set_uploadedDocuments (VArr [VNull]) login_ready) in
  isLoggedIn (after r) = true
  /\ notices (log (after r))
     = [("Logging in...", "info");
        ("Login failed. Please check your credentials.", "error")].
Proof.
  intros r.
  destruct (accepted_login_reported_failed
              (ok_json (VObj [("access_token", VStr "t"); ("user", VStr "admin")]))
              [] [] (set_uploadedDocuments (VArr [VNull]) login_ready)
              (set_value "admin" blank) (set_value "wrong" blank) blank
              (VObj [("access_token", VStr "t"); ("user", VStr "admin")]))
    as (_ & Hlog & _ & _ & Htold);
    [reflexivity|reflexivity
    |intros H; vm_compute in H; discriminate H
    |intros H; vm_compute in H; discriminate H
    |reflexivity|reflexivity|reflexivity|reflexivity|].
  exact (conj Hlog Htold).
Defined.

(** ** Invariants of the page *)

Lemma follows_reachable C w s :
  fresh w -> follows C (Loop.State w []) s -> Loop.reachable C s.
Proof.
  intros Hw Hs. induction Hs as [|s i s' _ IH Hin Hstep].
  - by constructor.
  - by eapply Loop.reach_step.
Qed.

(** [makeAPICall], for an invariant that the request sent does not break. *)
Lemma wp_makeAPICall_sent C I ep method body
    (Q : result jsval -> world -> Prop) w :
  I (emit (Sent (Request ep method (api_headers w) body)) w) ->
  (forall e w', I w' -> Q (Thrown e) w') ->
  (forall v w', I w' -> Q (Returned v) w') ->
  wp C I (makeAPICall ep method body) Q w.
Proof.
  intros Hsent Hthrow Hret. unfold makeAPICall. apply wp_try_catch. cbn.
  split; [exact Hsent|]. intros [|r] w' Hres Hw'; cbn.
  - by apply Hthrow.
  - destruct (res_ok r); cbn.
    + split; [exact Hw'|]. intros w'' Hw''.
      destruct (res_json r) as [v|]; cbn; [by apply Hret|by apply Hthrow].
    + split; [exact Hw'|]. intros w'' Hw''.
      destruct (res_text r); cbn; by apply Hthrow.
Qed.

Section Frames.

Variable C : request -> fetch_result -> Prop.
Variable I : world -> Prop.

(** What [I] may be indifferent to: the log, the document list, the plain
    elements of the page, those of the view, the session and the history.
    Each method below relies on the ones it needs, and on nothing else. *)
Hypothesis I_notify : forall m t w, I w -> I (emit (Notify m t) w).
Hypothesis I_asked : forall m w, I w -> I (emit (Asked m) w).
Hypothesis I_opened : forall t w, I w -> I (emit (Opened t) w).
Hypothesis I_api :
  forall ep m b w,
    open_endpoint ep = true ->
    I w -> I (emit (Sent (Request ep m (api_headers w) b)) w).
Hypothesis I_sent : forall r w, I w -> I (emit (Sent r) w).
Hypothesis I_docs : forall v w, I w -> I (set_uploadedDocuments v w).
Hypothesis I_plain : forall id f w, plain id = true -> I w -> I (with_el id f w).
Hypothesis I_view : forall id f w, in_view id = true -> I w -> I (with_el id f w).
Hypothesis I_listed : forall f w, I w -> I (with_el "chatHistoryList" f w).
Hypothesis I_chat : forall h w, I w -> I (set_chatHistory h w).
Hypothesis I_logged : forall b w, I w -> I (set_isLoggedIn b w).
Hypothesis I_user : forall v w, I w -> I (set_currentUser v w).
Hypothesis I_token : forall v w, I w -> I (set_authToken v w).

Lemma I_reset form fields w :
  forallb plain fields = true -> I w -> I (form_reset form fields w).
Proof.
  intros Hfields Hw. unfold form_reset. destruct (getElementById form w); [|done].
  induction fields as [|id fields IH]; [done|]. cbn [fold_right].
  cbn [forallb] in Hfields. apply andb_prop in Hfields as [Hid Hfields].
  apply I_plain; [exact Hid|]. by apply IH.
Qed.

Ltac side :=
  intros;
  first [ apply I_notify | apply I_asked | apply I_opened
        | apply I_api; [reflexivity|] | apply I_sent
        | apply I_docs
        | apply I_plain; [reflexivity|] | apply I_view; [reflexivity|]
        | apply I_listed | apply I_chat
        | apply I_logged | apply I_user | apply I_token
        | apply I_reset; [reflexivity|] ];
  assumption.

Ltac keep := repeat (keep_step side); eauto.

Lemma kept_showNotification msg type : keeps C I (showNotification msg type).
Proof. unfold showNotification. keep. Qed.

Lemma kept_showLoginModal : keeps C I showLoginModal.
Proof. unfold showLoginModal. keep. Qed.

Lemma kept_hideLoginModal : keeps C I hideLoginModal.
Proof. unfold hideLoginModal. keep. Qed.

Lemma kept_hideAllModals : keeps C I hideAllModals.
Proof.
  pose proof kept_hideLoginModal.
  unfold hideAllModals, hideUploadProgressModal. keep.
Qed.

Lemma kept_makeAPICall ep method body :
  open_endpoint ep = true -> keeps C I (makeAPICall ep method body).
Proof.
  intros Hep w Hw. apply wp_makeAPICall_sent; [by apply I_api|auto|auto].
Qed.

Lemma kept_makeAPICall_guarded ep method body :
  keeps C I (makeAPICall ep method body).
Proof.
  intros w Hw. apply wp_makeAPICall_sent; [by apply I_sent|auto|auto].
Qed.

Lemma kept_renderDocuments : keeps C I renderDocuments.
Proof. unfold renderDocuments, updateDocumentStats. keep. Qed.

Lemma kept_loadDocuments : keeps C I loadDocuments.
Proof.
  pose proof kept_renderDocuments. pose proof kept_showNotification.
  pose proof (kept_makeAPICall_guarded EpDocuments "GET" NoBody).
  unfold loadDocuments. keep.
Qed.

Lemma kept_handleFileSelect files : keeps C I (handleFileSelect files).
Proof.
  pose proof kept_showNotification. unfold handleFileSelect. keep.
Qed.

Lemma kept_resetUploadForm : keeps C I resetUploadForm.
Proof. unfold resetUploadForm. keep. Qed.

Lemma kept_handleFileUpload :
  keeps C I loadDocuments -> keeps C I handleFileUpload.
Proof.
  intros Hload.
  pose proof kept_showNotification. pose proof kept_resetUploadForm.
  unfold handleFileUpload, uploadFiles, showUploadProgressModal,
    hideUploadProgressModal.
  keep.
Qed.

Lemma kept_downloadDocument id : keeps C I (downloadDocument id).
Proof.
  pose proof kept_showNotification. unfold downloadDocument. keep.
Qed.

Lemma kept_deleteDocument id :
  keeps C I loadDocuments -> keeps C I (deleteDocument id).
Proof.
  intros Hload.
  pose proof kept_showNotification.
  pose proof (kept_makeAPICall_guarded (EpDocument id) "DELETE" NoBody).
  unfold deleteDocument. keep.
Qed.

Lemma kept_updateChatHistoryDisplay : keeps C I updateChatHistoryDisplay.
Proof. unfold updateChatHistoryDisplay. keep. Qed.

Lemma kept_addToChatHistory question : keeps C I (addToChatHistory question).
Proof.
  pose proof kept_updateChatHistoryDisplay. unfold addToChatHistory. keep.
Qed.

Lemma kept_clearChatHistory : keeps C I clearChatHistory.
Proof.
  pose proof kept_updateChatHistoryDisplay. unfold clearChatHistory. keep.
Qed.

Lemma kept_clearResults : keeps C I clearResults.
Proof. unfold clearResults. keep. Qed.

Lemma kept_handleQuestion :
  (forall question, keeps C I (addToChatHistory question)) ->
  keeps C I handleQuestion.
Proof.
  intros Hadd.
  pose proof kept_showNotification.
  pose proof (kept_makeAPICall EpAsk "POST").
  unfold handleQuestion, displayResult, showProcessing, hideProcessing. keep.
Qed.

Lemma kept_updateAuthButtons : keeps C I updateAuthButtons.
Proof. unfold updateAuthButtons. keep. Qed.

Lemma kept_handleLogout : keeps C I handleLogout.
Proof.
  pose proof kept_updateAuthButtons. pose proof kept_showNotification.
  unfold handleLogout, showMainView. keep.
Qed.

Lemma kept_handleLogin : keeps C I loadDocuments -> keeps C I handleLogin.
Proof.
  intros Hload.
  pose proof kept_updateAuthButtons. pose proof kept_showNotification.
  pose proof kept_hideLoginModal. pose proof kept_renderDocuments.
  pose proof (kept_makeAPICall EpLogin "POST").
  unfold handleLogin, showAdminPanel. keep.
Qed.

(** Every call keeps [I] when these four do. *)
Lemma kept_body c :
  keeps C I handleLogin -> keeps C I handleLogout ->
  keeps C I handleFileUpload -> (forall id, keeps C I (deleteDocument id)) ->
  keeps C I handleQuestion -> keeps C I clearChatHistory ->
  keeps C I (body c).
Proof.
  intros Hlogin Hlogout Hupload Hdelete Hask Hclear.
  destruct c; cbn [body];
    auto using kept_handleFileSelect, kept_downloadDocument, kept_clearResults,
      kept_showLoginModal, kept_hideLoginModal, kept_hideAllModals.
Qed.

(** [I] holds at every state that follows one where it holds, when every
    call keeps it and it does not look at what the user types. *)
Lemma follows_inv s0 s :
  (forall c, keeps C I (body c)) ->
  (forall id text w, I w -> I (with_el id (set_value text) w)) ->
  (forall files w, I w -> I (with_el "fileInput" (set_files files) w)) ->
  I (Loop.page s0) -> Forall (task_safe C I) (Loop.tasks s0) ->
  follows C s0 s ->
  I (Loop.page s) /\ Forall (task_safe C I) (Loop.tasks s).
Proof.
  intros Hbody Hedit Hpick Hpage0 Htasks0 Hs.
  induction Hs as [|s i s' Hs [Hpage Htasks] Hin Hstep]; [by split|].
  assert (forall p usr others,
             wp C I p (fun _ w' => I w') (Loop.page s) ->
             Forall (task_safe C I) others ->
             I (Loop.page (Loop.resume p usr (Loop.page s) others))
             /\ Forall (task_safe C I)
                  (Loop.tasks (Loop.resume p usr (Loop.page s) others)))
    as Hresume.
  { intros p usr others Hp Hothers.
    destruct (Loop_advance_safe C I p usr (Loop.page s) Hp) as [H1 H2].
    unfold Loop.resume. destruct (Loop.advance p usr (Loop.page s)) as [w' t].
    cbn in *. split; [exact H1|]. apply Forall_app. by split. }
  assert (forall n, Forall (task_safe C I) (delete n (Loop.tasks s)))
    as Hdelete.
  { intros n. apply Forall_forall. intros t Ht.
    rewrite Forall_forall in Htasks. apply Htasks.
    eapply list_elem_of_delete_inv, Ht. }
  destruct i as [id text|files|c usr|n res usr|n usr]; cbn in Hstep, Hin.
  - injection Hstep as <-. cbn. split; [by apply Hedit|exact Htasks].
  - injection Hstep as <-. cbn. split; [by apply Hpick|exact Htasks].
  - injection Hstep as <-. apply Hresume; [|exact Htasks].
    by apply Hbody.
  - destruct (Loop.tasks s !! n) as [[r k|k]|] eqn:Hn; try discriminate.
    injection Hstep as <-. apply Hresume; [|apply Hdelete].
    rewrite Forall_forall in Htasks.
    apply list_elem_of_lookup_2 in Hn.
    exact (Htasks _ Hn res (Loop.page s) Hin Hpage).
  - destruct (Loop.tasks s !! n) as [[r k|k]|] eqn:Hn; try discriminate.
    injection Hstep as <-. apply Hresume; [|apply Hdelete].
    rewrite Forall_forall in Htasks.
    apply list_elem_of_lookup_2 in Hn.
    exact (Htasks _ Hn (Loop.page s) Hpage).
Qed.

End Frames.

(** ** The view follows the session *)

Lemma view_ids_only w w' :
  isLoggedIn w' = isLoggedIn w ->
  (forall id, in_view id = true ->
              (el_hidden <$> getElementById id w', el_display <$> getElementById id w')
              = (el_hidden <$> getElementById id w, el_display <$> getElementById id w)) ->
  view_matches_session w -> view_matches_session w'.
Proof.
  intros Hlog Hids.
  assert (forall id, in_view id = true -> concealed id w' = concealed id w)
    as Hconcealed.
  { intros id Hid. pose proof (Hids id Hid) as Heq. unfold concealed.
    destruct (getElementById id w'), (getElementById id w); cbn in Heq;
      try discriminate Heq; [|done]. by injection Heq as -> ->. }
  assert (forall id d, in_view id = true -> displayed id d w' = displayed id d w)
    as Hdisplayed.
  { intros id d Hid. pose proof (Hids id Hid) as Heq. unfold displayed.
    destruct (getElementById id w'), (getElementById id w); cbn in Heq;
      try discriminate Heq; [|done]. by injection Heq as -> ->. }
  unfold view_matches_session, admin_view, public_view, main_view.
  by rewrite Hlog, !Hconcealed, !Hdisplayed.
Qed.

Lemma view_with_el id f w :
  in_view id = false ->
  view_matches_session w -> view_matches_session (with_el id f w).
Proof.
  intros Hid. apply view_ids_only; [reflexivity|].
  intros id' Hid'. rewrite !getElementById_with_el_ne; [done|..];
    intros ->; congruence.
Qed.

Lemma view_set_value id text w :
  view_matches_session w ->
  view_matches_session (with_el id (set_value text) w).
Proof.
  apply view_ids_only; [reflexivity|]. intros id' _.
  destruct (decide (id = id')) as [->|Hne].
  - rewrite getElementById_with_el. by destruct (getElementById id' w).
  - by rewrite getElementById_with_el_ne.
Qed.

Lemma view_handleLogout C : keeps C view_matches_session handleLogout.
Proof.
  intros w _. cbn. unfold view_matches_session. cbn [isLoggedIn emit with_el set_dom].
  unfold public_view, main_view, displayed, concealed. dom_lookup.
  by destruct (getElementById "mainView" w), (getElementById "adminPanel" w),
    (getElementById "adminLoginBtn" w), (getElementById "logoutBtn" w).
Qed.

Lemma plain_not_in_view id : plain id = true -> in_view id = false.
Proof.
  intros Hid. apply existsb_exists in Hid as (x & Hin & Heq).
  apply String.eqb_eq in Heq. subst x. cbn in Hin.
  repeat (destruct Hin as [<-|Hin]; [reflexivity|]). destruct Hin.
Qed.

Lemma view_emit e w : view_matches_session w -> view_matches_session (emit e w).
Proof. by apply view_ids_only. Qed.

Lemma view_docs v w :
  view_matches_session w -> view_matches_session (set_uploadedDocuments v w).
Proof. by apply view_ids_only. Qed.

Lemma view_chat h w :
  view_matches_session w -> view_matches_session (set_chatHistory h w).
Proof. by apply view_ids_only. Qed.

Lemma view_plain id f w :
  plain id = true ->
  view_matches_session w -> view_matches_session (with_el id f w).
Proof. intros Hid. apply view_with_el. by apply plain_not_in_view. Qed.

Lemma view_loadDocuments C : keeps C view_matches_session loadDocuments.
Proof.
  apply kept_loadDocuments;
    auto using view_emit, view_docs, view_plain.
Qed.

Lemma view_handleLogin C : keeps C view_matches_session handleLogin.
Proof.
  pose proof (kept_showNotification C view_matches_session
                (fun m t => view_emit (Notify m t))) as Hnotify.
  unfold handleLogin. apply keeps_get_bind. intros w0.
  destruct (getElementById "username" w0) as [usernameEl|]; [|apply keeps_ret].
  destruct (getElementById "password" w0) as [passwordEl|]; [|apply keeps_ret].
  cbv zeta. destruct (_ || _); [auto|].
  apply keeps_try_catch; [|auto].
  apply keeps_bind; [auto|intros _].
  intros w Hw. apply wp_await_bind.
  apply wp_makeAPICall_sent; [by apply view_emit|auto|].
  intros v w1 Hw1. split; [exact Hw1|]. intros w2 Hw2.
  destruct (truthy (opt_prop v "access_token")); [|exact Hw2].
  do 3 apply wp_upd_bind.
  apply wp_bind. unfold hideLoginModal. do 1 apply wp_upd_bind.
  cbn [wp upd]. apply wp_bind. unfold showAdminPanel. do 2 apply wp_upd_bind.
  apply wp_bind. unfold updateAuthButtons. apply wp_get_bind.
  cbn [isLoggedIn with_el set_dom]. rewrite isLoggedIn_form_reset.
  cbn [isLoggedIn with_el set_dom set_isLoggedIn].
  apply wp_upd_bind. cbn [wp upd].
  eapply wp_mono;
    [|apply (kept_renderDocuments C view_matches_session);
      auto using view_plain].
  - intros [[]|e] w3 Hw3; [|exact Hw3].
    apply keeps_bind; [auto| |exact Hw3].
    intros _. apply keeps_await, view_loadDocuments.
  - unfold view_matches_session.
    cbn [isLoggedIn with_el set_dom]. rewrite isLoggedIn_form_reset.
    cbn [isLoggedIn with_el set_dom set_isLoggedIn].
    unfold admin_view, displayed, concealed. dom_lookup.
    rewrite !getElementById_form_reset_ne
      by (cbn; intros [H|[H|[]]]; discriminate H).
    dom_lookup.
    by destruct (getElementById "mainView" w2),
      (getElementById "adminPanel" w2), (getElementById "adminLoginBtn" w2),
      (getElementById "logoutBtn" w2).
Qed.

Lemma view_body C c : keeps C view_matches_session (body c).
Proof.
  assert (forall question,
             keeps C view_matches_session (addToChatHistory question)) as Hadd.
  { intros question. apply kept_addToChatHistory;
      auto using view_chat, view_with_el. }
  apply kept_body; auto using view_emit, view_plain, view_handleLogin,
    view_handleLogout.
  - apply kept_handleFileUpload;
      auto using view_emit, view_plain, view_loadDocuments.
  - intros id. apply kept_deleteDocument;
      auto using view_emit, view_plain, view_loadDocuments.
  - apply kept_handleQuestion; auto using view_emit, view_plain.
  - apply kept_clearChatHistory; auto using view_chat, view_with_el, view_plain.
Qed.

Lemma view_forceMainViewVisible net usr w :
  isLoggedIn w = false ->
  let r := run forceMainViewVisible net usr w in
  outcome r = Returned tt
  /\ view_matches_session (after r)
  /\ concealed "loginModal" (after r) = true
  /\ concealed "uploadProgressModal" (after r) = true
  /\ concealed "processingOverlay" (after r) = true
  /\ same_fields w (after r).
Proof.
  intros Hlog. cbn. rewrite Hlog. cbn.
  split; [reflexivity|]. split; [|split; [|split; [|split]]].
  - unfold view_matches_session. cbn [isLoggedIn with_el set_dom]. rewrite Hlog.
    unfold public_view, main_view, displayed, concealed. dom_lookup.
    by destruct (getElementById "mainView" w),
      (getElementById "adminPanel" w), (getElementById "adminLoginBtn" w),
      (getElementById "logoutBtn" w).
  - unfold concealed. dom_lookup. by destruct (getElementById "loginModal" w).
  - unfold concealed. dom_lookup.
    by destruct (getElementById "uploadProgressModal" w).
  - unfold concealed. dom_lookup.
    by destruct (getElementById "processingOverlay" w).
  - by repeat split.
Qed.

Lemma perform_all_follows C script s0 s s' :
  follows C s0 s -> Loop.within_all C script s ->
  Loop.perform_all script s = Some s' -> follows C s0 s'.
Proof.
  revert s. induction script as [|i script IH]; intros s Hs Hin Hrun; cbn in *.
  - by injection Hrun as <-.
  - destruct Hin as [Hi Hin].
    destruct (Loop.perform i s) as [s1|] eqn:Hstep; [|discriminate].
    apply (IH s1); [|exact Hin|exact Hrun]. by eapply follows_step.
Qed.

Lemma scripted_from_follows script s0 :
  follows Loop.any_answer s0 (scripted_from s0 script).
Proof.
  unfold scripted_from.
  destruct (Loop.perform_all script s0) as [s'|] eqn:Hrun; [|constructor].
  eapply perform_all_follows; [constructor|apply within_all_any|exact Hrun].
Qed.

Lemma scripted_from_started script :
  follows Loop.any_answer
    (Loop.State (after (run forceMainViewVisible [] [] world0)) [])
    (scripted_from started script).
Proof. apply (scripted_from_follows script started). Qed.

(** X24: from the page as [forceMainViewVisible] leaves it at start-up, and
    whatever the user does and the backend answers, what is on the screen
    follows the session each time the page comes to rest: the admin panel
    with the logout button while somebody is logged in, the main view with
    the login button otherwise. *)
Theorem view_follows_session (w : world) (s : Loop.state) :
  fresh w ->
  follows Loop.any_answer
    (Loop.State (after (run forceMainViewVisible [] [] w)) []) s ->
  view_matches_session (Loop.page s).
Proof.
  intros Hw Hs.
  destruct (view_forceMainViewVisible [] [] w (proj1 Hw)) as (_ & Hview & _).
  apply (follows_inv Loop.any_answer view_matches_session _ s
           (view_body Loop.any_answer)) in Hs;
    [exact (proj1 Hs)|..]; auto using view_set_value, view_plain.
Qed.

Lemma view_follows_session_witness :
  view_matches_session (Loop.page (scripted_from started in_and_out)).
Proof.
  apply (view_follows_session world0 (scripted_from started in_and_out)).
  - by repeat split.
  - apply scripted_from_started.
Defined.

(** ** The history on the page *)

Lemma history_only w w' :
  chatHistory w' = chatHistory w ->
  el_children <$> getElementById "chatHistoryList" w'
  = el_children <$> getElementById "chatHistoryList" w ->
  history_shown w -> history_shown w'.
Proof.
  unfold history_shown. intros -> Heq.
  destruct (getElementById "chatHistoryList" w'),
    (getElementById "chatHistoryList" w); cbn in Heq; try discriminate Heq;
    [|done]. by injection Heq as ->.
Qed.

Lemma history_with_el id f w :
  id <> "chatHistoryList" ->
  history_shown w -> history_shown (with_el id f w).
Proof.
  intros Hid. apply history_only; [reflexivity|].
  by rewrite getElementById_with_el_ne.
Qed.

Lemma history_plain id f w :
  plain id = true -> history_shown w -> history_shown (with_el id f w).
Proof. intros Hid. apply history_with_el. by intros ->. Qed.

Lemma history_in_view id f w :
  in_view id = true -> history_shown w -> history_shown (with_el id f w).
Proof. intros Hid. apply history_with_el. by intros ->. Qed.

Lemma history_set_value id text w :
  history_shown w -> history_shown (with_el id (set_value text) w).
Proof.
  apply history_only; [reflexivity|].
  destruct (decide (id = "chatHistoryList")) as [->|Hne].
  - rewrite getElementById_with_el. by destruct (getElementById _ w).
  - by rewrite getElementById_with_el_ne.
Qed.

Lemma history_emit e w : history_shown w -> history_shown (emit e w).
Proof. by apply history_only. Qed.

Lemma history_updateChatHistoryDisplay C w (Q : result unit -> world -> Prop) :
  (forall w', history_shown w' -> Q (Returned tt) w') ->
  wp C history_shown updateChatHistoryDisplay Q w.
Proof.
  intros HQ. cbn. apply HQ. unfold history_shown.
  rewrite getElementById_with_el.
  by destruct (getElementById "chatHistoryList" w).
Qed.

Lemma history_addToChatHistory C question :
  keeps C history_shown (addToChatHistory question).
Proof.
  intros w _. unfold addToChatHistory. apply wp_upd_bind.
  by apply history_updateChatHistoryDisplay.
Qed.

Lemma history_clearChatHistory C : keeps C history_shown clearChatHistory.
Proof.
  intros w _. unfold clearChatHistory. apply wp_upd_bind. apply wp_bind.
  apply history_updateChatHistoryDisplay. intros w' Hw'. cbn.
  by apply history_with_el.
Qed.

Lemma history_body C c : keeps C history_shown (body c).
Proof.
  assert (keeps C history_shown loadDocuments) as Hload.
  { apply kept_loadDocuments; auto using history_emit, history_plain. }
  apply kept_body;
    auto using history_emit, history_plain, history_clearChatHistory.
  - apply kept_handleLogin;
      auto using history_emit, history_plain, history_in_view.
  - apply kept_handleLogout;
      auto using history_emit, history_plain, history_in_view.
  - apply kept_handleFileUpload; auto using history_emit, history_plain.
  - intros id. apply kept_deleteDocument;
      auto using history_emit, history_plain.
  - apply kept_handleQuestion;
      auto using history_emit, history_plain, history_addToChatHistory.
Qed.

(** X25: once the history on the page is the history held, it stays so
    each time the page comes to rest, whatever the user does and the backend
    answers: the list shows the questions held, newest first, and nothing
    else writes to it. *)
Theorem history_on_page (s0 s : Loop.state) :
  Loop.tasks s0 = [] ->
  history_shown (Loop.page s0) ->
  follows Loop.any_answer s0 s ->
  history_shown (Loop.page s).
Proof.
  intros Htasks Hshown Hs.
  apply (follows_inv Loop.any_answer history_shown s0 s
           (history_body Loop.any_answer)) in Hs;
    [exact (proj1 Hs)|..]; auto using history_set_value, history_plain.
  rewrite Htasks. constructor.
Qed.

Lemma history_on_page_witness :
  history_shown
    (Loop.page (scripted_from started (ask_all ["what is x?"; "and y?"]))).
Proof.
  apply (history_on_page started
           (scripted_from started (ask_all ["what is x?"; "and y?"]))).
  - reflexivity.
  - vm_compute. reflexivity.
  - apply scripted_from_follows.
Defined.

(** ** Requests carry the session's token *)
























(** ** The health check *)

(** X27: [testConnection] never throws.  It sends one GET for the health
    endpoint and returns [true] when that is answered ok with a body that
    parses; on anything else it returns [false] and tells the user that the
    backend cannot be reached.  It touches neither the page nor the
    controller's fields. *)
Theorem testConnection_reports (net : list fetch_result) (usr : list bool)
    (w : world) :
  let answer := List.hd Rejected net in
  let r := run testConnection net usr w in
  outcome r = Returned (negb (api_fails answer))
  /\ net_rest r = List.tl net
  /\ log (after r)
     = log w
       ++ Sent (Request EpHealth "GET" (api_headers w) NoBody)
          :: (if api_fails answer then
                [Notify
                   "Backend connection failed. Please check if the server is running."
                   "error"]
              else [])
  /\ dom (after r) = dom w
  /\ isLoggedIn (after r) = isLoggedIn w /\ authToken (after r) = authToken w
  /\ currentUser (after r) = currentUser w
  /\ chatHistory (after r) = chatHistory w
  /\ uploadedDocuments (after r) = uploadedDocuments w.
Proof.
  intros answer r. subst r answer. unfold testConnection.
  rewrite run_try_catch, run_bind, run_await, run_makeAPICall. cbv zeta.
  cbn [outcome after net_rest usr_rest].
  destruct (List.hd Rejected net) as [|resp]; cbn [api_outcome api_fails].
  { cbn. rewrite <- app_assoc. by repeat split. }
  destruct (res_ok resp); cbn [negb orb].
  - destruct (res_json resp); cbn; [by repeat split|].
    rewrite <- app_assoc. by repeat split.
  - destruct (res_text resp); cbn; rewrite <- app_assoc; by repeat split.
Qed.
